(** * FoodRush: order lifecycle, pricing, delivery OTP and rating aggregation

    A shallow embedding of the order controller, the delivery-partner
    controller, the save hooks of the review schema and the mongoose
    schemas they use (Order, MenuItem, Restaurant, DeliveryPartner, Review,
    User).

    Conventions of the embedding.
    - A JavaScript [Number] is an IEEE 754 double.  Every finite double
      is a rational, so numbers are carried in [Q]; [JS.double] rounds a
      rational to the nearest double (53-bit significand, ties to even),
      and [JS.add], [JS.sub], [JS.mul], [JS.div] are the exact operation
      followed by that rounding, as IEEE 754 defines them.  The exponent
      range is taken unbounded: amounts, ratings and counts stay far from
      overflow and underflow, and neither NaN, nor an infinity, nor a
      division by zero arises in the code modelled here.  Comparisons,
      [Math.round] and [||] are exact on doubles and are written out
      below.  A decimal literal of the source ([0.02]) is the double
      nearest to it.  A counter that is incremented by one is exact below
      [2^53] and is written with the exact sum.
    - A [Date] is the number of milliseconds since the epoch ([Z]); the
      clock ([new Date()]) is an argument of every handler that reads it.
    - An [ObjectId] is an [N]; [a.toString() === b.toString()] on ids is
      equality.
    - The collections looked up by [_id] only are finite maps; the
      collections that are also searched by another field, or scanned, are
      lists of documents in natural order.
    - A handler returns what it sends ([Json code success message]) or the
      error it throws ([Throw], forwarded to the error middleware by
      [asyncHandler]) together with the store it leaves behind.
    - A stored document satisfies the [enum] constraints of its schema by
      its type; values written by a handler are validated when the document
      is saved, as mongoose does.
    - Fields that no handler modelled here reads back (estimated delivery
      time, free-text instructions, locations, images) are left out of the
      documents; so is the order number of a stored order, which only the
      validation of a new document looks at. *)

From Stdlib Require Import QArith Qround Qpower Qreduction Lqa.
From stdpp Require Import gmap strings list fin_maps.

Local Open Scope string_scope.
Local Open Scope list_scope.

Abbreviation ObjectId := N.
Abbreviation Date := Z.

(** ** JavaScript numbers *)

Module JS.

(** *** Rounding to the nearest double *)

(** The integer nearest to [q], ties to the even one. *)
Definition rne (q : Q) : Z :=
  let f := Qfloor q in
  match Qcompare (q - inject_Z f) (1 # 2) with
  | Lt => f
  | Eq => if Z.even f then f else (f + 1)%Z
  | Gt => (f + 1)%Z
  end.

Definition pow2 (k : Z) : Q := Qpower 2 k.

(** The binary exponent of a positive number: the [k] with
    [2^k <= x < 2^(k+1)]. *)
Definition exponent (x : Q) : Z :=
  let k := (Z.log2 (Qnum x) - Z.log2 (Zpos (Qden x)))%Z in
  if Qle_bool (pow2 k) x then k else (k - 1)%Z.

(** The double nearest to a positive number: its significand, scaled to
    [2^52 <= x / ulp < 2^53], is rounded to a whole number. *)
Definition nearest (x : Q) : Q :=
  let ulp := pow2 (exponent x - 52) in
  Qred (inject_Z (rne (x / ulp)) * ulp).

(** The double nearest to a rational, in lowest terms. *)
Definition double (x : Q) : Q :=
  match Qcompare x 0 with
  | Eq => 0%Q
  | Gt => nearest x
  | Lt => (- nearest (- x))%Q
  end.

(** [a + b], [a - b], [a * b] and [a / b] on numbers. *)
Definition add (a b : Q) : Q := double (a + b).
Definition sub (a b : Q) : Q := double (a - b).
Definition mul (a b : Q) : Q := double (a * b).
Definition div (a b : Q) : Q := double (a / b).

(** *** Functions and operators *)

(** [Math.round(x)]: the integer nearest to [x], ties towards +infinity. *)
Definition Math_round (x : Q) : Q := inject_Z (Qfloor (x + (1 # 2))).

(** Truthiness of a number: every number but 0 (NaN does not arise). *)
Definition truthy (x : Q) : bool := negb (Qeq_bool x 0).

(** [x || y] where [x] is a number. *)
Definition or_num (x y : Q) : Q := if truthy x then x else y.

(** [x || y] where [x] may be [undefined]. *)
Definition or_undef (x : option Q) (y : Q) : Q :=
  match x with
  | Some v => or_num v y
  | None => y
  end.

(** [s || d] where [s] is a string or [undefined]: the empty string is
    falsy. *)
Definition or_str (s : option string) (d : string) : string :=
  match s with
  | Some v => if decide (v = "") then d else v
  | None => d
  end.

(** [a <= b] and [a < b] on numbers. *)
Definition le (a b : Q) : bool := Qle_bool a b.
Definition lt (a b : Q) : bool := negb (Qle_bool b a).

End JS.

(** ** Schema enumerations *)

(** [orderSchema.orderStatus.enum] *)
Module OrderStatus.
Inductive t :=
| pending | confirmed | preparing | ready_for_pickup
| out_for_delivery | delivered | cancelled | refunded.

Definition to_string (s : t) : string :=
  match s with
  | pending => "pending"
  | confirmed => "confirmed"
  | preparing => "preparing"
  | ready_for_pickup => "ready_for_pickup"
  | out_for_delivery => "out_for_delivery"
  | delivered => "delivered"
  | cancelled => "cancelled"
  | refunded => "refunded"
  end.

Definition all : list t :=
  [pending; confirmed; preparing; ready_for_pickup;
   out_for_delivery; delivered; cancelled; refunded].

(** The enum validator run on a string assigned to [orderStatus]. *)
Definition of_string (s : string) : option t :=
  List.find (fun v => bool_decide (to_string v = s)) all.

#[global] Instance eq_dec : EqDecision t.
Proof. solve_decision. Defined.
End OrderStatus.

(** [userSchema.role.enum] *)
Module Role.
Inductive t := customer | restaurant_owner | admin.

Definition to_string (r : t) : string :=
  match r with
  | customer => "customer"
  | restaurant_owner => "restaurant_owner"
  | admin => "admin"
  end.

#[global] Instance eq_dec : EqDecision t.
Proof. solve_decision. Defined.
End Role.

(** [orderSchema.cancellationDetails.cancelledBy.enum] *)
Module CancelledBy.
Inductive t := customer | restaurant | admin | system.

Definition to_string (c : t) : string :=
  match c with
  | customer => "customer"
  | restaurant => "restaurant"
  | admin => "admin"
  | system => "system"
  end.

Definition all : list t := [customer; restaurant; admin; system].

(** The enum validator run on a string assigned to [cancelledBy]. *)
Definition of_string (s : string) : option t :=
  List.find (fun v => bool_decide (to_string v = s)) all.
End CancelledBy.

(** [orderSchema.cancellationReason.enum] *)
Inductive CancellationReason :=
| customer_request | restaurant_unavailable | item_unavailable
| payment_failed | delivery_partner_unavailable | weather_conditions
| other_reason.

(** [orderSchema.cancellationDetails.refundStatus.enum] *)
Inductive RefundStatus := refund_pending | refund_processed | refund_failed.

(** [orderSchema.paymentMethod.enum] *)
Definition paymentMethods : list string :=
  ["cash_on_delivery"; "card"; "upi"; "wallet"; "net_banking"].

(** The user attached to the request by the authentication middleware. *)
Module User.
Record t := { _id : ObjectId; role : Role.t }.
End User.

(** ** Documents *)

(** [menuItemSchema]: the fields read by order creation. *)
Module MenuItem.
Record Variant := {
  variant_name : string;
  variant_price : Q;
  variant_discountedPrice : option Q;
  variant_isAvailable : bool }.

Record AddOn := {
  addOn_name : string;
  addOn_price : Q;
  addOn_isAvailable : bool }.

Record t := {
  name : string;
  price : Q;
  discountedPrice : option Q;
  isAvailable : bool;
  variants : list Variant;
  addOns : list AddOn;
  rating_average : Q;
  rating_count : nat }.

(** [menuItemSchema.virtual("finalPrice")] *)
Definition finalPrice (m : t) : Q := JS.or_undef (discountedPrice m) (price m).
End MenuItem.

(** [restaurantSchema]: the fields read by the order and review paths. *)
Module Restaurant.
Record t := {
  owner : ObjectId;
  isActive : bool;
  minimumOrder : Q;
  deliveryFee : Q;
  rating_average : Q;
  rating_count : nat }.
End Restaurant.

(** [addressSchema]: the owner of the address. *)
Module Address.
Record t := { user : ObjectId }.
End Address.

(** [orderSchema] *)
Module Order.
Record Variant := { variant_name : string; variant_price : option Q }.

Record AddOn := { addOn_name : string; addOn_price : option Q }.

Record SelectedOption := {
  option_name : string;
  priceModifier : option Q }.

Record Customization := {
  customization_name : string;
  selectedOptions : list SelectedOption }.

Record Item := {
  menuItem : ObjectId;
  name : string;
  price : Q;
  quantity : Q;
  variant : option Variant;
  addOns : list AddOn;
  customizations : list Customization;
  itemTotal : Q }.

Record Pricing := {
  subtotal : Q;
  deliveryFee : Q;
  cgst : Q;
  sgst : Q;
  igst : Q;
  discount_amount : Q;
  platformFee : Q;
  packagingFee : Q;
  total : Q }.

Record TimelineEntry := { status : string; timestamp : Date }.

Record CancellationDetails := {
  reason : string;
  cancelledBy : CancelledBy.t;
  refundAmount : Q;
  refundStatus : RefundStatus }.

(** [otp] is a nested path: the object always exists, its two fields may
    be unset. *)
Record Otp := { code : option string; expiresAt : option Date }.

Record t := {
  customer : ObjectId;
  restaurant : ObjectId;
  deliveryPartner : option ObjectId;
  items : list Item;
  deliveryAddress : ObjectId;
  orderStatus : OrderStatus.t;
  paymentMethod : string;
  pricing : Pricing;
  actualDeliveryTime : option Date;
  timeline : list TimelineEntry;
  cancellationReason : option CancellationReason;
  cancellationDetails : option CancellationDetails;
  otp : Otp }.

Definition set_orderStatus (v : OrderStatus.t) (o : t) : t :=
  {| customer := customer o; restaurant := restaurant o;
     deliveryPartner := deliveryPartner o; items := items o;
     deliveryAddress := deliveryAddress o; orderStatus := v;
     paymentMethod := paymentMethod o; pricing := pricing o;
     actualDeliveryTime := actualDeliveryTime o; timeline := timeline o;
     cancellationReason := cancellationReason o;
     cancellationDetails := cancellationDetails o; otp := otp o |}.

Definition set_deliveryPartner (v : option ObjectId) (o : t) : t :=
  {| customer := customer o; restaurant := restaurant o;
     deliveryPartner := v; items := items o;
     deliveryAddress := deliveryAddress o; orderStatus := orderStatus o;
     paymentMethod := paymentMethod o; pricing := pricing o;
     actualDeliveryTime := actualDeliveryTime o; timeline := timeline o;
     cancellationReason := cancellationReason o;
     cancellationDetails := cancellationDetails o; otp := otp o |}.

Definition set_actualDeliveryTime (v : option Date) (o : t) : t :=
  {| customer := customer o; restaurant := restaurant o;
     deliveryPartner := deliveryPartner o; items := items o;
     deliveryAddress := deliveryAddress o; orderStatus := orderStatus o;
     paymentMethod := paymentMethod o; pricing := pricing o;
     actualDeliveryTime := v; timeline := timeline o;
     cancellationReason := cancellationReason o;
     cancellationDetails := cancellationDetails o; otp := otp o |}.

Definition set_timeline (v : list TimelineEntry) (o : t) : t :=
  {| customer := customer o; restaurant := restaurant o;
     deliveryPartner := deliveryPartner o; items := items o;
     deliveryAddress := deliveryAddress o; orderStatus := orderStatus o;
     paymentMethod := paymentMethod o; pricing := pricing o;
     actualDeliveryTime := actualDeliveryTime o; timeline := v;
     cancellationReason := cancellationReason o;
     cancellationDetails := cancellationDetails o; otp := otp o |}.

Definition set_cancellation (r : option CancellationReason)
    (d : option CancellationDetails) (o : t) : t :=
  {| customer := customer o; restaurant := restaurant o;
     deliveryPartner := deliveryPartner o; items := items o;
     deliveryAddress := deliveryAddress o; orderStatus := orderStatus o;
     paymentMethod := paymentMethod o; pricing := pricing o;
     actualDeliveryTime := actualDeliveryTime o; timeline := timeline o;
     cancellationReason := r; cancellationDetails := d; otp := otp o |}.

Definition set_otp (v : Otp) (o : t) : t :=
  {| customer := customer o; restaurant := restaurant o;
     deliveryPartner := deliveryPartner o; items := items o;
     deliveryAddress := deliveryAddress o; orderStatus := orderStatus o;
     paymentMethod := paymentMethod o; pricing := pricing o;
     actualDeliveryTime := actualDeliveryTime o; timeline := timeline o;
     cancellationReason := cancellationReason o;
     cancellationDetails := cancellationDetails o; otp := v |}.

(** The status written to the timeline by the second [pre("save")] hook. *)
Definition timelineStatus (s : OrderStatus.t) : string :=
  match s with
  | OrderStatus.pending => "order_placed"
  | OrderStatus.confirmed => "order_confirmed"
  | OrderStatus.preparing => "preparing"
  | OrderStatus.ready_for_pickup => "ready_for_pickup"
  | OrderStatus.out_for_delivery => "out_for_delivery"
  | OrderStatus.delivered => "delivered"
  | OrderStatus.cancelled => "cancelled"
  | _ => OrderStatus.to_string s
  end.

(** [orderSchema.pre("save")]: a timeline entry is pushed when
    [orderStatus] is modified, i.e. differs from the loaded value. *)
Definition preSave (loaded o : t) (now : Date) : t :=
  if decide (orderStatus o = orderStatus loaded) then o
  else set_timeline
         (timeline o ++ [{| status := timelineStatus (orderStatus o);
                            timestamp := now |}]) o.
End Order.

(** [deliveryPartnerSchema]: availability, approval, current order and
    statistics. *)
Module DeliveryPartner.
Record Statistics := {
  totalOrders : Q;
  completedOrders : Q;
  cancelledOrders : Q;
  rating_average : Q;
  rating_count : nat;
  completionRate : Q }.

Record t := {
  _id : ObjectId;
  user : ObjectId;
  isOnline : bool;
  isApproved : bool;
  currentOrder : option ObjectId;
  statistics : Statistics }.

Definition set_isOnline (v : bool) (p : t) : t :=
  {| _id := _id p; user := user p; isOnline := v;
     isApproved := isApproved p; currentOrder := currentOrder p;
     statistics := statistics p |}.

Definition set_isApproved (v : bool) (p : t) : t :=
  {| _id := _id p; user := user p; isOnline := isOnline p;
     isApproved := v; currentOrder := currentOrder p;
     statistics := statistics p |}.

Definition set_currentOrder (v : option ObjectId) (p : t) : t :=
  {| _id := _id p; user := user p; isOnline := isOnline p;
     isApproved := isApproved p; currentOrder := v;
     statistics := statistics p |}.

Definition set_statistics (v : Statistics) (p : t) : t :=
  {| _id := _id p; user := user p; isOnline := isOnline p;
     isApproved := isApproved p; currentOrder := currentOrder p;
     statistics := v |}.

Definition set_totalOrders (v : Q) (s : Statistics) : Statistics :=
  {| totalOrders := v; completedOrders := completedOrders s;
     cancelledOrders := cancelledOrders s;
     rating_average := rating_average s; rating_count := rating_count s;
     completionRate := completionRate s |}.

Definition set_completionRate (v : Q) (s : Statistics) : Statistics :=
  {| totalOrders := totalOrders s; completedOrders := completedOrders s;
     cancelledOrders := cancelledOrders s;
     rating_average := rating_average s; rating_count := rating_count s;
     completionRate := v |}.

Definition set_rating (a : Q) (c : nat) (s : Statistics) : Statistics :=
  {| totalOrders := totalOrders s; completedOrders := completedOrders s;
     cancelledOrders := cancelledOrders s;
     rating_average := a; rating_count := c;
     completionRate := completionRate s |}.

(** [deliveryPartnerSchema.pre("save")]: the completion rate is
    recomputed when the partner has orders. *)
Definition preSave (p : t) : t :=
  let st := statistics p in
  if JS.lt 0 (totalOrders st) then
    set_statistics
      (set_completionRate
         (JS.Math_round
            (JS.mul (JS.div (completedOrders st) (totalOrders st)) 100)) st) p
  else p.
End DeliveryPartner.

(** [reviewSchema]: references, ratings and moderation flag. *)
Module Review.
Record ItemRating := { item : ObjectId; rating : Q }.

Record t := {
  _id : ObjectId;
  order : ObjectId;
  customer : ObjectId;
  restaurant : ObjectId;
  deliveryPartner : option ObjectId;
  menuItems : list ItemRating;
  food : Q;
  delivery : Q;
  service : Q;
  overall : Q;
  isHidden : bool }.
End Review.

(** ** The store and the responses *)

Record Store := {
  restaurants : gmap N Restaurant.t;
  addresses : gmap N Address.t;
  menuItems : gmap N MenuItem.t;
  orders : gmap N Order.t;
  partners : list DeliveryPartner.t;
  reviews : list Review.t }.

Definition set_orders (v : gmap N Order.t) (s : Store) : Store :=
  {| restaurants := restaurants s; addresses := addresses s;
     menuItems := menuItems s; orders := v; partners := partners s;
     reviews := reviews s |}.

Definition set_partners (v : list DeliveryPartner.t) (s : Store) : Store :=
  {| restaurants := restaurants s; addresses := addresses s;
     menuItems := menuItems s; orders := orders s; partners := v;
     reviews := reviews s |}.

Definition set_restaurants (v : gmap N Restaurant.t) (s : Store) : Store :=
  {| restaurants := v; addresses := addresses s;
     menuItems := menuItems s; orders := orders s; partners := partners s;
     reviews := reviews s |}.

Definition set_menuItems (v : gmap N MenuItem.t) (s : Store) : Store :=
  {| restaurants := restaurants s; addresses := addresses s;
     menuItems := v; orders := orders s; partners := partners s;
     reviews := reviews s |}.

Definition set_reviews (v : list Review.t) (s : Store) : Store :=
  {| restaurants := restaurants s; addresses := addresses s;
     menuItems := menuItems s; orders := orders s; partners := partners s;
     reviews := v |}.

(** What a handler does with the request: [res.status(code).json(
    formatResponse(success, message, ...))], or an exception. *)
Inductive Outcome :=
| Json (code : nat) (success : bool) (message : string)
| Throw (error : string).

Definition succeeded (o : Outcome) : bool :=
  match o with
  | Json _ ok _ => ok
  | Throw _ => false
  end.

(** Queries on the delivery-partner collection. *)
Definition findPartnerById (id : ObjectId) (ps : list DeliveryPartner.t)
  : option DeliveryPartner.t :=
  List.find (fun p => bool_decide (DeliveryPartner._id p = id)) ps.

Definition findPartnerByUser (u : ObjectId) (ps : list DeliveryPartner.t)
  : option DeliveryPartner.t :=
  List.find (fun p => bool_decide (DeliveryPartner.user p = u)) ps.

(** [doc.save()] of a loaded partner: the hook runs and the document
    replaces the stored one with the same [_id]. *)
Definition savePartner (p : DeliveryPartner.t) (ps : list DeliveryPartner.t)
  : list DeliveryPartner.t :=
  let p' := DeliveryPartner.preSave p in
  List.map (fun q => if bool_decide (DeliveryPartner._id q = DeliveryPartner._id p)
                     then p' else q) ps.

(** [Model.findByIdAndUpdate(id, {$set: ...})]: no hook runs. *)
Definition updatePartnerById (id : ObjectId)
    (f : DeliveryPartner.t -> DeliveryPartner.t)
    (ps : list DeliveryPartner.t) : list DeliveryPartner.t :=
  List.map (fun q => if bool_decide (DeliveryPartner._id q = id)
                     then f q else q) ps.

(** [order.save()] of a loaded order. *)
Definition saveOrder (id : ObjectId) (loaded o : Order.t) (now : Date)
    (s : Store) : Store :=
  set_orders (<[id := Order.preSave loaded o now]> (orders s)) s.

(** ** Order controller *)

Module Cart.
(** One element of [item.customizations] in the request: the array
    [selectedOptions] may be missing. *)
Record Customization := {
  customization_name : string;
  selectedOptions : option (list Order.SelectedOption) }.

(** One element of [req.body.items]. *)
Record Line := {
  menuItem : ObjectId;
  quantity : Q;
  variant : option Order.Variant;
  addOns : list Order.AddOn;
  customizations : list Customization }.

(** [req.body] of [POST /api/orders]. *)
Record t := {
  restaurant : ObjectId;
  items : list Line;
  deliveryAddress : ObjectId;
  paymentMethod : string }.
End Cart.

Section CreateOrder.
Local Open Scope Q_scope.

(** [menuItem.variants.find((v) => v.name === item.variant.name)] *)
Definition findVariant (m : MenuItem.t) (v : Order.Variant)
  : option MenuItem.Variant :=
  List.find
    (fun mv => bool_decide (MenuItem.variant_name mv = Order.variant_name v))
    (MenuItem.variants m).

(** [menuItem.addOns.find((a) => a.name === addOn.name)] *)
Definition findAddOn (m : MenuItem.t) (a : Order.AddOn)
  : option MenuItem.AddOn :=
  List.find
    (fun ma => bool_decide (MenuItem.addOn_name ma = Order.addOn_name a))
    (MenuItem.addOns m).

(** The unit price [itemPrice] of a cart line. *)
Definition itemPrice (m : MenuItem.t) (item : Cart.Line) : Q :=
  let itemPrice := MenuItem.price m in
  match Cart.variant item with
  | Some v =>
      match findVariant m v with
      | Some variant =>
          JS.or_undef (MenuItem.variant_discountedPrice variant)
                      (MenuItem.variant_price variant)
      | None => itemPrice
      end
  | None => itemPrice
  end.

(** The loop over [item.addOns]. *)
Definition addAddOns (m : MenuItem.t) (item : Cart.Line) (itemTotal : Q) : Q :=
  fold_left
    (fun itemTotal addOn =>
       match findAddOn m addOn with
       | Some menuAddOn =>
           if MenuItem.addOn_isAvailable menuAddOn
           then JS.add itemTotal
                  (JS.mul (MenuItem.addOn_price menuAddOn) (Cart.quantity item))
           else itemTotal
       | None => itemTotal
       end)
    (Cart.addOns item) itemTotal.

(** The loop [for (let option of customization.selectedOptions)]. *)
Definition addOptions (item : Cart.Line) (options : list Order.SelectedOption)
    (itemTotal : Q) : Q :=
  fold_left
    (fun itemTotal option =>
       JS.add itemTotal
         (JS.mul (JS.or_undef (Order.priceModifier option) 0)
                 (Cart.quantity item)))
    options itemTotal.

(** The loop over [item.customizations]: [None] when it throws, which
    [for ... of] does on a customization without [selectedOptions]
    ([undefined] is not iterable). *)
Definition addCustomizations (item : Cart.Line) (itemTotal : Q) : option Q :=
  fold_left
    (fun itemTotal customization =>
       match itemTotal, Cart.selectedOptions customization with
       | Some itemTotal, Some options => Some (addOptions item options itemTotal)
       | _, _ => None
       end)
    (Cart.customizations item) (Some itemTotal).

(** A customization as the order schema casts it: a missing array is
    empty. *)
Definition castCustomization (c : Cart.Customization) : Order.Customization :=
  {| Order.customization_name := Cart.customization_name c;
     Order.selectedOptions := default [] (Cart.selectedOptions c) |}.

(** The element pushed on [orderItems] for one cart line; [None] when the
    loop over the customizations throws. *)
Definition orderItem (m : MenuItem.t) (item : Cart.Line) : option Order.Item :=
  let itemPrice := itemPrice m item in
  let itemTotal := JS.mul itemPrice (Cart.quantity item) in
  let itemTotal := addAddOns m item itemTotal in
  match addCustomizations item itemTotal with
  | None => None
  | Some itemTotal =>
      Some {| Order.menuItem := Cart.menuItem item;
              Order.name := MenuItem.name m;
              Order.price := itemPrice;
              Order.quantity := Cart.quantity item;
              Order.variant := Cart.variant item;
              Order.addOns := Cart.addOns item;
              Order.customizations :=
                List.map castCustomization (Cart.customizations item);
              Order.itemTotal := itemTotal |}
  end.

(** The loop [for (let item of items)]: it returns early with a response
    when a menu item is missing or unavailable, it throws on a
    customization without [selectedOptions], and otherwise it yields
    [subtotal] and [orderItems]. *)
Fixpoint orderItems (menu : gmap N MenuItem.t) (items : list Cart.Line)
    (subtotal : Q) (acc : list Order.Item)
  : Outcome + (Q * list Order.Item) :=
  match items with
  | [] => inr (subtotal, acc)
  | item :: items' =>
      match menu !! Cart.menuItem item with
      | None => inl (Json 400 false "Menu item not found is not available")
      | Some menuItem =>
          if negb (MenuItem.isAvailable menuItem) then
            inl (Json 400 false
                   ("Menu item "
                    ++ JS.or_str (Some (MenuItem.name menuItem)) "not found"
                    ++ " is not available")%string)
          else
            match orderItem menuItem item with
            | None => inl (Throw "TypeError")
            | Some oi =>
                orderItems menu items' (JS.add subtotal (Order.itemTotal oi))
                  (acc ++ [oi])
            end
      end
  end.

(** The pricing block computed from [subtotal] and the restaurant. *)
Definition pricing (subtotal : Q) (restaurantData : Restaurant.t)
  : Order.Pricing :=
  let deliveryFee := JS.or_num (Restaurant.deliveryFee restaurantData) 0 in
  let platformFee := JS.Math_round (JS.mul subtotal (JS.double (2 # 100))) in
  let packagingFee := 10 in
  let taxRate := JS.double (5 # 100) in
  let cgst :=
    JS.div (JS.Math_round (JS.mul (JS.div (JS.mul subtotal taxRate) 2) 100))
           100 in
  let sgst :=
    JS.div (JS.Math_round (JS.mul (JS.div (JS.mul subtotal taxRate) 2) 100))
           100 in
  let total :=
    JS.add (JS.add (JS.add (JS.add (JS.add subtotal deliveryFee) platformFee)
                      packagingFee) cgst) sgst in
  {| Order.subtotal := subtotal;
     Order.deliveryFee := deliveryFee;
     Order.cgst := cgst; Order.sgst := sgst; Order.igst := 0;
     Order.discount_amount := 0;
     Order.platformFee := platformFee;
     Order.packagingFee := packagingFee;
     Order.total := total |}.

(** The validators of [orderSchema] on the items, the payment method and
    the pricing block of a new document: [required], [min] and [enum]. *)
Definition validAddOn (a : Order.AddOn) : bool :=
  negb (bool_decide (Order.addOn_name a = ""))
  && match Order.addOn_price a with
     | Some p => JS.le 0 p
     | None => false
     end.

Definition validItem (i : Order.Item) : bool :=
  negb (bool_decide (Order.name i = ""))
  && JS.le 0 (Order.price i)
  && JS.le 1 (Order.quantity i)
  && forallb validAddOn (Order.addOns i)
  && forallb (fun c => negb (bool_decide (Order.customization_name c = "")))
             (Order.customizations i)
  && JS.le 0 (Order.itemTotal i).

Definition validPricing (p : Order.Pricing) : bool :=
  JS.le 0 (Order.subtotal p)
  && JS.le 0 (Order.deliveryFee p)
  && JS.le 0 (Order.platformFee p)
  && JS.le 0 (Order.packagingFee p)
  && JS.le 0 (Order.total p).

(** The validation that [Order.create] runs on a new document, before any
    [pre("save")] hook: [orderNumber], the value the document carries for
    that path, is [required]; then the validators above. *)
Definition validOrder (orderNumber : option string) (o : Order.t) : bool :=
  bool_decide (is_Some orderNumber)
  && forallb validItem (Order.items o)
  && bool_decide (Order.paymentMethod o ∈ paymentMethods)
  && validPricing (Order.pricing o).

(** The object that [createOrder] passes to [Order.create], with the
    defaults of the schema.  [orderStatus] takes its default and is not a
    modified path. *)
Definition orderDocument (user : User.t) (body : Cart.t) (now : Date)
    (otpCode : string) (subtotal : Q) (items : list Order.Item)
    (restaurantData : Restaurant.t) : Order.t :=
  {| Order.customer := User._id user;
     Order.restaurant := Cart.restaurant body;
     Order.deliveryPartner := None;
     Order.items := items;
     Order.deliveryAddress := Cart.deliveryAddress body;
     Order.orderStatus := OrderStatus.pending;
     Order.paymentMethod := Cart.paymentMethod body;
     Order.pricing := pricing subtotal restaurantData;
     Order.actualDeliveryTime := None;
     Order.timeline := [];
     Order.cancellationReason := None;
     Order.cancellationDetails := None;
     Order.otp := {| Order.code := Some otpCode;
                     Order.expiresAt := Some (now + 30 * 60000)%Z |} |}.

(** [createOrder].  [otpCode] is the result of [generateOTP(4)] and
    [newId] the [_id] given to the new document.  The object passed to
    [Order.create] has no [orderNumber]: the path is [required], and the
    [pre("save")] hook that would generate the number runs after the
    validation, which therefore fails. *)
Definition createOrder (user : User.t) (body : Cart.t) (now : Date)
    (otpCode : string) (newId : ObjectId) (s : Store) : Outcome * Store :=
  match restaurants s !! Cart.restaurant body with
  | None => (Json 400 false "Restaurant not available", s)
  | Some restaurantData =>
  if negb (Restaurant.isActive restaurantData) then
    (Json 400 false "Restaurant not available", s)
  else
  match addresses s !! Cart.deliveryAddress body with
  | None => (Json 400 false "Invalid delivery address", s)
  | Some address =>
  if negb (bool_decide (Address.user address = User._id user)) then
    (Json 400 false "Invalid delivery address", s)
  else
  match orderItems (menuItems s) (Cart.items body) 0 [] with
  | inl response => (response, s)
  | inr (subtotal, items) =>
  if JS.lt subtotal (Restaurant.minimumOrder restaurantData) then
    (* the message ends with the rupee sign and the restaurant's minimum *)
    (Json 400 false "Minimum order value is", s)
  else
    let orderNumber : option string := None in
    let order :=
      orderDocument user body now otpCode subtotal items restaurantData in
    if validOrder orderNumber order then
      (Json 201 true "Order created successfully",
       set_orders (<[newId := order]> (orders s)) s)
    else (Throw "ValidationError", s)
  end end end.
End CreateOrder.

Section OrderStatusChanges.

(** The object literal [validTransitions] of [updateOrderStatus]. *)
Definition validTransitions : gmap string (list string) :=
  list_to_map
    [("pending", ["confirmed"; "cancelled"]);
     ("confirmed", ["preparing"; "cancelled"]);
     ("preparing", ["ready_for_pickup"; "cancelled"]);
     ("ready_for_pickup", ["out_for_delivery"; "cancelled"]);
     ("out_for_delivery", ["delivered"; "cancelled"]);
     ("delivered", []);
     ("cancelled", []);
     ("refunded", [])].

(** [order.deliveryPartner?.user] after [populate("deliveryPartner")]. *)
Definition populatedPartnerUser (o : Order.t) (s : Store) : option ObjectId :=
  match Order.deliveryPartner o with
  | Some pid => DeliveryPartner.user <$> findPartnerById pid (partners s)
  | None => None
  end.

(** [canUpdate] of [updateOrderStatus]; [None] when reading
    [order.restaurant.owner] throws because the restaurant no longer
    exists.  The disjunction is evaluated left to right. *)
Definition canUpdate (user : User.t) (status : string) (o : Order.t)
    (s : Store) : option bool :=
  if bool_decide (User.role user = Role.admin) then Some true
  else
    match restaurants s !! Order.restaurant o with
    | None => None
    | Some r =>
        Some (bool_decide (Restaurant.owner r = User._id user)
              || bool_decide (populatedPartnerUser o s = Some (User._id user))
              || (bool_decide (status = "cancelled")
                  && bool_decide (Order.customer o = User._id user)))
    end.

(** [updateOrderStatus]: [status] and [reason] come from [req.body]. *)
Definition updateOrderStatus (user : User.t) (id : ObjectId)
    (status : string) (reason : option string) (now : Date) (s : Store)
  : Outcome * Store :=
  match orders s !! id with
  | None => (Json 404 false "Order not found", s)
  | Some order =>
  match canUpdate user status order s with
  | None => (Throw "TypeError", s)
  | Some false => (Json 403 false "Access denied", s)
  | Some true =>
  match validTransitions !! OrderStatus.to_string (Order.orderStatus order) with
  | None => (Throw "TypeError", s)
  | Some targets =>
  if negb (bool_decide (status ∈ targets)) then
    (Json 400 false
       ("Cannot change status from "
        ++ OrderStatus.to_string (Order.orderStatus order)
        ++ " to " ++ status)%string, s)
  else
    (* the assignments are cast and validated by [order.save()] *)
    match OrderStatus.of_string status with
    | None => (Throw "ValidationError", s)
    | Some st =>
    let o1 := Order.set_orderStatus st order in
    let cancellation :=
      if bool_decide (status = "cancelled") then
        match CancelledBy.of_string (Role.to_string (User.role user)) with
        | Some by_ =>
            Some (Order.set_cancellation (Some customer_request)
                    (Some {| Order.reason := JS.or_str reason "No reason provided";
                             Order.cancelledBy := by_;
                             Order.refundAmount :=
                               Order.total (Order.pricing order);
                             Order.refundStatus := refund_pending |}) o1)
        | None => None
        end
      else Some o1 in
    match cancellation with
    | None => (Throw "ValidationError", s)
    | Some o2 =>
        let o3 :=
          if bool_decide (status = "delivered")
          then Order.set_actualDeliveryTime (Some now) o2 else o2 in
        (Json 200 true "Order status updated successfully",
         saveOrder id order o3 now s)
    end end
  end end end.

(** [assignDeliveryPartner] *)
Definition assignDeliveryPartner (user : User.t) (id : ObjectId)
    (deliveryPartnerId : ObjectId) (now : Date) (s : Store)
  : Outcome * Store :=
  match orders s !! id with
  | None => (Json 404 false "Order not found", s)
  | Some order =>
  match restaurants s !! Order.restaurant order with
  | None => (Throw "TypeError", s)
  | Some r =>
  if negb (bool_decide (Restaurant.owner r = User._id user))
     && negb (bool_decide (User.role user = Role.admin)) then
    (Json 403 false "Access denied", s)
  else
  match findPartnerById deliveryPartnerId (partners s) with
  | None => (Json 400 false "Delivery partner not available", s)
  | Some deliveryPartner =>
  if negb (DeliveryPartner.isOnline deliveryPartner) then
    (Json 400 false "Delivery partner not available", s)
  else
    (Json 200 true "Delivery partner assigned successfully",
     saveOrder id order
       (Order.set_deliveryPartner (Some deliveryPartnerId) order) now s)
  end end end.

Definition cancellableStatuses : list string :=
  ["pending"; "confirmed"; "preparing"].

(** [cancelOrder] *)
Definition cancelOrder (user : User.t) (id : ObjectId)
    (reason : option string) (now : Date) (s : Store) : Outcome * Store :=
  match orders s !! id with
  | None => (Json 404 false "Order not found", s)
  | Some order =>
  let canCancel :=
    bool_decide (Order.customer order = User._id user)
    || bool_decide (User.role user = Role.admin) in
  if negb canCancel then (Json 403 false "Access denied", s)
  else if negb (bool_decide
                  (OrderStatus.to_string (Order.orderStatus order)
                   ∈ cancellableStatuses)) then
    (Json 400 false "Order cannot be cancelled at this stage", s)
  else
    let o :=
      Order.set_cancellation (Some customer_request)
        (Some {| Order.reason :=
                   JS.or_str reason "Customer requested cancellation";
                 Order.cancelledBy := CancelledBy.customer;
                 Order.refundAmount := Order.total (Order.pricing order);
                 Order.refundStatus := refund_pending |})
        (Order.set_orderStatus OrderStatus.cancelled order) in
    (Json 200 true "Order cancelled successfully", saveOrder id order o now s)
  end.

(** [new Date() > order.otp.expiresAt]; a comparison with [undefined] is
    false. *)
Definition otpExpired (now : Date) (otp : Order.Otp) : bool :=
  match Order.expiresAt otp with
  | Some e => bool_decide (e < now)%Z
  | None => false
  end.

(** [verifyDeliveryOTP]: [otp] is [req.body.otp]. *)
Definition verifyDeliveryOTP (id : ObjectId) (otp : option string)
    (now : Date) (s : Store) : Outcome * Store :=
  match orders s !! id with
  | None => (Json 404 false "Order not found", s)
  | Some order =>
  if negb (bool_decide (Order.code (Order.otp order) = otp))
     || otpExpired now (Order.otp order) then
    (Json 400 false "Invalid or expired OTP", s)
  else
    let o :=
      Order.set_otp {| Order.code := None; Order.expiresAt := None |}
        (Order.set_actualDeliveryTime (Some now)
           (Order.set_orderStatus OrderStatus.delivered order)) in
    (Json 200 true "Order delivered successfully", saveOrder id order o now s)
  end.
End OrderStatusChanges.

(** ** Delivery-partner controller *)

Section DeliveryPartnerController.
Local Open Scope Q_scope.

(** [acceptOrder] *)
Definition acceptOrder (user : User.t) (orderId : ObjectId) (now : Date)
    (s : Store) : Outcome * Store :=
  match findPartnerByUser (User._id user) (partners s) with
  | None => (Json 400 false "You must be online to accept orders", s)
  | Some deliveryPartner =>
  if negb (DeliveryPartner.isOnline deliveryPartner) then
    (Json 400 false "You must be online to accept orders", s)
  else
  match DeliveryPartner.currentOrder deliveryPartner with
  | Some _ => (Json 400 false "You already have an active order", s)
  | None =>
  match orders s !! orderId with
  | None => (Json 400 false "Order not available for pickup", s)
  | Some order =>
  if negb (bool_decide
             (Order.orderStatus order = OrderStatus.ready_for_pickup))
     || bool_decide (is_Some (Order.deliveryPartner order)) then
    (Json 400 false "Order not available for pickup", s)
  else
    let o :=
      Order.set_orderStatus OrderStatus.out_for_delivery
        (Order.set_deliveryPartner
           (Some (DeliveryPartner._id deliveryPartner)) order) in
    let s1 := saveOrder orderId order o now s in
    let st := DeliveryPartner.statistics deliveryPartner in
    let p :=
      DeliveryPartner.set_statistics
        (DeliveryPartner.set_totalOrders
           (DeliveryPartner.totalOrders st + 1) st)
        (DeliveryPartner.set_currentOrder (Some orderId) deliveryPartner) in
    (Json 200 true "Order accepted successfully",
     set_partners (savePartner p (partners s1)) s1)
  end end end.

(** [updateAvailability] (the location is not modelled) *)
Definition updateAvailability (user : User.t) (isOnline : bool) (s : Store)
  : Outcome * Store :=
  match findPartnerByUser (User._id user) (partners s) with
  | None => (Json 404 false "Delivery partner profile not found", s)
  | Some deliveryPartner =>
  if negb (DeliveryPartner.isApproved deliveryPartner) then
    (Json 400 false "Profile not approved yet", s)
  else
    (Json 200 true (if isOnline then "Status updated to online"
                    else "Status updated to offline"),
     set_partners
       (savePartner (DeliveryPartner.set_isOnline isOnline deliveryPartner)
          (partners s)) s)
  end.

(** [updateApprovalStatus] *)
Definition updateApprovalStatus (id : ObjectId) (isApproved : bool)
    (s : Store) : Outcome * Store :=
  match findPartnerById id (partners s) with
  | None => (Json 404 false "Delivery partner not found", s)
  | Some deliveryPartner =>
    (Json 200 true (if isApproved then "Delivery partner approved"
                    else "Delivery partner rejected"),
     set_partners
       (savePartner (DeliveryPartner.set_isApproved isApproved deliveryPartner)
          (partners s)) s)
  end.

(** [req.body] of [updateMyProfile].  [Object.assign(deliveryPartner,
    req.body)] copies every property of the body onto the document; of
    the body, the top-level property [currentOrder] is modelled: absent
    ([None]), [null] ([Some None]) or an id. *)
Record ProfileBody := { body_currentOrder : option (option ObjectId) }.

(** [updateMyProfile] *)
Definition updateMyProfile (user : User.t) (body : ProfileBody) (s : Store)
  : Outcome * Store :=
  match findPartnerByUser (User._id user) (partners s) with
  | None => (Json 404 false "Delivery partner profile not found", s)
  | Some deliveryPartner =>
    let p :=
      match body_currentOrder body with
      | Some v => DeliveryPartner.set_currentOrder v deliveryPartner
      | None => deliveryPartner
      end in
    (Json 200 true "Profile updated successfully",
     set_partners (savePartner p (partners s)) s)
  end.

(** [applyDeliveryPartner]: [doc] is the document built from
    [{ user: req.user._id, ...req.body }] and the schema defaults, so its
    [user] is the body's when the body has one; [user] carries a unique
    index. *)
Definition applyDeliveryPartner (user : User.t) (doc : DeliveryPartner.t)
    (s : Store) : Outcome * Store :=
  match findPartnerByUser (User._id user) (partners s) with
  | Some _ => (Json 400 false "Delivery partner profile already exists", s)
  | None =>
      if bool_decide
           (is_Some (findPartnerByUser (DeliveryPartner.user doc) (partners s)))
         || bool_decide
              (is_Some (findPartnerById (DeliveryPartner._id doc) (partners s)))
      then (Throw "E11000 duplicate key error", s)
      else
        (Json 201 true "Delivery partner application submitted successfully",
         set_partners (partners s ++ [DeliveryPartner.preSave doc]) s)
  end.
End DeliveryPartnerController.

(** ** Reviews and the rating aggregator *)

Section RatingAggregator.
Local Open Scope Q_scope.

(** [reduce((sum, review) => sum + rating, 0)] *)
Definition sumRatings (l : list Q) : Q := fold_left JS.add l 0.

(** [Math.round(avgRating * 10) / 10] where [avgRating] is the sum of the
    ratings divided by their number. *)
Definition averageRating (ratings : list Q) : Q :=
  let avgRating :=
    JS.div (sumRatings ratings) (inject_Z (Z.of_nat (length ratings))) in
  JS.div (JS.Math_round (JS.mul avgRating 10)) 10.

(** [reviewSchema.pre("save")]: [overall] is recomputed when one of the
    three ratings is modified. *)
Definition reviewPreSave (modified : bool) (r : Review.t) : Review.t :=
  if modified then
    {| Review._id := Review._id r; Review.order := Review.order r;
       Review.customer := Review.customer r;
       Review.restaurant := Review.restaurant r;
       Review.deliveryPartner := Review.deliveryPartner r;
       Review.menuItems := Review.menuItems r;
       Review.food := Review.food r; Review.delivery := Review.delivery r;
       Review.service := Review.service r;
       Review.overall :=
         JS.div
           (JS.Math_round
              (JS.mul
                 (JS.div
                    (JS.add (JS.add (Review.food r) (Review.delivery r))
                            (Review.service r)) 3) 10)) 10;
       Review.isHidden := Review.isHidden r |}
  else r.

(** [Review.find({ restaurant: doc.restaurant })] *)
Definition restaurantReviews (restaurant : ObjectId) (rs : list Review.t)
  : list Review.t :=
  List.filter (fun r => bool_decide (Review.restaurant r = restaurant)) rs.

(** [Review.find({ deliveryPartner: doc.deliveryPartner })] *)
Definition partnerReviews (partner : ObjectId) (rs : list Review.t)
  : list Review.t :=
  List.filter
    (fun r => bool_decide (Review.deliveryPartner r = Some partner)) rs.

(** The [$match], [$unwind], [$match] pipeline: every rating entry of
    every review for the given menu item. *)
Definition itemReviews (item : ObjectId) (rs : list Review.t)
  : list Review.ItemRating :=
  List.filter (fun e => bool_decide (Review.item e = item))
    (List.concat (List.map Review.menuItems rs)).

Definition updateRestaurantRating (doc : Review.t) (s : Store) : Store :=
  let restaurantReviews := restaurantReviews (Review.restaurant doc) (reviews s) in
  if (0 <? length restaurantReviews)%nat then
    set_restaurants
      (alter
         (fun r =>
            {| Restaurant.owner := Restaurant.owner r;
               Restaurant.isActive := Restaurant.isActive r;
               Restaurant.minimumOrder := Restaurant.minimumOrder r;
               Restaurant.deliveryFee := Restaurant.deliveryFee r;
               Restaurant.rating_average :=
                 averageRating (List.map Review.overall restaurantReviews);
               Restaurant.rating_count := length restaurantReviews |})
         (Review.restaurant doc) (restaurants s)) s
  else s.

Definition updatePartnerRating (doc : Review.t) (s : Store) : Store :=
  match Review.deliveryPartner doc with
  | Some pid =>
      let partnerReviews := partnerReviews pid (reviews s) in
      if (0 <? length partnerReviews)%nat then
        set_partners
          (updatePartnerById pid
             (fun p =>
                DeliveryPartner.set_statistics
                  (DeliveryPartner.set_rating
                     (averageRating (List.map Review.delivery partnerReviews))
                     (length partnerReviews)
                     (DeliveryPartner.statistics p)) p)
             (partners s)) s
      else s
  | None => s
  end.

Definition updateItemRating (itemReview : Review.ItemRating) (s : Store)
  : Store :=
  let itemReviews := itemReviews (Review.item itemReview) (reviews s) in
  if (0 <? length itemReviews)%nat then
    set_menuItems
      (alter
         (fun m =>
            {| MenuItem.name := MenuItem.name m;
               MenuItem.price := MenuItem.price m;
               MenuItem.discountedPrice := MenuItem.discountedPrice m;
               MenuItem.isAvailable := MenuItem.isAvailable m;
               MenuItem.variants := MenuItem.variants m;
               MenuItem.addOns := MenuItem.addOns m;
               MenuItem.rating_average :=
                 averageRating (List.map Review.rating itemReviews);
               MenuItem.rating_count := length itemReviews |})
         (Review.item itemReview) (menuItems s)) s
  else s.

(** [reviewSchema.post("save")] *)
Definition reviewPostSave (doc : Review.t) (s : Store) : Store :=
  let s1 := updateRestaurantRating doc s in
  let s2 := updatePartnerRating doc s1 in
  fold_left (fun s itemReview => updateItemRating itemReview s)
    (Review.menuItems doc) s2.

(** Writing the document to the collection: a stored review with the same
    [_id] is replaced, a new one is appended. *)
Definition storeReview (doc : Review.t) (rs : list Review.t) : list Review.t :=
  if existsb (fun r => bool_decide (Review._id r = Review._id doc)) rs then
    List.map (fun r => if bool_decide (Review._id r = Review._id doc)
                       then doc else r) rs
  else rs ++ [doc].

(** [review.save()]: the [pre] hook, the write, the [post] hook. *)
Definition saveReview (modified : bool) (doc : Review.t) (s : Store) : Store :=
  let doc := reviewPreSave modified doc in
  reviewPostSave doc (set_reviews (storeReview doc (reviews s)) s).
End RatingAggregator.

(** * Operations, vocabulary of the specification, samples *)

(** ** Operations *)

Section OperationsModel.

(** The requests that write to orders, delivery partners or ratings.
    [SaveReview] stands for every [review.save()] of the review
    controller. *)
Inductive Op :=
| CreateOrder (user : User.t) (body : Cart.t) (now : Date)
    (otpCode : string) (newId : ObjectId)
| UpdateOrderStatus (user : User.t) (id : ObjectId) (status : string)
    (reason : option string) (now : Date)
| AssignDeliveryPartner (user : User.t) (id deliveryPartnerId : ObjectId)
    (now : Date)
| CancelOrder (user : User.t) (id : ObjectId) (reason : option string)
    (now : Date)
| VerifyDeliveryOTP (id : ObjectId) (otp : option string) (now : Date)
| AcceptOrder (user : User.t) (orderId : ObjectId) (now : Date)
| UpdateAvailability (user : User.t) (isOnline : bool)
| UpdateApprovalStatus (id : ObjectId) (isApproved : bool)
| UpdateMyProfile (user : User.t) (body : ProfileBody)
| ApplyDeliveryPartner (user : User.t) (doc : DeliveryPartner.t)
| SaveReview (modified : bool) (doc : Review.t).

(** The store an operation leaves behind. *)
Definition after (op : Op) (s : Store) : Store :=
  match op with
  | CreateOrder user body now otpCode newId =>
      snd (createOrder user body now otpCode newId s)
  | UpdateOrderStatus user id status reason now =>
      snd (updateOrderStatus user id status reason now s)
  | AssignDeliveryPartner user id deliveryPartnerId now =>
      snd (assignDeliveryPartner user id deliveryPartnerId now s)
  | CancelOrder user id reason now => snd (cancelOrder user id reason now s)
  | VerifyDeliveryOTP id otp now => snd (verifyDeliveryOTP id otp now s)
  | AcceptOrder user orderId now => snd (acceptOrder user orderId now s)
  | UpdateAvailability user isOnline => snd (updateAvailability user isOnline s)
  | UpdateApprovalStatus id isApproved =>
      snd (updateApprovalStatus id isApproved s)
  | UpdateMyProfile user body => snd (updateMyProfile user body s)
  | ApplyDeliveryPartner user doc => snd (applyDeliveryPartner user doc s)
  | SaveReview modified doc => saveReview modified doc s
  end.

(** A sequence of operations, the first of the list first. *)
Definition run (ops : list Op) (s : Store) : Store :=
  fold_left (fun s op => after op s) ops s.

(** A profile update sent by user [u]. *)
Definition profileUpdateBy (u : ObjectId) (op : Op) : Prop :=
  match op with
  | UpdateMyProfile user _ => User._id user = u
  | _ => False
  end.
End OperationsModel.

(** ** Vocabulary *)

Section Vocabulary.
Local Open Scope Q_scope.

(** The rule of the specification for the unit price of a cart line;
    it says nothing of a variant that the menu item does not have. *)
Definition specUnitPrice (m : MenuItem.t) (item : Cart.Line) : option Q :=
  match Cart.variant item with
  | Some v =>
      (fun mv => match MenuItem.variant_discountedPrice mv with
                 | Some d => d
                 | None => MenuItem.variant_price mv
                 end) <$> findVariant m v
  | None =>
      Some (match MenuItem.discountedPrice m with
            | Some d => d
            | None => MenuItem.price m
            end)
  end.










(** [validTransitions[from].includes(to)] on stored statuses. *)
Definition allowed (from to : OrderStatus.t) : bool :=
  match validTransitions !! OrderStatus.to_string from with
  | Some targets => bool_decide (OrderStatus.to_string to ∈ targets)
  | None => false
  end.

(** The words of the specification: the mean of a list of ratings, and
    rounding to one decimal. *)
Definition mean (l : list Q) : Q :=
  fold_right Qplus 0 l / inject_Z (Z.of_nat (length l)).

Definition round1 (x : Q) : Q := JS.Math_round (x * 10) / 10.

(** The reviews of a restaurant that are not hidden. *)
Definition visibleReviews (restaurant : ObjectId) (rs : list Review.t)
  : list Review.t :=
  List.filter (fun r => negb (Review.isHidden r))
    (restaurantReviews restaurant rs).


(** The claim as stated: once a partner has accepted an order, whatever
    happens next, every accept request of that partner fails. *)
Definition partnerNeverReleased : Prop :=
  forall s user orderId now ops orderId' now',
    succeeded (fst (acceptOrder user orderId now s)) = true ->
    succeeded
      (fst (acceptOrder user orderId' now'
              (run ops (snd (acceptOrder user orderId now s))))) = false.

(** From [p] to [p']: the same document of the same user; for user [u],
    a current order stays, the number of completed orders stays, and a
    completion rate of 0 with no completed order stays 0. *)
Definition evolves (u : ObjectId) (p p' : DeliveryPartner.t) : Prop :=
  DeliveryPartner._id p' = DeliveryPartner._id p
  /\ DeliveryPartner.user p' = DeliveryPartner.user p
  /\ (DeliveryPartner.user p = u ->
      (is_Some (DeliveryPartner.currentOrder p) ->
       DeliveryPartner.currentOrder p' = DeliveryPartner.currentOrder p)
      /\ DeliveryPartner.completedOrders (DeliveryPartner.statistics p')
         = DeliveryPartner.completedOrders (DeliveryPartner.statistics p)
      /\ (DeliveryPartner.completedOrders (DeliveryPartner.statistics p) == 0 ->
          DeliveryPartner.completionRate (DeliveryPartner.statistics p) == 0 ->
          DeliveryPartner.completionRate (DeliveryPartner.statistics p') == 0)).

(** The partners after an operation: the former documents, evolved, and
    possibly new documents behind them; ids remain distinct. *)
Definition grows (u : ObjectId) (ps ps' : list DeliveryPartner.t) : Prop :=
  (exists front ext, ps' = front ++ ext /\ Forall2 (evolves u) ps front)
  /\ NoDup (List.map DeliveryPartner._id ps').
End Vocabulary.

(** ** A small marketplace used by the examples *)

Module Sample.
Local Open Scope Q_scope.

Definition customer : User.t := {| User._id := 20; User.role := Role.customer |}.
Definition owner : User.t :=
  {| User._id := 10; User.role := Role.restaurant_owner |}.
Definition rider : User.t := {| User._id := 40; User.role := Role.customer |}.

Definition restaurant : Restaurant.t :=
  {| Restaurant.owner := 10; Restaurant.isActive := true;
     Restaurant.minimumOrder := 50; Restaurant.deliveryFee := 30;
     Restaurant.rating_average := 0; Restaurant.rating_count := 0 |}.

Definition burger : MenuItem.t :=
  {| MenuItem.name := "Burger"; MenuItem.price := 100;
     MenuItem.discountedPrice := Some 80; MenuItem.isAvailable := true;
     MenuItem.variants :=
       [{| MenuItem.variant_name := "Large"; MenuItem.variant_price := 150;
           MenuItem.variant_discountedPrice := Some 120;
           MenuItem.variant_isAvailable := true |}];
     MenuItem.addOns :=
       [{| MenuItem.addOn_name := "Cheese"; MenuItem.addOn_price := 20;
           MenuItem.addOn_isAvailable := true |};
        {| MenuItem.addOn_name := "Bacon"; MenuItem.addOn_price := 30;
           MenuItem.addOn_isAvailable := false |}];
     MenuItem.rating_average := 0; MenuItem.rating_count := 0 |}.

(** A menu item without discount, as in the scenario of the
    specification. *)
Definition pizza : MenuItem.t :=
  {| MenuItem.name := "Pizza"; MenuItem.price := 100;
     MenuItem.discountedPrice := None; MenuItem.isAvailable := true;
     MenuItem.variants := [];
     MenuItem.addOns :=
       [{| MenuItem.addOn_name := "Olives"; MenuItem.addOn_price := 20;
           MenuItem.addOn_isAvailable := true |}];
     MenuItem.rating_average := 0; MenuItem.rating_count := 0 |}.

Definition noStatistics : DeliveryPartner.Statistics :=
  {| DeliveryPartner.totalOrders := 0; DeliveryPartner.completedOrders := 0;
     DeliveryPartner.cancelledOrders := 0;
     DeliveryPartner.rating_average := 0; DeliveryPartner.rating_count := 0;
     DeliveryPartner.completionRate := 0 |}.

Definition partner : DeliveryPartner.t :=
  {| DeliveryPartner._id := 1; DeliveryPartner.user := 40;
     DeliveryPartner.isOnline := true; DeliveryPartner.isApproved := true;
     DeliveryPartner.currentOrder := None;
     DeliveryPartner.statistics := noStatistics |}.

Definition partner2 : DeliveryPartner.t :=
  {| DeliveryPartner._id := 2; DeliveryPartner.user := 41;
     DeliveryPartner.isOnline := true; DeliveryPartner.isApproved := true;
     DeliveryPartner.currentOrder := None;
     DeliveryPartner.statistics := noStatistics |}.

Definition store : Store :=
  {| restaurants := {[ 1%N := restaurant ]};
     addresses := {[ 1%N := {| Address.user := 20 |} ]};
     menuItems := <[ 2%N := pizza ]> {[ 1%N := burger ]};
     orders := ∅;
     partners := [partner; partner2];
     reviews := [] |}.

Definition line (item : ObjectId) (quantity : Q)
    (variant : option Order.Variant) (addOns : list Order.AddOn)
  : Cart.Line :=
  {| Cart.menuItem := item; Cart.quantity := quantity;
     Cart.variant := variant; Cart.addOns := addOns;
     Cart.customizations := [] |}.

Definition cart (lines : list Cart.Line) : Cart.t :=
  {| Cart.restaurant := 1; Cart.items := lines; Cart.deliveryAddress := 1;
     Cart.paymentMethod := "upi" |}.

(** The scenario of the specification: one item priced 100, quantity 2,
    one available add-on priced 20, delivery fee 30, minimum order 50. *)
Definition scenario : Cart.t :=
  cart [line 2 2 None
          [{| Order.addOn_name := "Olives"; Order.addOn_price := Some 20 |}]].

(** The order of the scenario as a stored document, pending, with the
    given OTP: one pizza line of quantity 2 with olives, subtotal 240,
    platform fee 5, taxes 6 and 6, total 297. *)
Definition order (otpCode : string) (expiresAt : Date) : Order.t :=
  {| Order.customer := 20;
     Order.restaurant := 1;
     Order.deliveryPartner := None;
     Order.items :=
       [{| Order.menuItem := 2; Order.name := "Pizza"; Order.price := 100;
           Order.quantity := 2; Order.variant := None;
           Order.addOns :=
             [{| Order.addOn_name := "Olives"; Order.addOn_price := Some 20 |}];
           Order.customizations := []; Order.itemTotal := 240 |}];
     Order.deliveryAddress := 1;
     Order.orderStatus := OrderStatus.pending;
     Order.paymentMethod := "upi";
     Order.pricing :=
       {| Order.subtotal := 240; Order.deliveryFee := 30;
          Order.cgst := 6; Order.sgst := 6; Order.igst := 0;
          Order.discount_amount := 0; Order.platformFee := 5;
          Order.packagingFee := 10; Order.total := 297 |};
     Order.actualDeliveryTime := None;
     Order.timeline := [];
     Order.cancellationReason := None;
     Order.cancellationDetails := None;
     Order.otp := {| Order.code := Some otpCode;
                     Order.expiresAt := Some expiresAt |} |}.

(** A store with one more order, stored under [id] as it is. *)
Definition stored (id : ObjectId) (o : Order.t) (s : Store) : Store :=
  set_orders (<[id := o]> (orders s)) s.

(** The sample store with order 7 of the scenario, whose OTP 4321 expires
    at time 1800000. *)
Definition placedStore : Store := stored 7 (order "4321" 1800000) store.
End Sample.

Section Samples.
Local Open Scope Q_scope.

(** A burger in a size the menu does not list, with an add-on the menu
    does not list and one it marks unavailable. *)
Definition oddLine : Cart.Line :=
  Sample.line 1 1
    (Some {| Order.variant_name := "Huge"; Order.variant_price := None |})
    [{| Order.addOn_name := "Truffle"; Order.addOn_price := Some 5 |};
     {| Order.addOn_name := "Bacon"; Order.addOn_price := Some 30 |}].

(** The sample store with the minimum order of the restaurant raised
    to 90. *)
Definition minimum90 : Store :=
  set_restaurants
    {[ 1%N := {| Restaurant.owner := 10; Restaurant.isActive := true;
                 Restaurant.minimumOrder := 90; Restaurant.deliveryFee := 30;
                 Restaurant.rating_average := 0;
                 Restaurant.rating_count := 0 |} ]}
    Sample.store.

(** The orders of the examples: order 7 of the scenario, moved by the
    restaurant owner to [confirmed], [preparing] and [ready_for_pickup]. *)
Definition confirmedStore : Store :=
  snd (updateOrderStatus Sample.owner 7 "confirmed" None 10 Sample.placedStore).

Definition preparingStore : Store :=
  snd (updateOrderStatus Sample.owner 7 "preparing" None 20 confirmedStore).

Definition readyStore : Store :=
  snd (updateOrderStatus Sample.owner 7 "ready_for_pickup" None 30 preparingStore).

(** A review of the sample restaurant with the same rating on every
    dimension. *)
Definition review (id order : ObjectId) (stars : Q) (hidden : bool)
  : Review.t :=
  {| Review._id := id; Review.order := order; Review.customer := 20;
     Review.restaurant := 1; Review.deliveryPartner := None;
     Review.menuItems := [];
     Review.food := stars; Review.delivery := stars;
     Review.service := stars; Review.overall := stars;
     Review.isHidden := hidden |}.

(** The sample store with one hidden one-star review of the restaurant. *)
Definition moderatedStore : Store :=
  set_reviews [review 1 5 1 true] Sample.store.

(** The sample store once the rider, partner 1, has accepted order 7. *)
Definition acceptedStore : Store :=
  snd (acceptOrder Sample.rider 7 50 readyStore).

(** The store with order 7 ready for pickup and a second, pending
    order 8. *)
Definition twoOrders : Store :=
  Sample.stored 8 (Sample.order "9999" 1800060) readyStore.

(** Order 7 is delivered by OTP; order 8 is made ready for pickup; the
    rider sends a profile update whose body is [{ currentOrder: null }]. *)
Definition released : list Op :=
  [VerifyDeliveryOTP 7 (Some "4321") 100;
   UpdateOrderStatus Sample.owner 8 "confirmed" None 120;
   UpdateOrderStatus Sample.owner 8 "preparing" None 130;
   UpdateOrderStatus Sample.owner 8 "ready_for_pickup" None 140;
   UpdateMyProfile Sample.rider {| body_currentOrder := Some None |}].

(** Without the profile update the rider stays bound to order 7, even
    after its delivery; the order creation in the sequence fails. *)
Definition delivered7 : list Op :=
  [VerifyDeliveryOTP 7 (Some "4321") 100;
   CreateOrder Sample.customer Sample.scenario 110 "9999" 8;
   UpdateOrderStatus Sample.owner 8 "confirmed" None 120;
   UpdateOrderStatus Sample.owner 8 "preparing" None 130;
   UpdateOrderStatus Sample.owner 8 "ready_for_pickup" None 140;
   UpdateAvailability Sample.rider true].

Definition busyRider : DeliveryPartner.t :=
  DeliveryPartner.preSave
    (DeliveryPartner.set_statistics
       (DeliveryPartner.set_totalOrders 1 Sample.noStatistics)
       (DeliveryPartner.set_currentOrder (Some 7%N) Sample.partner)).
End Samples.

(** * Further helpers, hooks and handlers *)

(** ** utils/helpers.js *)

Module Helpers.

Definition digits : string := "0123456789".

(** [digits[k]] as [+=] appends it: a read outside the string is
    [undefined], which prints as such. *)
Definition digitAt (k : Z) : string :=
  if (k <? 0)%Z then "undefined"
  else match String.get (Z.to_nat k) digits with
       | Some c => String c EmptyString
       | None => "undefined"
       end.

(** The loop of [generateOTP] from counter [i] with [n] rounds to go;
    [random i] is what the [i]-th call of [Math.random()] returns. *)
Fixpoint generateOTP_loop (random : nat -> Q) (i n : nat) (otp : string)
  : string :=
  match n with
  | O => otp
  | S n' =>
      generateOTP_loop random (S i) n'
        (otp ++ digitAt
                  (Qfloor (random i
                           * inject_Z (Z.of_nat (String.length digits)))))%string
  end.

(** [generateOTP(length = 6)] *)
Definition generateOTP (length : option nat) (random : nat -> Q) : string :=
  generateOTP_loop random 0 (default 6%nat length) "".

Record PaginationMeta := {
  total : Z;
  page : Z;
  limit : Z;
  totalPages : Z;
  hasNextPage : bool;
  hasPrevPage : bool;
  nextPage : option Z;
  prevPage : option Z }.

(** [getPaginationMeta(total, page, limit)] on whole numbers (the
    controllers pass [parseInt(..) || 1] and [parseInt(..) || 10], so
    [parseInt] is the identity and [limit] is not 0). *)
Definition getPaginationMeta (total page limit : Z) : PaginationMeta :=
  let totalPages := Qceiling (inject_Z total / inject_Z limit) in
  {| total := total;
     page := page;
     limit := limit;
     totalPages := totalPages;
     hasNextPage := bool_decide (page < totalPages)%Z;
     hasPrevPage := bool_decide (1 < page)%Z;
     nextPage := if bool_decide (page < totalPages)%Z
                 then Some (page + 1)%Z else None;
     prevPage := if bool_decide (1 < page)%Z then Some (page - 1)%Z else None |}.

(** [skip] of the paginated handlers: [(page - 1) * limit]. *)
Definition skip (page limit : Z) : Z := ((page - 1) * limit)%Z.

End Helpers.

(** ** Virtuals and validators of the menu-item schema *)

Section MenuItemVirtuals.
Local Open Scope Q_scope.

(** [menuItemSchema.virtual("discountPercentage")] *)
Definition discountPercentage (m : MenuItem.t) : Q :=
  match MenuItem.discountedPrice m with
  | Some d =>
      if JS.truthy d then
        JS.Math_round
          (JS.mul (JS.div (JS.sub (MenuItem.price m) d) (MenuItem.price m)) 100)
      else 0
  | None => 0
  end.

(** The validators of [price] and [discountedPrice]: both at least 0, and
    [!value || value < this.price]. *)
Definition validPrices (m : MenuItem.t) : bool :=
  JS.le 0 (MenuItem.price m)
  && match MenuItem.discountedPrice m with
     | Some value =>
         JS.le 0 value && (negb (JS.truthy value) || JS.lt value (MenuItem.price m))
     | None => true
     end.
End MenuItemVirtuals.

(** ** Order timeline and order queries *)

Section OrderQueries.
Local Open Scope Q_scope.

(** [orderSchema.timeline.status.enum] *)
Definition timelineStatuses : list string :=
  ["order_placed"; "payment_confirmed"; "order_confirmed"; "preparing";
   "ready_for_pickup"; "picked_up"; "out_for_delivery"; "delivered";
   "cancelled"].



(** The filter of [getDeliveryHistory] for the partner document [partner]. *)
Definition historyOrder (partner : ObjectId) (o : Order.t) : bool :=
  bool_decide (Order.deliveryPartner o = Some partner)
  && bool_decide
       (Order.orderStatus o ∈ [OrderStatus.delivered; OrderStatus.cancelled]).

(** The object [stats] of [getOrderStats]. *)
Record OrderStats := {
  stats_totalOrders : nat;
  stats_completedOrders : nat;
  stats_cancelledOrders : nat;
  stats_completionRate : Q;
  stats_totalRevenue : Q;
  stats_averageOrderValue : Q }.

Definition withStatus (st : OrderStatus.t) (l : list Order.t) : list Order.t :=
  List.filter (fun o => bool_decide (Order.orderStatus o = st)) l.

(** [getOrderStats] once the query is built: [matched] are the orders the
    query selects; the two counts and the two aggregations add
    [orderStatus] to it.  A [$group] over no document yields no row.  The
    totals are added up by the database: its [$sum] is written as the sum
    in doubles in scan order and its [$avg] as that sum divided by the
    count. *)
Definition orderStats (matched : list Order.t) : OrderStats :=
  let totalOrders := length matched in
  let delivered := withStatus OrderStatus.delivered matched in
  let completedOrders := length delivered in
  let cancelledOrders := length (withStatus OrderStatus.cancelled matched) in
  let revenue := sumRatings (List.map (fun o => Order.total (Order.pricing o)) delivered) in
  let totalRevenue :=
    match delivered with [] => None | _ => Some revenue end in
  let averageOrderValue :=
    match delivered with
    | [] => None
    | _ => Some (JS.div revenue (inject_Z (Z.of_nat (length delivered))))
    end in
  {| stats_totalOrders := totalOrders;
     stats_completedOrders := completedOrders;
     stats_cancelledOrders := cancelledOrders;
     stats_completionRate :=
       if (0 <? totalOrders)%nat then
         JS.Math_round
           (JS.mul
              (JS.div (inject_Z (Z.of_nat completedOrders))
                      (inject_Z (Z.of_nat totalOrders))) 100)
       else 0;
     stats_totalRevenue := JS.or_undef totalRevenue 0;
     stats_averageOrderValue := JS.Math_round (JS.or_undef averageOrderValue 0) |}.
End OrderQueries.

(** ** Review controller *)

Section ReviewController.
Local Open Scope Q_scope.

(** [req.body.ratings] of [createReview]. *)
Record RatingsBody := {
  body_food : option Q;
  body_delivery : option Q;
  body_service : option Q;
  body_overall : option Q }.

(** [required], [min: 1] and [max: 5] on a rating. *)
Definition validRating (r : option Q) : bool :=
  match r with
  | Some v => JS.le 1 v && JS.le v 5
  | None => false
  end.

(** The validators of [reviewSchema] on what [createReview] writes. *)
Definition validReviewData (ratings : RatingsBody)
    (menuItems : list Review.ItemRating) : bool :=
  validRating (body_food ratings)
  && validRating (body_delivery ratings)
  && validRating (body_service ratings)
  && validRating (body_overall ratings)
  && forallb (fun e => validRating (Some (Review.rating e))) menuItems.

(** [createReview]: [newId] is the [_id] given to the new review.  The
    text, the images and the tags of the review, and the copy of the
    ratings kept on the order, are not modelled. *)
Definition createReview (user : User.t) (orderId : ObjectId)
    (ratings : RatingsBody) (menuItems : list Review.ItemRating)
    (newId : ObjectId) (s : Store) : Outcome * Store :=
  match orders s !! orderId with
  | None => (Json 404 false "Order not found", s)
  | Some order =>
  if negb (bool_decide (Order.customer order = User._id user)) then
    (Json 403 false "Access denied", s)
  else if negb (bool_decide (Order.orderStatus order = OrderStatus.delivered)) then
    (Json 400 false "Cannot review order that is not delivered", s)
  else
  match List.find (fun r => bool_decide (Review.order r = orderId)) (reviews s) with
  | Some existingReview =>
      (Json 400 false "Review already exists for this order", s)
  | None =>
      if validReviewData ratings menuItems then
        let reviewData :=
          {| Review._id := newId;
             Review.order := orderId;
             Review.customer := User._id user;
             Review.restaurant := Order.restaurant order;
             Review.deliveryPartner := Order.deliveryPartner order;
             Review.menuItems := menuItems;
             Review.food := default 0 (body_food ratings);
             Review.delivery := default 0 (body_delivery ratings);
             Review.service := default 0 (body_service ratings);
             Review.overall := default 0 (body_overall ratings);
             Review.isHidden := false |} in
        (Json 201 true "Review created successfully",
         saveReview true reviewData s)
      else (Throw "ValidationError", s)
  end
  end.

(** [deleteReview] *)
Definition deleteReview (user : User.t) (id : ObjectId) (s : Store)
  : Outcome * Store :=
  match List.find (fun r => bool_decide (Review._id r = id)) (reviews s) with
  | None => (Json 404 false "Review not found", s)
  | Some review =>
      if negb (bool_decide (Review.customer review = User._id user))
         && negb (bool_decide (User.role user = Role.admin)) then
        (Json 403 false "Access denied", s)
      else
        (Json 200 true "Review deleted successfully",
         set_reviews
           (List.filter (fun r => negb (bool_decide (Review._id r = id)))
              (reviews s)) s)
  end.
End ReviewController.

(** ** Vocabulary of the further properties *)

Section FurtherVocabulary.
Local Open Scope Q_scope.

(** From the stored order [o] to the stored order [o']: either the status
    and the timeline are what they were, or the status has changed and the
    timeline has one more entry, for the new status, whose timeline status
    is one of the schema's. *)
Definition logged (o o' : Order.t) : Prop :=
  (Order.orderStatus o' = Order.orderStatus o
   /\ Order.timeline o' = Order.timeline o)
  \/ (Order.orderStatus o' <> Order.orderStatus o
      /\ Order.timelineStatus (Order.orderStatus o') ∈ timelineStatuses
      /\ exists now,
           Order.timeline o'
           = Order.timeline o
             ++ [{| Order.status := Order.timelineStatus (Order.orderStatus o');
                    Order.timestamp := now |}]).

(** An order creation that writes under [id]. *)
Definition createsOrder (id : ObjectId) (op : Op) : Prop :=
  match op with
  | CreateOrder _ _ _ _ newId => newId = id
  | _ => False
  end.
End FurtherVocabulary.

(** ** Reading one order *)

Section OrderReads.

(** [hasAccess] of [getOrder].  The restaurant is loaded with
    [populate("restaurant", "name phoneNumber address images")]: its
    [owner] is not among the selected fields, so
    [order.restaurant.owner?.toString()] is [undefined].  The delivery
    partner is loaded with its [user].  [None] when reading
    [order.restaurant.owner] throws because the restaurant no longer
    exists; the customer of the order is taken to exist.  The disjunction
    is evaluated left to right. *)
Definition hasAccess (user : User.t) (o : Order.t) (s : Store) : option bool :=
  if bool_decide (Order.customer o = User._id user) then Some true
  else
    match restaurants s !! Order.restaurant o with
    | None => None
    | Some r =>
        let owner : option ObjectId := None in
        Some (bool_decide (owner = Some (User._id user))
              || bool_decide (populatedPartnerUser o s = Some (User._id user))
              || bool_decide (User.role user = Role.admin))
    end.

(** [getOrder] *)
Definition getOrder (user : User.t) (id : ObjectId) (s : Store) : Outcome :=
  match orders s !! id with
  | None => Json 404 false "Order not found"
  | Some order =>
      match hasAccess user order s with
      | None => Throw "TypeError"
      | Some false => Json 403 false "Access denied"
      | Some true => Json 200 true "Order retrieved successfully"
      end
  end.
End OrderReads.

(** ** Further samples *)

Section FurtherSamples.
Local Open Scope Q_scope.

(** The sample store once the rider has delivered order 7. *)
Definition deliveredStore : Store :=
  snd (verifyDeliveryOTP 7 (Some "4321") 100 acceptedStore).

(** A review body: food 5, delivery 4, service 4, and an overall rating 1
    sent by the client. *)
Definition ratingsBody : RatingsBody :=
  {| body_food := Some 5; body_delivery := Some 4; body_service := Some 4;
     body_overall := Some 1 |}.

(** The sample store once the customer has reviewed order 7, with four
    stars for the burger. *)
Definition reviewedStore : Store :=
  snd (createReview Sample.customer 7 ratingsBody
         [{| Review.item := 1; Review.rating := 4 |}] 1 deliveredStore).
End FurtherSamples.

(** ** Vocabulary of the rating properties *)

Section RatingVocabulary.
Local Open Scope Q_scope.



End RatingVocabulary.

Section ReviewSamples.
Local Open Scope Q_scope.




(** A review body in whole stars; the client sends the food rating as the
    overall rating. *)
Definition stars (food delivery service : Q) : RatingsBody :=
  {| body_food := Some food; body_delivery := Some delivery;
     body_service := Some service; body_overall := Some food |}.


End ReviewSamples.

(** Closed statements about the sample stores are settled by evaluation. *)
Ltac by_evaluation :=
  cbv zeta; repeat apply conj; vm_compute; reflexivity.

(** * Properties *)

(** ** Numbers *)

Section Numbers.
Local Open Scope Q_scope.

Lemma le_true (a b : Q) : JS.le a b = true <-> a <= b.
Proof. apply Qle_bool_iff. Qed.

Lemma lt_false (a b : Q) : JS.lt a b = false <-> b <= a.
Proof.
  unfold JS.lt. rewrite negb_false_iff. apply Qle_bool_iff.
Qed.

Lemma Math_round_comp (x y : Q) : x == y -> JS.Math_round x = JS.Math_round y.
Proof.
  intros E. unfold JS.Math_round.
  assert (H : x + (1 # 2) == y + (1 # 2)) by (rewrite E; reflexivity).
  rewrite (Qfloor_comp _ _ H). reflexivity.
Qed.

Lemma Math_round_nonneg (x : Q) : 0 <= x -> 0 <= JS.Math_round x.
Proof.
  intros H. unfold JS.Math_round.
  change 0 with (inject_Z 0). rewrite <- Zle_Qle.
  change 0%Z with (Qfloor (inject_Z 0)).
  apply Qfloor_resp_le. simpl.
  apply Qle_trans with x; [exact H|].
  rewrite <- (Qplus_0_r x) at 1. apply Qplus_le_r. discriminate.
Qed.

Lemma Math_round_zero (x : Q) : x == 0 -> JS.Math_round x == 0.
Proof. intros E. rewrite (Math_round_comp _ _ E). reflexivity. Qed.

Lemma or_num_zero (x : Q) : JS.or_num x 0 == x.
Proof.
  unfold JS.or_num, JS.truthy.
  destruct (Qeq_bool x 0) eqn:E; simpl; [|reflexivity].
  symmetry. apply Qeq_bool_eq, E.
Qed.

Lemma preSave_id (p : DeliveryPartner.t) :
  DeliveryPartner._id (DeliveryPartner.preSave p) = DeliveryPartner._id p.
Proof. unfold DeliveryPartner.preSave. destruct (JS.lt _ _); reflexivity. Qed.
End Numbers.

(** ** Doubles *)

Section Doubles.
Local Open Scope Q_scope.

Lemma rne_cases (q : Q) :
  (JS.rne q = Qfloor q /\ q - inject_Z (Qfloor q) <= 1 # 2)
  \/ (JS.rne q = (Qfloor q + 1)%Z /\ 1 # 2 <= q - inject_Z (Qfloor q)).
Proof.
  unfold JS.rne. destruct (Qcompare_spec (q - inject_Z (Qfloor q)) (1 # 2)) as [E|E|E].
  - destruct (Z.even (Qfloor q)); [left | right]; split; try reflexivity;
      rewrite E; apply Qle_refl.
  - left. split; [reflexivity | apply Qlt_le_weak, E].
  - right. split; [reflexivity | apply Qlt_le_weak, E].
Qed.

Lemma rne_near (q : Q) :
  q - (1 # 2) <= inject_Z (JS.rne q) /\ inject_Z (JS.rne q) <= q + (1 # 2).
Proof.
  pose proof (Qfloor_le q) as H1. pose proof (Qlt_floor q) as H2.
  rewrite inject_Z_plus in H2. change (inject_Z 1) with 1 in H2.
  destruct (rne_cases q) as [[-> H]|[-> H]].
  - split; lra.
  - rewrite inject_Z_plus. change (inject_Z 1) with 1. split; lra.
Qed.

Lemma rne_comp (q q' : Q) : q == q' -> JS.rne q = JS.rne q'.
Proof.
  intros E. unfold JS.rne. rewrite (Qfloor_comp _ _ E).
  assert (E' : q - inject_Z (Qfloor q') == q' - inject_Z (Qfloor q'))
    by (rewrite E; reflexivity).
  rewrite E'. reflexivity.
Qed.

Lemma rne_Z (z : Z) : JS.rne (inject_Z z) = z.
Proof.
  unfold JS.rne. rewrite Qfloor_Z.
  assert (E : inject_Z z - inject_Z z == 0) by ring.
  rewrite E. reflexivity.
Qed.

Lemma rne_mono (q q' : Q) : q <= q' -> (JS.rne q <= JS.rne q')%Z.
Proof.
  intros H. pose proof (Qfloor_resp_le _ _ H) as Hf.
  destruct (Z.eq_dec (Qfloor q) (Qfloor q')) as [E|N].
  - unfold JS.rne. rewrite E.
    assert (Hr : q - inject_Z (Qfloor q') <= q' - inject_Z (Qfloor q')) by lra.
    destruct (Qcompare_spec (q - inject_Z (Qfloor q')) (1 # 2)) as [A|A|A];
      destruct (Qcompare_spec (q' - inject_Z (Qfloor q')) (1 # 2)) as [B|B|B];
      try lia; try (destruct (Z.even (Qfloor q')); lia);
      exfalso; lra.
  - assert (Hlt : (Qfloor q + 1 <= Qfloor q')%Z) by lia.
    destruct (rne_cases q) as [[-> _]|[-> _]];
      destruct (rne_cases q') as [[-> _]|[-> _]]; lia.
Qed.

Lemma pow2_pos (k : Z) : 0 < JS.pow2 k.
Proof. apply Qpower_0_lt. reflexivity. Qed.

Lemma pow2_add (a b : Z) : JS.pow2 (a + b) == JS.pow2 a * JS.pow2 b.
Proof. apply Qpower_plus. discriminate. Qed.

Lemma pow2_le (a b : Z) : (a <= b)%Z -> JS.pow2 a <= JS.pow2 b.
Proof. intros H. apply Qpower_le_compat_l; [exact H | discriminate]. Qed.

Lemma pow2_lt (a b : Z) : (a < b)%Z -> JS.pow2 a < JS.pow2 b.
Proof. intros H. apply Qpower_lt_compat_l; [exact H | reflexivity]. Qed.

Lemma pow2_Z (k : Z) : (0 <= k)%Z -> JS.pow2 k == inject_Z (2 ^ k).
Proof. intros H. symmetry. apply (Zpower_Qpower 2 k H). Qed.

Lemma pow2_succ (k : Z) : JS.pow2 (k + 1) == 2 * JS.pow2 k.
Proof. rewrite pow2_add. change (JS.pow2 1) with 2. ring. Qed.

(** The JS.exponent of a positive number. *)
Lemma exponent_spec (x : Q) :
  0 < x -> JS.pow2 (JS.exponent x) <= x /\ x < JS.pow2 (JS.exponent x + 1).
Proof.
  intros Hx. destruct x as [a b]. unfold JS.exponent. cbn [Qnum Qden].
  assert (Ha : (0 < a)%Z).
  { unfold Qlt in Hx. cbn in Hx. lia. }
  set (la := Z.log2 a). set (lb := Z.log2 (Z.pos b)).
  destruct (Z.log2_spec a Ha) as [A1 A2]. fold la in A1, A2.
  destruct (Z.log2_spec (Z.pos b) (Pos2Z.is_pos b)) as [B1 B2]. fold lb in B1, B2.
  assert (La : (0 <= la)%Z) by apply Z.log2_nonneg.
  assert (Lb : (0 <= lb)%Z) by apply Z.log2_nonneg.
  assert (Ex : a # b == inject_Z a / inject_Z (Z.pos b)) by apply Qmake_Qdiv.
  assert (Pb : 0 < inject_Z (Z.pos b)) by reflexivity.
  assert (QA1 : JS.pow2 la <= inject_Z a).
  { rewrite pow2_Z by exact La. rewrite <- Zle_Qle. exact A1. }
  assert (QA2 : inject_Z a < JS.pow2 (la + 1)).
  { rewrite pow2_Z by lia. rewrite <- Zlt_Qlt. rewrite <- Z.add_1_r in A2. exact A2. }
  assert (QB1 : JS.pow2 lb <= inject_Z (Z.pos b)).
  { rewrite pow2_Z by exact Lb. rewrite <- Zle_Qle. exact B1. }
  assert (QB2 : inject_Z (Z.pos b) < JS.pow2 (lb + 1)).
  { rewrite pow2_Z by lia. rewrite <- Zlt_Qlt. rewrite <- Z.add_1_r in B2. exact B2. }
  assert (U : a # b < JS.pow2 (la - lb + 1)).
  { rewrite Ex. apply Qlt_shift_div_r; [exact Pb|].
    apply Qlt_le_trans with (JS.pow2 (la + 1)); [exact QA2|].
    replace (la + 1)%Z with ((la - lb + 1) + lb)%Z by ring.
    rewrite pow2_add. apply Qmult_le_l; [apply pow2_pos | exact QB1]. }
  assert (D : JS.pow2 (la - lb - 1) <= a # b).
  { rewrite Ex. apply Qle_shift_div_l; [exact Pb|].
    apply Qle_trans with (JS.pow2 la); [|exact QA1].
    replace la with ((la - lb - 1) + (lb + 1))%Z at 2 by ring.
    rewrite pow2_add. apply Qmult_le_l; [apply pow2_pos|].
    apply Qlt_le_weak, QB2. }
  destruct (Qle_bool (JS.pow2 (la - lb)) (a # b)) eqn:E.
  - apply Qle_bool_iff in E. split; [exact E | exact U].
  - split; [exact D|].
    replace (la - lb - 1 + 1)%Z with (la - lb)%Z by ring.
    apply Qnot_le_lt. intros C. apply Qle_bool_iff in C. congruence.
Qed.

Lemma exponent_unique (x : Q) (k : Z) :
  JS.pow2 k <= x -> x < JS.pow2 (k + 1) -> JS.exponent x = k.
Proof.
  intros H1 H2.
  assert (Hx : 0 < x) by (apply Qlt_le_trans with (JS.pow2 k); [apply pow2_pos | exact H1]).
  destruct (exponent_spec x Hx) as [E1 E2].
  assert (A : (JS.exponent x < k + 1)%Z).
  { apply (Qpower_lt_compat_l_inv 2); [|reflexivity].
    apply Qle_lt_trans with x; assumption. }
  assert (B : (k < JS.exponent x + 1)%Z).
  { apply (Qpower_lt_compat_l_inv 2); [|reflexivity].
    apply Qle_lt_trans with x; assumption. }
  lia.
Qed.

Lemma exponent_comp (x y : Q) : 0 < x -> x == y -> JS.exponent x = JS.exponent y.
Proof.
  intros Hx E. destruct (exponent_spec x Hx) as [H1 H2].
  symmetry. apply exponent_unique; rewrite <- E; assumption.
Qed.

(** The scaled mantissa lies in [2^52, 2^53). *)
Lemma mantissa_bounds (x : Q) :
  0 < x ->
  JS.pow2 52 <= x / JS.pow2 (JS.exponent x - 52)
  /\ x / JS.pow2 (JS.exponent x - 52) < JS.pow2 53.
Proof.
  intros Hx. destruct (exponent_spec x Hx) as [H1 H2].
  pose proof (pow2_pos (JS.exponent x - 52)) as P.
  split.
  - apply Qle_shift_div_l; [exact P|].
    rewrite <- pow2_add. replace (52 + (JS.exponent x - 52))%Z with (JS.exponent x) by ring.
    exact H1.
  - apply Qlt_shift_div_r; [exact P|].
    rewrite <- pow2_add.
    replace (53 + (JS.exponent x - 52))%Z with (JS.exponent x + 1)%Z by ring.
    exact H2.
Qed.

Lemma nearest_value (x : Q) :
  JS.nearest x == inject_Z (JS.rne (x / JS.pow2 (JS.exponent x - 52))) * JS.pow2 (JS.exponent x - 52).
Proof. unfold JS.nearest. apply Qred_correct. Qed.

Lemma nearest_bounds (x : Q) :
  0 < x ->
  JS.pow2 (JS.exponent x) <= JS.nearest x /\ JS.nearest x <= JS.pow2 (JS.exponent x + 1).
Proof.
  intros Hx. destruct (mantissa_bounds x Hx) as [M1 M2].
  pose proof (pow2_pos (JS.exponent x - 52)) as P.
  rewrite nearest_value. set (ulp := JS.pow2 (JS.exponent x - 52)) in *.
  assert (R1 : (2 ^ 52 <= JS.rne (x / ulp))%Z).
  { rewrite <- (rne_Z (2 ^ 52)). apply rne_mono.
    rewrite <- pow2_Z by lia. exact M1. }
  assert (R2 : (JS.rne (x / ulp) <= 2 ^ 53)%Z).
  { rewrite <- (rne_Z (2 ^ 53)). apply rne_mono.
    rewrite <- pow2_Z by lia. apply Qlt_le_weak, M2. }
  split.
  - replace (JS.exponent x) with (52 + (JS.exponent x - 52))%Z at 1 by ring.
    rewrite pow2_add. fold ulp. apply Qmult_le_compat_r; [|apply Qlt_le_weak, P].
    rewrite pow2_Z by lia. rewrite <- Zle_Qle. exact R1.
  - replace (JS.exponent x + 1)%Z with (53 + (JS.exponent x - 52))%Z by ring.
    rewrite pow2_add. fold ulp. apply Qmult_le_compat_r; [|apply Qlt_le_weak, P].
    rewrite pow2_Z by lia. rewrite <- Zle_Qle. exact R2.
Qed.

Lemma nearest_mono (x y : Q) : 0 < x -> x <= y -> JS.nearest x <= JS.nearest y.
Proof.
  intros Hx Hxy.
  assert (Hy : 0 < y) by (apply Qlt_le_trans with x; assumption).
  destruct (exponent_spec x Hx) as [X1 X2].
  destruct (exponent_spec y Hy) as [Y1 Y2].
  assert (Hk : (JS.exponent x <= JS.exponent y)%Z).
  { assert (A : (JS.exponent x < JS.exponent y + 1)%Z); [|lia].
    apply (Qpower_lt_compat_l_inv 2); [|reflexivity].
    apply Qle_lt_trans with x; [exact X1|].
    apply Qle_lt_trans with y; assumption. }
  destruct (Z.eq_dec (JS.exponent x) (JS.exponent y)) as [E|N].
  - rewrite !nearest_value. rewrite E.
    pose proof (pow2_pos (JS.exponent y - 52)) as P.
    apply Qmult_le_compat_r; [|apply Qlt_le_weak, P].
    rewrite <- Zle_Qle. apply rne_mono.
    apply Qmult_le_compat_r; [exact Hxy|].
    apply Qlt_le_weak, Qinv_lt_0_compat, P.
  - apply Qle_trans with (JS.pow2 (JS.exponent x + 1)).
    + apply nearest_bounds, Hx.
    + apply Qle_trans with (JS.pow2 (JS.exponent y)).
      * apply pow2_le. lia.
      * apply nearest_bounds, Hy.
Qed.

Lemma nearest_pos (x : Q) : 0 < x -> 0 < JS.nearest x.
Proof.
  intros Hx. apply Qlt_le_trans with (JS.pow2 (JS.exponent x)).
  - apply pow2_pos.
  - apply nearest_bounds, Hx.
Qed.

Lemma nearest_comp (x y : Q) : 0 < x -> x == y -> JS.nearest x = JS.nearest y.
Proof.
  intros Hx E. unfold JS.nearest. rewrite (exponent_comp x y Hx E).
  apply Qred_complete.
  assert (E' : x / JS.pow2 (JS.exponent y - 52) == y / JS.pow2 (JS.exponent y - 52))
    by (rewrite E; reflexivity).
  rewrite (rne_comp _ _ E'). reflexivity.
Qed.

Lemma double_pos (x : Q) : 0 < x -> JS.double x = JS.nearest x.
Proof.
  intros H. unfold JS.double.
  assert (C : Qcompare x 0 = Gt) by (apply Qgt_alt; exact H).
  rewrite C. reflexivity.
Qed.

Lemma double_neg (x : Q) : x < 0 -> JS.double x = - JS.nearest (- x).
Proof.
  intros H. unfold JS.double.
  assert (C : Qcompare x 0 = Lt) by (apply Qlt_alt; exact H).
  rewrite C. reflexivity.
Qed.

Lemma double_zero (x : Q) : x == 0 -> JS.double x = 0.
Proof.
  intros H. unfold JS.double.
  assert (C : Qcompare x 0 = Eq) by (apply Qeq_alt; exact H).
  rewrite C. reflexivity.
Qed.

(** Rounding to the nearest double is monotone. *)
Lemma double_mono (x y : Q) : x <= y -> JS.double x <= JS.double y.
Proof.
  intros H.
  destruct (Qcompare_spec x 0) as [Ex|Lx|Gx];
    destruct (Qcompare_spec y 0) as [Ey|Ly|Gy]; try (exfalso; lra).
  - rewrite (double_zero x Ex), (double_zero y Ey). apply Qle_refl.
  - rewrite (double_zero x Ex), (double_pos y Gy).
    apply Qlt_le_weak, nearest_pos, Gy.
  - rewrite (double_neg x Lx), (double_zero y Ey).
    assert (P : 0 < JS.nearest (- x)) by (apply nearest_pos; lra). lra.
  - rewrite (double_neg x Lx), (double_neg y Ly).
    assert (P : JS.nearest (- y) <= JS.nearest (- x)) by (apply nearest_mono; lra). lra.
  - rewrite (double_neg x Lx), (double_pos y Gy).
    assert (P : 0 < JS.nearest (- x)) by (apply nearest_pos; lra).
    assert (P' : 0 < JS.nearest y) by (apply nearest_pos; lra). lra.
  - rewrite (double_pos x Gx), (double_pos y Gy). apply nearest_mono; assumption.
Qed.

Lemma double_comp (x y : Q) : x == y -> JS.double x = JS.double y.
Proof.
  intros E.
  destruct (Qcompare_spec x 0) as [Ex|Lx|Gx].
  - rewrite (double_zero x Ex). symmetry. apply double_zero. rewrite <- E. exact Ex.
  - rewrite (double_neg x Lx), (double_neg y) by (rewrite <- E; exact Lx).
    f_equal. apply nearest_comp; [lra | rewrite E; reflexivity].
  - rewrite (double_pos x Gx), (double_pos y) by (rewrite <- E; exact Gx).
    apply nearest_comp; assumption.
Qed.

(** Whole numbers up to [2^53] are doubles. *)
Lemma nearest_Z (z : Z) :
  (0 < z <= 2 ^ 53)%Z -> JS.nearest (inject_Z z) == inject_Z z.
Proof.
  intros [H0 H1].
  assert (Hx : 0 < inject_Z z) by (change 0 with (inject_Z 0); rewrite <- Zlt_Qlt; exact H0).
  rewrite nearest_value.
  destruct (exponent_spec _ Hx) as [E1 E2].
  set (k := JS.exponent (inject_Z z)) in *.
  pose proof (pow2_pos (k - 52)) as P.
  assert (Hk : (k <= 53)%Z).
  { assert (A : (k < 53 + 1)%Z); [|lia].
    apply (Qpower_lt_compat_l_inv 2); [|reflexivity].
    apply Qle_lt_trans with (inject_Z z); [exact E1|].
    apply Qle_lt_trans with (JS.pow2 53).
    - rewrite pow2_Z by lia. rewrite <- Zle_Qle. exact H1.
    - apply pow2_lt. lia. }
  destruct (Z.le_gt_cases k 52) as [Hs|Hb].
  - (* the quotient is a whole number *)
    assert (Q : inject_Z z / JS.pow2 (k - 52) == inject_Z (z * 2 ^ (52 - k))).
    { rewrite inject_Z_mult, <- pow2_Z by lia.
      unfold Qdiv, JS.pow2. rewrite <- Qpower_opp.
      replace (- (k - 52))%Z with (52 - k)%Z by ring. reflexivity. }
    rewrite (rne_comp _ _ Q), rne_Z, <- Q.
    unfold Qdiv. rewrite <- Qmult_assoc, (Qmult_comm (/ _)), Qmult_inv_r.
    + ring.
    + apply Qnot_eq_sym, Qlt_not_eq, P.
  - assert (Ek : k = 53%Z) by lia.
    assert (Ez : z = (2 ^ 53)%Z).
    { apply Z.le_antisymm; [exact H1|]. rewrite Zle_Qle.
      rewrite <- pow2_Z by lia. rewrite <- Ek. exact E1. }
    rewrite Ek, Ez. vm_compute. reflexivity.
Qed.

Lemma double_Z (z : Z) :
  (- 2 ^ 53 <= z <= 2 ^ 53)%Z -> JS.double (inject_Z z) = inject_Z z.
Proof.
  intros [H0 H1].
  assert (R : forall t : Z, Qred (inject_Z t) = inject_Z t).
  { intros t. unfold Qred, inject_Z.
    pose proof (Z.ggcd_gcd t 1) as G.
    pose proof (Z.ggcd_correct_divisors t 1) as D.
    destruct (Z.ggcd t 1) as [g [aa bb]]. cbn [fst snd] in *.
    rewrite Z.gcd_1_r in G. subst g. destruct D as [D1 D2].
    rewrite Z.mul_1_l in D1, D2. subst aa bb. reflexivity. }
  destruct (Z.lt_trichotomy z 0) as [L|[E|G]].
  - rewrite double_neg by (change 0 with (inject_Z 0); rewrite <- Zlt_Qlt; exact L).
    assert (N : JS.nearest (- inject_Z z) = inject_Z (- z)).
    { rewrite <- (R (- z)%Z). unfold JS.nearest. apply Qred_complete.
      rewrite <- nearest_value. rewrite <- inject_Z_opp. apply nearest_Z. lia. }
    rewrite N. unfold inject_Z, Qopp. cbn. rewrite Z.opp_involutive. reflexivity.
  - subst z. reflexivity.
  - rewrite double_pos by (change 0 with (inject_Z 0); rewrite <- Zlt_Qlt; exact G).
    rewrite <- (R z) at 2. unfold JS.nearest. apply Qred_complete.
    rewrite <- nearest_value. apply nearest_Z. lia.
Qed.

(** Rounding moves a non-negative number up by at most [2^-53] of it. *)
Lemma double_upper (x : Q) : 0 <= x -> JS.double x <= x * (1 + JS.pow2 (-53)).
Proof.
  intros H. destruct (Qcompare_spec x 0) as [E|L|G]; [| exfalso; lra |].
  - rewrite (double_zero x E), E. vm_compute. discriminate.
  - rewrite (double_pos x G), nearest_value.
    destruct (exponent_spec x G) as [E1 _].
    set (k := JS.exponent x) in *.
    pose proof (pow2_pos (k - 52)) as P.
    destruct (rne_near (x / JS.pow2 (k - 52))) as [_ U].
    apply Qle_trans with ((x / JS.pow2 (k - 52) + (1 # 2)) * JS.pow2 (k - 52)).
    + apply Qmult_le_compat_r; [exact U | apply Qlt_le_weak, P].
    + assert (A : (x / JS.pow2 (k - 52) + (1 # 2)) * JS.pow2 (k - 52)
                  == x + JS.pow2 (k - 53)).
      { replace (k - 52)%Z with ((k - 53) + 1)%Z by ring.
        rewrite pow2_succ. field.
        apply Qnot_eq_sym, Qlt_not_eq, pow2_pos. }
      rewrite A.
      assert (B : JS.pow2 (k - 53) <= x * JS.pow2 (-53)).
      { replace (k - 53)%Z with (k + -53)%Z by ring. rewrite pow2_add.
        apply Qmult_le_compat_r; [exact E1 | apply Qlt_le_weak, pow2_pos]. }
      lra.
Qed.
(** The arithmetic of the code, between bounds. *)
Lemma double_nonneg (x : Q) : 0 <= x -> 0 <= JS.double x.
Proof. intros H. rewrite <- (double_zero 0) by reflexivity. apply double_mono, H. Qed.

Lemma double_between (a b : Z) (x : Q) :
  (- 2 ^ 53 <= a)%Z -> (b <= 2 ^ 53)%Z ->
  inject_Z a <= x -> x <= inject_Z b ->
  inject_Z a <= JS.double x /\ JS.double x <= inject_Z b.
Proof.
  intros Ha Hb H1 H2.
  assert (Hab : (a <= b)%Z) by (rewrite Zle_Qle; lra).
  split.
  - rewrite <- (double_Z a) by lia. apply double_mono, H1.
  - rewrite <- (double_Z b) by lia. apply double_mono, H2.
Qed.
End Doubles.

(** ** Order creation *)

Section PricingProperties.
Local Open Scope Q_scope.

(** A document without order number does not pass the validation. *)
Lemma validOrder_orderNumber (o : Order.t) : validOrder None o = false.
Proof. reflexivity. Qed.

(** [createOrder] answers no request with success and writes nothing. *)
Lemma createOrder_fails user body now otpCode newId s :
  succeeded (fst (createOrder user body now otpCode newId s)) = false
  /\ snd (createOrder user body now otpCode newId s) = s.
Proof.
  unfold createOrder.
  destruct (restaurants s !! Cart.restaurant body) as [r|]; [|auto].
  destruct (negb (Restaurant.isActive r)); [auto|].
  destruct (addresses s !! Cart.deliveryAddress body) as [a|]; [|auto].
  destruct (negb (bool_decide (Address.user a = User._id user))); [auto|].
  destruct (orderItems (menuItems s) (Cart.items body) 0 [])
    as [resp|[subtotal items]] eqn:Ei.
  - split; [|reflexivity]. cbn [fst].
    revert Ei. generalize (0 : Q) ([] : list Order.Item).
    induction (Cart.items body) as [|c l IH]; intros q acc; cbn [orderItems].
    + discriminate.
    + destruct (menuItems s !! Cart.menuItem c) as [m|]; [|intros [= <-]; reflexivity].
      destruct (negb (MenuItem.isAvailable m)); [intros [= <-]; reflexivity|].
      destruct (orderItem m c); [apply IH | intros [= <-]; reflexivity].
  - destruct (JS.lt subtotal (Restaurant.minimumOrder r)); [auto|].
    cbv zeta. rewrite validOrder_orderNumber. auto.
Qed.

(** The pricing block that the handler computes from a subtotal follows
    the formula of the specification, each step in doubles, and none of its
    components is negative. *)
Lemma pricing_block (subtotal : Q) (r : Restaurant.t) :
  0 <= subtotal -> 0 <= Restaurant.deliveryFee r ->
  let p := pricing subtotal r in
  Order.deliveryFee p == Restaurant.deliveryFee r
  /\ Order.platformFee p
     = JS.Math_round (JS.mul subtotal (JS.double (2 # 100)))
  /\ Order.packagingFee p = 10
  /\ Order.cgst p = Order.sgst p
  /\ Order.igst p = 0
  /\ Order.total p
     = JS.add
         (JS.add
            (JS.add
               (JS.add (JS.add (Order.subtotal p) (Order.deliveryFee p))
                       (Order.platformFee p))
               (Order.packagingFee p))
            (Order.cgst p))
         (Order.sgst p)
  /\ 0 <= Order.deliveryFee p
  /\ 0 <= Order.platformFee p
  /\ 0 <= Order.cgst p
  /\ 0 <= Order.total p.
Proof.
  intros Hs Hd. cbv zeta. unfold pricing.
  cbn [Order.deliveryFee Order.platformFee Order.packagingFee Order.cgst
       Order.sgst Order.igst Order.total Order.subtotal].
  set (fee := JS.or_num (Restaurant.deliveryFee r) 0).
  assert (Ef : fee == Restaurant.deliveryFee r).
  { unfold fee, JS.or_num, JS.truthy.
    destruct (Qeq_bool (Restaurant.deliveryFee r) 0) eqn:E; cbn [negb].
    - apply Qeq_bool_iff in E. symmetry. exact E.
    - reflexivity. }
  assert (Hf : 0 <= fee) by (rewrite Ef; exact Hd).
  set (platform := JS.Math_round (JS.mul subtotal (JS.double (2 # 100)))).
  assert (Hp : 0 <= platform).
  { apply Math_round_nonneg, double_nonneg.
    apply Qmult_le_0_compat; [exact Hs | vm_compute; discriminate]. }
  set (tax := JS.div
                (JS.Math_round
                   (JS.mul (JS.div (JS.mul subtotal (JS.double (5 # 100))) 2)
                           100)) 100).
  assert (Ht : 0 <= tax).
  { apply double_nonneg. apply Qle_shift_div_l; [reflexivity|].
    rewrite Qmult_0_l. apply Math_round_nonneg, double_nonneg.
    apply Qmult_le_0_compat; [|discriminate].
    apply double_nonneg. apply Qle_shift_div_l; [reflexivity|].
    rewrite Qmult_0_l. apply double_nonneg.
    apply Qmult_le_0_compat; [exact Hs | vm_compute; discriminate]. }
  split; [exact Ef|]. split; [reflexivity|]. split; [reflexivity|].
  split; [reflexivity|]. split; [reflexivity|]. split; [reflexivity|].
  split; [exact Hf|]. split; [exact Hp|]. split; [exact Ht|].
  assert (H1 : 0 <= JS.add subtotal fee) by (apply double_nonneg; lra).
  assert (H2 : 0 <= JS.add (JS.add subtotal fee) platform)
    by (apply double_nonneg; lra).
  assert (H3 : 0 <= JS.add (JS.add (JS.add subtotal fee) platform) 10)
    by (apply double_nonneg; lra).
  assert (H4 : 0 <= JS.add (JS.add (JS.add (JS.add subtotal fee) platform) 10)
                           tax)
    by (apply double_nonneg; lra).
  apply double_nonneg. lra.
Qed.

(** The taxes are rounded in doubles: for the subtotal 84.6 the handler
    computes 211.49999999999997 hundredths and a tax of 2.11, where 2.115
    rounded to two decimals is 2.12. *)
Example pricing_in_doubles :
  Order.cgst (pricing (JS.double (846 # 10)) Sample.restaurant)
  = JS.double (211 # 100)
  /\ JS.Math_round ((846 # 10) * (25 # 1000) * 100) / 100 == 212 # 100.
Proof. split; vm_compute; reflexivity. Qed.

(** C2: no order is ever created, so no pricing is ever stored.
    [createOrder] answers no request with success and leaves every store as
    it was.  For the scenario of the specification every precondition
    holds: the restaurant is active, the address is the caller's, the item
    loop yields the subtotal 240, above the minimum order; the document that
    the handler builds is the sample order, priced as the claim says
    (delivery fee 30, platform fee 5, packaging fee 10, taxes 6 and 6, total
    297), and it would pass the validation with an order number.  It has
    none, and the handler throws the validation error. *)
Theorem createOrder_stores_no_order :
  (forall user body now otpCode newId s,
      succeeded (fst (createOrder user body now otpCode newId s)) = false
      /\ snd (createOrder user body now otpCode newId s) = s)
  /\ (let s := Sample.store in
      let r := Sample.restaurant in
      let document := Sample.order "4321" 1800000 in
      restaurants s !! Cart.restaurant Sample.scenario = Some r
      /\ Restaurant.isActive r = true
      /\ Address.user <$> addresses s !! Cart.deliveryAddress Sample.scenario
         = Some (User._id Sample.customer)
      /\ orderItems (menuItems s) (Cart.items Sample.scenario) 0 []
         = inr (240, Order.items document)
      /\ JS.lt 240 (Restaurant.minimumOrder r) = false
      /\ orderDocument Sample.customer Sample.scenario 0 "4321" 240
           (Order.items document) r = document
      /\ validOrder (Some "FR00001") document = true
      /\ validOrder None document = false
      /\ createOrder Sample.customer Sample.scenario 0 "4321" 7 s
         = (Throw "ValidationError", s)).
Proof.
  split; [exact createOrder_fails|]. by_evaluation.
Qed.
End PricingProperties.

(** ** Unit prices, variants and add-ons *)

Section LineProperties.
Local Open Scope Q_scope.

(** A line without variant is priced at the base price, whatever the
    discounted price of the menu item. *)
Lemma itemPrice_no_variant (m : MenuItem.t) (item : Cart.Line) :
  Cart.variant item = None -> itemPrice m item = MenuItem.price m.
Proof. intros H. unfold itemPrice. rewrite H. reflexivity. Qed.

(** A line naming a variant of the menu item takes the discounted price
    of the variant when it has one that is not 0. *)
Lemma itemPrice_variant (m : MenuItem.t) (item : Cart.Line) v mv :
  Cart.variant item = Some v -> findVariant m v = Some mv ->
  itemPrice m item
  = JS.or_undef (MenuItem.variant_discountedPrice mv)
                (MenuItem.variant_price mv).
Proof. intros H1 H2. unfold itemPrice. rewrite H1, H2. reflexivity. Qed.

Lemma orderItem_price (m : MenuItem.t) (item : Cart.Line) (oi : Order.Item) :
  orderItem m item = Some oi -> Order.price oi = itemPrice m item.
Proof.
  unfold orderItem. destruct (addCustomizations _ _); [|discriminate].
  intros [= <-]. reflexivity.
Qed.

(** C4: the item loop never reads the discounted price of a menu item: a
    line without variant is pushed with the base price as unit price.  The
    burger costs 100 and is discounted to 80: for one burger without
    variant the loop pushes the unit price 100 and counts 100 towards the
    subtotal, where the rule of the specification gives 80 (the value of
    the schema's [finalPrice]).  With a minimum order of 90 the request
    passes the minimum-order check, which it would fail at 80. *)
Theorem orderItems_ignores_item_discount :
  let item := Sample.line 1 1 None [] in
  (forall m line oi,
      Cart.variant line = None -> orderItem m line = Some oi ->
      Order.price oi = MenuItem.price m)
  /\ (exists i,
        orderItems (menuItems Sample.store) [item] 0 [] = inr (100, [i])
        /\ Order.price i = 100 /\ Order.itemTotal i = 100)
  /\ specUnitPrice Sample.burger item = Some 80
  /\ MenuItem.finalPrice Sample.burger = 80
  /\ JS.lt 80 90 = true
  /\ createOrder Sample.customer (Sample.cart [item]) 0 "4321" 7 minimum90
     = (Throw "ValidationError", minimum90).
Proof.
  cbv zeta. split.
  { intros m line oi Hv Ho. rewrite (orderItem_price _ _ _ Ho).
    apply itemPrice_no_variant, Hv. }
  split.
  { eexists. split; [vm_compute; reflexivity|]. split; reflexivity. }
  by_evaluation.
Qed.






End LineProperties.

Section LineExamples.
Local Open Scope Q_scope.


(** The loop accepts the odd line at the base price of the burger. *)
Example oddLine_accepted :
  exists i,
    orderItems (menuItems Sample.store) [oddLine] 0 [] = inr (100, [i])
    /\ Order.price i = 100 /\ Order.itemTotal i = 100.
Proof. eexists. split; [vm_compute; reflexivity|]. split; reflexivity. Qed.

End LineExamples.

(** ** Delivery OTP *)

Section OtpProperties.

(** C3: on an order holding an OTP, verification with the stored code no
    later than the expiry instant answers success and stores the order
    with [orderStatus = delivered], [actualDeliveryTime = now] and the
    OTP cleared; verification with another code, or strictly after the
    expiry instant, answers 400 and leaves the store, hence the order, as
    it was. *)
Theorem verifyDeliveryOTP_spec (id : ObjectId) (otp : option string)
    (now : Date) (s : Store) (order : Order.t) (c : string) (e : Date) :
  orders s !! id = Some order ->
  Order.otp order = {| Order.code := Some c; Order.expiresAt := Some e |} ->
  (otp = Some c /\ (now <= e)%Z ->
   exists o,
     fst (verifyDeliveryOTP id otp now s)
     = Json 200 true "Order delivered successfully"
     /\ orders (snd (verifyDeliveryOTP id otp now s)) !! id = Some o
     /\ Order.orderStatus o = OrderStatus.delivered
     /\ Order.actualDeliveryTime o = Some now
     /\ Order.otp o = {| Order.code := None; Order.expiresAt := None |})
  /\ (otp <> Some c \/ (e < now)%Z ->
      verifyDeliveryOTP id otp now s
      = (Json 400 false "Invalid or expired OTP", s)).
Proof.
  intros Ho Hotp. unfold verifyDeliveryOTP, otpExpired.
  rewrite Ho, Hotp. cbn [Order.code Order.expiresAt]. split.
  - intros [-> Hle].
    rewrite bool_decide_eq_true_2 by reflexivity.
    rewrite (bool_decide_eq_false_2 (e < now)%Z) by lia.
    cbn [negb orb fst snd]. eexists. split; [reflexivity|].
    split; [apply lookup_insert_eq|].
    unfold Order.preSave.
    destruct (decide _); cbn; auto.
  - intros [Hne | Hlt].
    + rewrite bool_decide_eq_false_2 by congruence. reflexivity.
    + rewrite (bool_decide_eq_true_2 (e < now)%Z) by exact Hlt.
      rewrite orb_true_r. reflexivity.
Qed.

Lemma verifyDeliveryOTP_spec_witness :
  (Some "4321" = Some "4321" /\ (1000 <= 1800000)%Z ->
   exists o,
     fst (verifyDeliveryOTP 7 (Some "4321") 1000 Sample.placedStore)
     = Json 200 true "Order delivered successfully"
     /\ orders (snd (verifyDeliveryOTP 7 (Some "4321") 1000
                       Sample.placedStore)) !! 7%N = Some o
     /\ Order.orderStatus o = OrderStatus.delivered
     /\ Order.actualDeliveryTime o = Some 1000%Z
     /\ Order.otp o = {| Order.code := None; Order.expiresAt := None |})
  /\ (Some "4321" <> Some "4321" \/ (1800000 < 1000)%Z ->
      verifyDeliveryOTP 7 (Some "4321") 1000 Sample.placedStore
      = (Json 400 false "Invalid or expired OTP", Sample.placedStore)).
Proof.
  destruct (orders Sample.placedStore !! 7%N) as [order|] eqn:E;
    [|vm_compute in E; discriminate].
  apply (verifyDeliveryOTP_spec 7 (Some "4321") 1000 Sample.placedStore
           order "4321" 1800000 E).
  vm_compute in E. injection E as <-. reflexivity.
Defined.

Example verifyDeliveryOTP_wrong_code :
  verifyDeliveryOTP 7 (Some "0000") 1000 Sample.placedStore
  = (Json 400 false "Invalid or expired OTP", Sample.placedStore).
Proof. vm_compute. reflexivity. Qed.

Example verifyDeliveryOTP_expired :
  verifyDeliveryOTP 7 (Some "4321") 1800001 Sample.placedStore
  = (Json 400 false "Invalid or expired OTP", Sample.placedStore).
Proof. vm_compute. reflexivity. Qed.

Example verifyDeliveryOTP_at_expiry :
  fst (verifyDeliveryOTP 7 (Some "4321") 1800000 Sample.placedStore)
  = Json 200 true "Order delivered successfully".
Proof. vm_compute. reflexivity. Qed.
End OtpProperties.

(** ** The transition table *)

Section TransitionProperties.

Lemma validTransitions_total (st : OrderStatus.t) :
  is_Some (validTransitions !! OrderStatus.to_string st).
Proof. destruct st; vm_compute; eauto. Qed.

Lemma of_string_to_string (st : OrderStatus.t) :
  OrderStatus.of_string (OrderStatus.to_string st) = Some st.
Proof. destruct st; reflexivity. Qed.

Lemma of_string_inv (x : string) (st : OrderStatus.t) :
  OrderStatus.of_string x = Some st -> x = OrderStatus.to_string st.
Proof.
  unfold OrderStatus.of_string. intros H.
  apply find_some in H as [_ H]. apply bool_decide_eq_true in H. auto.
Qed.

(** The terminal statuses have no successor and no status is its own
    successor. *)
Lemma allowed_table (from to : OrderStatus.t) :
  allowed from to = true <->
  match from, to with
  | OrderStatus.pending, OrderStatus.confirmed
  | OrderStatus.confirmed, OrderStatus.preparing
  | OrderStatus.preparing, OrderStatus.ready_for_pickup
  | OrderStatus.ready_for_pickup, OrderStatus.out_for_delivery
  | OrderStatus.out_for_delivery, OrderStatus.delivered => True
  | (OrderStatus.pending | OrderStatus.confirmed | OrderStatus.preparing
     | OrderStatus.ready_for_pickup | OrderStatus.out_for_delivery),
    OrderStatus.cancelled => True
  | _, _ => False
  end.
Proof. destruct from, to; vm_compute; intuition discriminate. Qed.

(** X9: [updateOrderStatus] refuses every request outside the table and
    then leaves the store as it was. *)
Lemma updateOrderStatus_outside_table user id status reason now s order :
  orders s !! id = Some order ->
  (forall targets,
      validTransitions !! OrderStatus.to_string (Order.orderStatus order)
      = Some targets -> status ∉ targets) ->
  succeeded (fst (updateOrderStatus user id status reason now s)) = false
  /\ snd (updateOrderStatus user id status reason now s) = s.
Proof.
  intros Ho Hn. unfold updateOrderStatus. rewrite Ho.
  destruct (canUpdate user status order s) as [[]|]; [|auto|auto].
  destruct (validTransitions_total (Order.orderStatus order)) as [t Ht].
  rewrite Ht. rewrite bool_decide_eq_false_2 by (apply Hn, Ht). auto.
Qed.

(** X8: every status written by [updateOrderStatus] is a successor, in
    the table, of the status it replaces. *)
Lemma updateOrderStatus_inside_table user id status reason now s order o :
  orders s !! id = Some order ->
  succeeded (fst (updateOrderStatus user id status reason now s)) = true ->
  orders (snd (updateOrderStatus user id status reason now s)) !! id = Some o ->
  allowed (Order.orderStatus order) (Order.orderStatus o) = true.
Proof.
  intros Ho. unfold updateOrderStatus, allowed. rewrite Ho.
  destruct (canUpdate user status order s) as [[]|]; [|discriminate..].
  destruct (validTransitions !! _) as [t|]; [|discriminate].
  destruct (bool_decide (status ∈ t)) eqn:Hin; [|discriminate]. cbn [negb].
  destruct (OrderStatus.of_string status) as [st|] eqn:Est; [|discriminate].
  apply of_string_inv in Est. subst status.
  destruct (bool_decide (OrderStatus.to_string st = "cancelled")).
  - destruct (CancelledBy.of_string _); [|discriminate].
    intros _. cbn [snd]. unfold saveOrder. cbn [orders set_orders].
    rewrite lookup_insert_eq. intros [= <-].
    unfold Order.preSave.
    destruct (decide _); destruct (bool_decide (_ = "delivered")); exact Hin.
  - intros _. cbn [snd]. unfold saveOrder. cbn [orders set_orders].
    rewrite lookup_insert_eq. intros [= <-].
    unfold Order.preSave.
    destruct (decide _); destruct (bool_decide (_ = "delivered")); exact Hin.
Qed.

Example readyStore_status :
  Order.orderStatus <$> orders readyStore !! 7%N
  = Some OrderStatus.ready_for_pickup.
Proof. vm_compute. reflexivity. Qed.

(** C1: delivery confirmation by OTP does not consult the table.  Order 7
    is [pending]; [delivered] is not a successor of [pending]; yet
    verification with the stored code answers success and stores the
    order as [delivered].  The same happens to the order once cancelled,
    although [cancelled] has no successor. *)
Theorem verifyDeliveryOTP_ignores_table :
  let s := Sample.placedStore in
  let cancelledStore := snd (cancelOrder Sample.customer 7 None 10 s) in
  Order.orderStatus <$> orders s !! 7%N = Some OrderStatus.pending
  /\ allowed OrderStatus.pending OrderStatus.delivered = false
  /\ fst (verifyDeliveryOTP 7 (Some "4321") 1000 s)
     = Json 200 true "Order delivered successfully"
  /\ Order.orderStatus
       <$> orders (snd (verifyDeliveryOTP 7 (Some "4321") 1000 s)) !! 7%N
     = Some OrderStatus.delivered
  /\ Order.orderStatus <$> orders cancelledStore !! 7%N
     = Some OrderStatus.cancelled
  /\ allowed OrderStatus.cancelled OrderStatus.delivered = false
  /\ Order.orderStatus
       <$> orders (snd (verifyDeliveryOTP 7 (Some "4321") 1000
                          cancelledStore)) !! 7%N
     = Some OrderStatus.delivered.
Proof. by_evaluation. Qed.

(** C6: the customer of order 7, who is neither admin, nor the owner of
    the restaurant, nor a delivery partner, asks for [cancelled] while the
    order is [ready_for_pickup].  The dedicated operation refuses; the
    generic status update accepts and stores the order as [cancelled]. *)
Theorem updateOrderStatus_customer_cancels_late :
  Order.orderStatus <$> orders readyStore !! 7%N
  = Some OrderStatus.ready_for_pickup
  /\ cancelOrder Sample.customer 7 None 40 readyStore
     = (Json 400 false "Order cannot be cancelled at this stage", readyStore)
  /\ fst (updateOrderStatus Sample.customer 7 "cancelled" None 40 readyStore)
     = Json 200 true "Order status updated successfully"
  /\ Order.orderStatus
       <$> orders (snd (updateOrderStatus Sample.customer 7 "cancelled" None
                          40 readyStore)) !! 7%N
     = Some OrderStatus.cancelled.
Proof. by_evaluation. Qed.

(** The customer part of [canUpdate]: a caller who is only the customer
    of the order may ask for [cancelled] and for nothing else. *)
Lemma canUpdate_customer user status order s r :
  User.role user <> Role.admin ->
  restaurants s !! Order.restaurant order = Some r ->
  Restaurant.owner r <> User._id user ->
  populatedPartnerUser order s <> Some (User._id user) ->
  canUpdate user status order s
  = Some (bool_decide (status = "cancelled")
          && bool_decide (Order.customer order = User._id user)).
Proof.
  intros Ha Hr Ho Hp. unfold canUpdate.
  rewrite bool_decide_eq_false_2 by exact Ha. rewrite Hr.
  rewrite (bool_decide_eq_false_2 _ Ho), (bool_decide_eq_false_2 _ Hp).
  reflexivity.
Qed.

(** [cancelOrder] writes [cancelled] only over a cancellable status. *)
Lemma cancelOrder_stage user id reason now s order :
  orders s !! id = Some order ->
  ~ OrderStatus.to_string (Order.orderStatus order) ∈ cancellableStatuses ->
  succeeded (fst (cancelOrder user id reason now s)) = false
  /\ snd (cancelOrder user id reason now s) = s.
Proof.
  intros Ho Hn. unfold cancelOrder. rewrite Ho.
  destruct (negb _); [auto|].
  rewrite bool_decide_eq_false_2 by exact Hn. auto.
Qed.

(** C10: in [updateOrderStatus] a cancellation writes the caller's role
    string to [cancelledBy]; of the three role strings only
    [restaurant_owner] is outside the enum of the schema, so a restaurant
    owner who passes the authorization and the transition checks always
    fails validation at save, and the store is left as it was. *)
Theorem updateOrderStatus_owner_cancel_fails user id reason now s order targets :
  User.role user = Role.restaurant_owner ->
  orders s !! id = Some order ->
  canUpdate user "cancelled" order s = Some true ->
  validTransitions !! OrderStatus.to_string (Order.orderStatus order)
  = Some targets ->
  "cancelled" ∈ targets ->
  updateOrderStatus user id "cancelled" reason now s
  = (Throw "ValidationError", s)
  /\ (forall r, CancelledBy.of_string (Role.to_string r) = None
                <-> r = Role.restaurant_owner).
Proof.
  intros Hrole Ho Hc Ht Hin. split.
  - unfold updateOrderStatus. rewrite Ho, Hc, Ht.
    rewrite bool_decide_eq_true_2 by exact Hin. rewrite Hrole. reflexivity.
  - intros []; vm_compute; intuition discriminate.
Qed.

Lemma updateOrderStatus_owner_cancel_fails_witness :
  updateOrderStatus Sample.owner 7 "cancelled" None 10 Sample.placedStore
  = (Throw "ValidationError", Sample.placedStore)
  /\ (forall r, CancelledBy.of_string (Role.to_string r) = None
                <-> r = Role.restaurant_owner).
Proof.
  destruct (orders Sample.placedStore !! 7%N) as [order|] eqn:E;
    [|vm_compute in E; discriminate].
  apply (updateOrderStatus_owner_cancel_fails Sample.owner 7 None 10
           Sample.placedStore order ["confirmed"; "cancelled"]).
  - reflexivity.
  - exact E.
  - vm_compute in E. injection E as <-. vm_compute. reflexivity.
  - vm_compute in E. injection E as <-. vm_compute. reflexivity.
  - apply list_elem_of_In. right. left. reflexivity.
Defined.
End TransitionProperties.

(** ** Rating aggregation *)

Section RatingProperties.
Local Open Scope Q_scope.

Lemma reviews_updateRestaurantRating doc s :
  reviews (updateRestaurantRating doc s) = reviews s.
Proof. unfold updateRestaurantRating. destruct (_ <? _)%nat; reflexivity. Qed.

Lemma reviews_updatePartnerRating doc s :
  reviews (updatePartnerRating doc s) = reviews s.
Proof.
  unfold updatePartnerRating.
  destruct (Review.deliveryPartner doc); [|reflexivity].
  destruct (_ <? _)%nat; reflexivity.
Qed.


Lemma updateItemRatings_frame (l : list Review.ItemRating) (s : Store) :
  let s' := fold_left (fun s itemReview => updateItemRating itemReview s) l s in
  restaurants s' = restaurants s /\ reviews s' = reviews s
  /\ partners s' = partners s /\ orders s' = orders s.
Proof.
  revert s. induction l as [|e l IH]; intros s; simpl; [auto|].
  destruct (IH (updateItemRating e s)) as (H1 & H2 & H3 & H4).
  rewrite H1, H2, H3, H4. unfold updateItemRating.
  destruct (_ <? _)%nat; auto.
Qed.

Lemma reviews_reviewPostSave doc s : reviews (reviewPostSave doc s) = reviews s.
Proof.
  unfold reviewPostSave.
  destruct (updateItemRatings_frame (Review.menuItems doc)
              (updatePartnerRating doc (updateRestaurantRating doc s)))
    as (_ & H & _).
  cbv zeta in H. rewrite H.
  rewrite reviews_updatePartnerRating. apply reviews_updateRestaurantRating.
Qed.


Lemma storeReview_In (doc : Review.t) (rs : list Review.t) :
  In doc (storeReview doc rs).
Proof.
  unfold storeReview.
  destruct (existsb _ rs) eqn:E.
  - apply existsb_exists in E as (r & Hin & Hid).
    apply in_map_iff. exists r. rewrite Hid. auto.
  - apply in_or_app. right. left. reflexivity.
Qed.


End RatingProperties.

Section RatingExamples.
Local Open Scope Q_scope.

Example moderated_rating :
  exists r,
    restaurants (saveReview true (review 2 6 5 false) moderatedStore) !! 1%N
    = Some r
    /\ Restaurant.rating_average r == 3 /\ Restaurant.rating_count r = 2%nat.
Proof.
  eexists. split; [vm_compute; reflexivity|].
  split; vm_compute; reflexivity.
Qed.

(** A five-star review saved next to a hidden one-star review gives the
    restaurant the count 2 (and the average 3), not the count 1 of the
    reviews that are not hidden. *)
Lemma saveReview_counts_hidden_reviews :
  exists r,
    restaurants (saveReview true (review 2 6 5 false) moderatedStore) !! 1%N
    = Some r
    /\ Restaurant.rating_count r = 2%nat
    /\ length (visibleReviews 1
                 (reviews (saveReview true (review 2 6 5 false) moderatedStore)))
       = 1%nat.
Proof.
  destruct moderated_rating as (r & Hr & _ & Hc).
  exists r. split; [exact Hr|]. split; [exact Hc|]. vm_compute. reflexivity.
Qed.




(** The average is computed in doubles: for the overall ratings 1, 2.7, 5
    and 2.7 the sum is 11.399999999999999 and the hook stores 2.8, where
    the mean 2.85 rounded to one decimal is 2.9. *)
Example averageRating_in_doubles :
  let ratings := [1; JS.double (27 # 10); 5; JS.double (27 # 10)] in
  averageRating ratings = JS.double (28 # 10)
  /\ round1 (mean ratings) == 29 # 10.
Proof. split; vm_compute; reflexivity. Qed.
End RatingExamples.

(** ** Attaching a delivery partner *)

Section AssignmentProperties.
Local Open Scope Q_scope.

(** What [acceptOrder] requires and does: the partner is online and has
    no current order, the order is ready for pickup and has no partner;
    then the order references the partner, and the partner the order,
    with one more order in the statistics. *)
Lemma acceptOrder_success user orderId now s :
  succeeded (fst (acceptOrder user orderId now s)) = true ->
  exists p order,
    findPartnerByUser (User._id user) (partners s) = Some p
    /\ DeliveryPartner.isOnline p = true
    /\ DeliveryPartner.currentOrder p = None
    /\ orders s !! orderId = Some order
    /\ Order.orderStatus order = OrderStatus.ready_for_pickup
    /\ Order.deliveryPartner order = None
    /\ (exists o, orders (snd (acceptOrder user orderId now s)) !! orderId
                  = Some o
                  /\ Order.deliveryPartner o = Some (DeliveryPartner._id p)
                  /\ Order.orderStatus o = OrderStatus.out_for_delivery).
Proof.
  unfold acceptOrder.
  destruct (findPartnerByUser _ _) as [p|]; [|discriminate].
  destruct (DeliveryPartner.isOnline p) eqn:Hon; [|discriminate]. cbn [negb].
  destruct (DeliveryPartner.currentOrder p) eqn:Hc; [discriminate|].
  destruct (orders s !! orderId) as [order|] eqn:Ho; [|discriminate].
  destruct (bool_decide (Order.orderStatus order = _)) eqn:Hs; [|discriminate].
  destruct (bool_decide (is_Some _)) eqn:Hp; [discriminate|].
  intros _. apply bool_decide_eq_true in Hs. apply bool_decide_eq_false in Hp.
  exists p, order. repeat split; try assumption; try reflexivity.
  - destruct (Order.deliveryPartner order); [exfalso; eauto | reflexivity].
  - cbn. rewrite lookup_insert_eq. eexists. split; [reflexivity|].
    unfold Order.preSave. destruct (decide _); cbn; auto.
Qed.

Example acceptedStore_partner :
  exists p, findPartnerById 1 (partners acceptedStore) = Some p
    /\ DeliveryPartner.currentOrder p = Some 7%N
    /\ DeliveryPartner.totalOrders (DeliveryPartner.statistics p) == 1.
Proof.
  eexists. split; [vm_compute; reflexivity|].
  split; vm_compute; reflexivity.
Qed.

(** C8: order 7 is out for delivery with partner 1, whose current order
    it is.  The restaurant owner assigns partner 2: the request is
    accepted although the order has a partner, the order now references
    partner 2, and partner 2 has no current order and no order counted.
    The owner assigns partner 1, still busy with order 7, to a second
    order 8: accepted as well, so two open orders reference partner 1. *)
Theorem assignDeliveryPartner_lacks_guards :
  let second := Sample.stored 8 (Sample.order "9999" 1800060) acceptedStore in
  Order.deliveryPartner <$> orders acceptedStore !! 7%N = Some (Some 1%N)
  /\ fst (assignDeliveryPartner Sample.owner 7 2 70 acceptedStore)
     = Json 200 true "Delivery partner assigned successfully"
  /\ Order.deliveryPartner
       <$> orders (snd (assignDeliveryPartner Sample.owner 7 2 70
                          acceptedStore)) !! 7%N
     = Some (Some 2%N)
  /\ partners (snd (assignDeliveryPartner Sample.owner 7 2 70 acceptedStore))
     = partners acceptedStore
  /\ DeliveryPartner.currentOrder
       <$> findPartnerById 2 (partners acceptedStore) = Some None
  /\ fst (assignDeliveryPartner Sample.owner 8 1 70 second)
     = Json 200 true "Delivery partner assigned successfully"
  /\ (let s := snd (assignDeliveryPartner Sample.owner 8 1 70 second) in
      (fun o => (Order.deliveryPartner o, Order.orderStatus o))
        <$> orders s !! 7%N
      = Some (Some 1%N, OrderStatus.out_for_delivery)
      /\ (fun o => (Order.deliveryPartner o, Order.orderStatus o))
           <$> orders s !! 8%N
         = Some (Some 1%N, OrderStatus.pending)).
Proof. by_evaluation. Qed.
End AssignmentProperties.

(** ** Operations and what they do to a delivery partner *)

Section Operations.
Local Open Scope Q_scope.

(** *** Operations on orders leave the partners alone *)

Lemma createOrder_partners user body now otpCode newId s :
  partners (snd (createOrder user body now otpCode newId s)) = partners s.
Proof.
  unfold createOrder.
  repeat (match goal with
          | |- context [match ?x with _ => _ end] => destruct x
          end; try reflexivity).
Qed.

Lemma updateOrderStatus_partners user id status reason now s :
  partners (snd (updateOrderStatus user id status reason now s)) = partners s.
Proof.
  unfold updateOrderStatus.
  destruct (orders s !! id); [|reflexivity].
  destruct (canUpdate _ _ _ _) as [[]|]; [|reflexivity..].
  destruct (validTransitions !! _); [|reflexivity].
  destruct (negb _); [reflexivity|].
  destruct (OrderStatus.of_string _); [|reflexivity].
  destruct (bool_decide (status = "cancelled"));
    [destruct (CancelledBy.of_string _)|]; reflexivity.
Qed.

Lemma assignDeliveryPartner_partners user id deliveryPartnerId now s :
  partners (snd (assignDeliveryPartner user id deliveryPartnerId now s))
  = partners s.
Proof.
  unfold assignDeliveryPartner.
  destruct (orders s !! id); [|reflexivity].
  destruct (restaurants s !! _); [|reflexivity].
  destruct (_ && _); [reflexivity|].
  destruct (findPartnerById _ _); [|reflexivity].
  destruct (negb _); reflexivity.
Qed.

Lemma cancelOrder_partners user id reason now s :
  partners (snd (cancelOrder user id reason now s)) = partners s.
Proof.
  unfold cancelOrder.
  destruct (orders s !! id); [|reflexivity].
  destruct (negb _); [reflexivity|].
  destruct (negb _); reflexivity.
Qed.

(** Delivery confirmation writes the order document only. *)
Lemma verifyDeliveryOTP_partners id otp now s :
  partners (snd (verifyDeliveryOTP id otp now s)) = partners s.
Proof.
  unfold verifyDeliveryOTP.
  destruct (orders s !! id); [|reflexivity].
  destruct (_ || _); reflexivity.
Qed.

(** *** How the document of a partner may change *)

Lemma evolves_refl u p : evolves u p p.
Proof. unfold evolves. auto. Qed.

Lemma evolves_trans u p1 p2 p3 :
  evolves u p1 p2 -> evolves u p2 p3 -> evolves u p1 p3.
Proof.
  intros (I1 & U1 & K1) (I2 & U2 & K2).
  split; [congruence|]. split; [congruence|].
  intros Hu. destruct (K1 Hu) as (C1 & D1 & R1).
  destruct K2 as (C2 & D2 & R2); [congruence|].
  split; [|split].
  - intros Hc. rewrite C2, C1; auto. rewrite C1; auto.
  - congruence.
  - intros Hz Hr. apply R2; [rewrite D1; exact Hz | auto].
Qed.

(** The hook recomputes a completion rate that is 0 without completed
    orders. *)
Lemma preSave_evolves u p : evolves u p (DeliveryPartner.preSave p).
Proof.
  unfold DeliveryPartner.preSave.
  destruct (JS.lt 0 _); [|apply evolves_refl].
  split; [reflexivity|]. split; [reflexivity|]. intros _.
  split; [auto|]. split; [reflexivity|]. intros Hz _.
  cbn [DeliveryPartner.completionRate DeliveryPartner.statistics
       DeliveryPartner.set_statistics DeliveryPartner.set_completionRate].
  unfold JS.mul, JS.div.
  rewrite (double_zero (_ / _)) by (rewrite Hz; unfold Qdiv; ring).
  rewrite (double_zero (0 * 100)) by reflexivity. reflexivity.
Qed.

Lemma NoDup_id_inj (ps : list DeliveryPartner.t) (a b : DeliveryPartner.t) :
  NoDup (List.map DeliveryPartner._id ps) ->
  In a ps -> In b ps -> DeliveryPartner._id a = DeliveryPartner._id b -> a = b.
Proof.
  induction ps as [|x ps IH]; simpl; [tauto|].
  intros Hnd [-> | Ha] [-> | Hb] E; auto.
  - apply NoDup_cons in Hnd as [Hx _]. exfalso. apply Hx.
    rewrite E. apply list_elem_of_In, in_map, Hb.
  - apply NoDup_cons in Hnd as [Hx _]. exfalso. apply Hx.
    rewrite <- E. apply list_elem_of_In, in_map, Ha.
  - apply NoDup_cons in Hnd as [_ Hnd]. auto.
Qed.

Lemma Forall2_map_self {A} (R : A -> A -> Prop) (f : A -> A) (l : list A) :
  (forall x, In x l -> R x (f x)) -> Forall2 R l (List.map f l).
Proof.
  induction l as [|x l IH]; intros H; simpl; constructor.
  - apply H. left. reflexivity.
  - apply IH. intros y Hy. apply H. right. exact Hy.
Qed.

(** Saving a changed copy [q] of the stored document [d]. *)
Lemma savePartner_evolves u (ps : list DeliveryPartner.t) d q :
  NoDup (List.map DeliveryPartner._id ps) ->
  In d ps ->
  DeliveryPartner._id q = DeliveryPartner._id d ->
  evolves u d q ->
  Forall2 (evolves u) ps (savePartner q ps).
Proof.
  intros Hnd Hd Hid Hev. unfold savePartner. apply Forall2_map_self.
  intros x Hx. destruct (bool_decide _) eqn:E.
  - apply bool_decide_eq_true in E.
    assert (x = d) by (apply (NoDup_id_inj ps); auto; congruence).
    subst x. eapply evolves_trans; [exact Hev | apply preSave_evolves].
  - apply evolves_refl.
Qed.

Lemma Forall2_evolves_ids u ps ps' :
  Forall2 (evolves u) ps ps' ->
  List.map DeliveryPartner._id ps' = List.map DeliveryPartner._id ps.
Proof.
  induction 1 as [|p p' ps ps' (I & _) _ IH]; simpl; [reflexivity|].
  rewrite I, IH. reflexivity.
Qed.

Lemma findPartnerByUser_In u ps p :
  findPartnerByUser u ps = Some p -> In p ps /\ DeliveryPartner.user p = u.
Proof.
  intros H. apply find_some in H as [Hin Hu].
  apply bool_decide_eq_true in Hu. auto.
Qed.

Lemma findPartnerById_In id ps p :
  findPartnerById id ps = Some p -> In p ps /\ DeliveryPartner._id p = id.
Proof.
  intros H. apply find_some in H as [Hin Hu].
  apply bool_decide_eq_true in Hu. auto.
Qed.

(** The document of user [u] is found again, evolved, after the
    collection has evolved and grown at its end. *)
Lemma findPartnerByUser_evolves u ps front ext p :
  Forall2 (evolves u) ps front ->
  findPartnerByUser u ps = Some p ->
  exists p', findPartnerByUser u (front ++ ext) = Some p' /\ evolves u p p'.
Proof.
  unfold findPartnerByUser.
  induction 1 as [|d d' ps front Hev _ IH]; simpl; [discriminate|].
  destruct Hev as (I & U & K). rewrite U.
  destruct (bool_decide (DeliveryPartner.user d = u)).
  - intros [= <-]. exists d'. split; [reflexivity|]. split; auto.
  - exact IH.
Qed.

(** *** One operation *)

Lemma Forall2_evolves_refl u ps : Forall2 (evolves u) ps ps.
Proof. induction ps; constructor; auto using evolves_refl. Qed.

Lemma grows_refl u ps :
  NoDup (List.map DeliveryPartner._id ps) -> grows u ps ps.
Proof.
  intros Hnd. split; [|exact Hnd]. exists ps, []. rewrite app_nil_r.
  split; [reflexivity|]. apply Forall2_evolves_refl.
Qed.

Lemma grows_evolved u ps ps' :
  NoDup (List.map DeliveryPartner._id ps) ->
  Forall2 (evolves u) ps ps' -> grows u ps ps'.
Proof.
  intros Hnd F. split.
  - exists ps', []. rewrite app_nil_r. auto.
  - rewrite (Forall2_evolves_ids _ _ _ F). exact Hnd.
Qed.

Lemma grows_saved u ps d q :
  NoDup (List.map DeliveryPartner._id ps) ->
  In d ps ->
  DeliveryPartner._id q = DeliveryPartner._id d ->
  evolves u d q ->
  grows u ps (savePartner q ps).
Proof.
  intros Hnd Hd Hid Hev. apply grows_evolved; [exact Hnd|].
  apply savePartner_evolves with d; assumption.
Qed.

Lemma acceptOrder_grows u user orderId now s :
  NoDup (List.map DeliveryPartner._id (partners s)) ->
  grows u (partners s) (partners (snd (acceptOrder user orderId now s))).
Proof.
  intros Hnd. unfold acceptOrder.
  destruct (findPartnerByUser _ _) as [d|] eqn:Hd; [|apply grows_refl, Hnd].
  destruct (negb _); [apply grows_refl, Hnd|].
  destruct (DeliveryPartner.currentOrder d) eqn:Hc; [apply grows_refl, Hnd|].
  destruct (orders s !! orderId); [|apply grows_refl, Hnd].
  destruct (_ || _); [apply grows_refl, Hnd|].
  cbn [snd partners set_partners saveOrder set_orders].
  apply findPartnerByUser_In in Hd as [Hin _].
  apply grows_saved with d; [exact Hnd | exact Hin | reflexivity |].
  split; [reflexivity|]. split; [reflexivity|]. intros _.
  rewrite Hc. split; [intros [x Hx]; discriminate|]. cbn. auto.
Qed.

Lemma updateAvailability_grows u user isOnline s :
  NoDup (List.map DeliveryPartner._id (partners s)) ->
  grows u (partners s) (partners (snd (updateAvailability user isOnline s))).
Proof.
  intros Hnd. unfold updateAvailability.
  destruct (findPartnerByUser _ _) as [d|] eqn:Hd; [|apply grows_refl, Hnd].
  destruct (negb _); [apply grows_refl, Hnd|].
  cbn [snd partners set_partners].
  apply findPartnerByUser_In in Hd as [Hin _].
  apply grows_saved with d; [exact Hnd | exact Hin | reflexivity |].
  unfold evolves. cbn. auto.
Qed.

Lemma updateApprovalStatus_grows u id isApproved s :
  NoDup (List.map DeliveryPartner._id (partners s)) ->
  grows u (partners s) (partners (snd (updateApprovalStatus id isApproved s))).
Proof.
  intros Hnd. unfold updateApprovalStatus.
  destruct (findPartnerById _ _) as [d|] eqn:Hd; [|apply grows_refl, Hnd].
  cbn [snd partners set_partners].
  apply findPartnerById_In in Hd as [Hin _].
  apply grows_saved with d; [exact Hnd | exact Hin | reflexivity |].
  unfold evolves. cbn. auto.
Qed.

(** The profile update of another user. *)
Lemma updateMyProfile_grows u user body s :
  User._id user <> u ->
  NoDup (List.map DeliveryPartner._id (partners s)) ->
  grows u (partners s) (partners (snd (updateMyProfile user body s))).
Proof.
  intros Hu Hnd. unfold updateMyProfile.
  destruct (findPartnerByUser _ _) as [d|] eqn:Hd; [|apply grows_refl, Hnd].
  cbn [snd partners set_partners].
  apply findPartnerByUser_In in Hd as [Hin Hd].
  apply grows_saved with d; [exact Hnd | exact Hin | |].
  - destruct (body_currentOrder body); reflexivity.
  - split; [destruct (body_currentOrder body); reflexivity|].
    split; [destruct (body_currentOrder body); reflexivity|].
    intros E. congruence.
Qed.

Lemma applyDeliveryPartner_grows u user doc s :
  NoDup (List.map DeliveryPartner._id (partners s)) ->
  grows u (partners s) (partners (snd (applyDeliveryPartner user doc s))).
Proof.
  intros Hnd. unfold applyDeliveryPartner.
  destruct (findPartnerByUser (User._id user) _); [apply grows_refl, Hnd|].
  destruct (bool_decide (is_Some (findPartnerByUser _ _)));
    [apply grows_refl, Hnd|].
  destruct (bool_decide (is_Some (findPartnerById _ _))) eqn:Hid;
    [apply grows_refl, Hnd|].
  cbn [orb snd partners set_partners]. split.
  - exists (partners s), [DeliveryPartner.preSave doc].
    split; [reflexivity|]. apply Forall2_evolves_refl.
  - rewrite map_app. apply NoDup_app. split; [exact Hnd|].
    split; [|apply NoDup_singleton].
    intros x Hx Hx'. apply list_elem_of_singleton in Hx'. subst x.
    apply bool_decide_eq_false in Hid. apply Hid.
    apply list_elem_of_In, in_map_iff in Hx as (d & Hd & Hin).
    destruct (findPartnerById _ _) eqn:Ef; [eauto|].
    exfalso. apply (find_none _ _ Ef) in Hin.
    apply bool_decide_eq_false in Hin. apply Hin.
    rewrite Hd. destruct (preSave_id doc). reflexivity.
Qed.

Lemma partners_updateRestaurantRating doc s :
  partners (updateRestaurantRating doc s) = partners s.
Proof. unfold updateRestaurantRating. destruct (_ <? _)%nat; reflexivity. Qed.

Lemma saveReview_grows u modified doc s :
  NoDup (List.map DeliveryPartner._id (partners s)) ->
  grows u (partners s) (partners (saveReview modified doc s)).
Proof.
  intros Hnd. unfold saveReview, reviewPostSave.
  set (d := reviewPreSave modified doc).
  set (s1 := set_reviews (storeReview d (reviews s)) s).
  destruct (updateItemRatings_frame (Review.menuItems d)
              (updatePartnerRating d (updateRestaurantRating d s1)))
    as (_ & _ & H & _).
  cbv zeta in H. rewrite H. clear H.
  unfold updatePartnerRating.
  destruct (Review.deliveryPartner d) as [pid|];
    [|rewrite partners_updateRestaurantRating; apply grows_refl, Hnd].
  destruct (_ <? _)%nat;
    [|rewrite partners_updateRestaurantRating; apply grows_refl, Hnd].
  cbn [partners set_partners]. rewrite partners_updateRestaurantRating.
  change (partners s1) with (partners s).
  apply grows_evolved; [exact Hnd|].
  unfold updatePartnerById. apply Forall2_map_self.
  intros x _. destruct (bool_decide _); [|apply evolves_refl].
  unfold evolves. cbn. auto.
Qed.

(** Every operation but a profile update of user [u] lets the partners
    grow. *)
Lemma after_grows u op s :
  ~ profileUpdateBy u op ->
  NoDup (List.map DeliveryPartner._id (partners s)) ->
  grows u (partners s) (partners (after op s)).
Proof.
  intros Hop Hnd. destruct op; cbn [after].
  - rewrite createOrder_partners. apply grows_refl, Hnd.
  - rewrite updateOrderStatus_partners. apply grows_refl, Hnd.
  - rewrite assignDeliveryPartner_partners. apply grows_refl, Hnd.
  - rewrite cancelOrder_partners. apply grows_refl, Hnd.
  - rewrite verifyDeliveryOTP_partners. apply grows_refl, Hnd.
  - apply acceptOrder_grows, Hnd.
  - apply updateAvailability_grows, Hnd.
  - apply updateApprovalStatus_grows, Hnd.
  - apply updateMyProfile_grows; [exact Hop | exact Hnd].
  - apply applyDeliveryPartner_grows, Hnd.
  - apply saveReview_grows, Hnd.
Qed.

(** *** Sequences of operations *)

Lemma run_grows u ops s p :
  Forall (fun op => ~ profileUpdateBy u op) ops ->
  NoDup (List.map DeliveryPartner._id (partners s)) ->
  findPartnerByUser u (partners s) = Some p ->
  exists p',
    findPartnerByUser u (partners (run ops s)) = Some p' /\ evolves u p p'.
Proof.
  intros Hops. revert s p.
  induction Hops as [|op ops Hop _ IH]; intros s p Hnd Hp; cbn [run fold_left].
  - exists p. split; [exact Hp | apply evolves_refl].
  - destruct (after_grows u op s Hop Hnd) as [(front & ext & E & F) Hnd'].
    destruct (findPartnerByUser_evolves u _ front ext p F Hp) as (p1 & Hp1 & E1).
    rewrite <- E in Hp1.
    destruct (IH (after op s) p1 Hnd' Hp1) as (p2 & Hp2 & E2).
    exists p2. split; [exact Hp2 | eapply evolves_trans; eauto].
Qed.

(** An accept request of a partner with a current order is refused and
    writes nothing. *)
Lemma acceptOrder_busy user orderId now s p :
  findPartnerByUser (User._id user) (partners s) = Some p ->
  is_Some (DeliveryPartner.currentOrder p) ->
  succeeded (fst (acceptOrder user orderId now s)) = false
  /\ snd (acceptOrder user orderId now s) = s.
Proof.
  intros Hp [o Ho]. unfold acceptOrder. rewrite Hp.
  destruct (negb _); [auto|]. rewrite Ho. auto.
Qed.

(** C9, amended: no operation other than the partner's own profile update
    clears a delivery partner's [currentOrder] or changes
    [statistics.completedOrders]; delivery confirmation writes the order
    document only.  Consequently, once the partner of user [u] has a
    current order, after any sequence of operations without a profile
    update sent by [u] the partner still has that current order, every
    accept request of [u] fails, the number of completed orders is what it
    was, and a completion rate that was 0 with no completed order is 0. *)
Theorem currentOrder_never_released
    (u : ObjectId) (ops : list Op) (s : Store) (p : DeliveryPartner.t)
    (o : ObjectId) :
  NoDup (List.map DeliveryPartner._id (partners s)) ->
  findPartnerByUser u (partners s) = Some p ->
  DeliveryPartner.currentOrder p = Some o ->
  Forall (fun op => ~ profileUpdateBy u op) ops ->
  (exists p',
     findPartnerByUser u (partners (run ops s)) = Some p'
     /\ DeliveryPartner.currentOrder p' = Some o
     /\ DeliveryPartner.completedOrders (DeliveryPartner.statistics p')
        = DeliveryPartner.completedOrders (DeliveryPartner.statistics p)
     /\ (DeliveryPartner.completedOrders (DeliveryPartner.statistics p) == 0 ->
         DeliveryPartner.completionRate (DeliveryPartner.statistics p) == 0 ->
         DeliveryPartner.completionRate (DeliveryPartner.statistics p') == 0))
  /\ (forall user orderId now,
        User._id user = u ->
        succeeded (fst (acceptOrder user orderId now (run ops s))) = false)
  /\ (forall id otp now s0,
        partners (snd (verifyDeliveryOTP id otp now s0)) = partners s0).
Proof.
  intros Hnd Hp Hc Hops.
  destruct (run_grows u ops s p Hops Hnd Hp) as (p' & Hp' & I & U & K).
  apply findPartnerByUser_In in Hp as [_ Hu].
  destruct (K Hu) as (C & D & R).
  assert (Hc' : DeliveryPartner.currentOrder p' = Some o).
  { rewrite C; [exact Hc | rewrite Hc; eauto]. }
  split; [|split].
  - exists p'. auto.
  - intros user orderId now <-.
    apply (acceptOrder_busy user orderId now _ p' Hp'). rewrite Hc'. eauto.
  - apply verifyDeliveryOTP_partners.
Qed.
End Operations.

Section OperationExamples.
Local Open Scope Q_scope.

Example released_accepts :
  fst (acceptOrder Sample.rider 7 50 twoOrders)
  = Json 200 true "Order accepted successfully"
  /\ fst (acceptOrder Sample.rider 8 150
            (run released (snd (acceptOrder Sample.rider 7 50 twoOrders))))
     = Json 200 true "Order accepted successfully".
Proof. by_evaluation. Qed.

(** C9 as stated fails: orders 7 and 8 are stored; after the profile
    update the rider, who had accepted order 7, accepts order 8. *)
Lemma updateMyProfile_releases_partner : ~ partnerNeverReleased.
Proof.
  intros H.
  assert (E1 : succeeded (fst (acceptOrder Sample.rider 7 50 twoOrders)) = true)
    by (vm_compute; reflexivity).
  assert (E2 : succeeded
                 (fst (acceptOrder Sample.rider 8 150
                         (run released
                            (snd (acceptOrder Sample.rider 7 50 twoOrders)))))
               = true)
    by (vm_compute; reflexivity).
  pose proof (H twoOrders Sample.rider 7%N 50%Z released 8%N 150%Z E1) as E3.
  exact (eq_ind true (fun b => if b then True else False) I false
           (eq_trans (eq_sym E2) E3)).
Qed.

Lemma currentOrder_never_released_witness :
  (exists p',
     findPartnerByUser 40 (partners (run delivered7 acceptedStore)) = Some p'
     /\ DeliveryPartner.currentOrder p' = Some 7%N
     /\ DeliveryPartner.completedOrders (DeliveryPartner.statistics p')
        = DeliveryPartner.completedOrders (DeliveryPartner.statistics busyRider)
     /\ (DeliveryPartner.completedOrders (DeliveryPartner.statistics busyRider)
         == 0 ->
         DeliveryPartner.completionRate (DeliveryPartner.statistics busyRider)
         == 0 ->
         DeliveryPartner.completionRate (DeliveryPartner.statistics p') == 0))
  /\ (forall user orderId now,
        User._id user = 40%N ->
        succeeded (fst (acceptOrder user orderId now
                          (run delivered7 acceptedStore))) = false)
  /\ (forall id otp now s0,
        partners (snd (verifyDeliveryOTP id otp now s0)) = partners s0).
Proof.
  apply (currentOrder_never_released 40 delivered7 acceptedStore busyRider 7).
  - apply (bool_decide_unpack _). vm_compute. exact I.
  - vm_compute. reflexivity.
  - vm_compute. reflexivity.
  - repeat constructor; intros H; exact H.
Defined.
End OperationExamples.

(** ** Rounding *)

Section Rounding.
Local Open Scope Q_scope.

Lemma Math_round_le (x y : Q) : x <= y -> JS.Math_round x <= JS.Math_round y.
Proof.
  intros H. unfold JS.Math_round. rewrite <- Zle_Qle.
  apply Qfloor_resp_le. apply Qplus_le_l. exact H.
Qed.

Lemma Math_round_Z (n : Z) : JS.Math_round (inject_Z n) = inject_Z n.
Proof.
  unfold JS.Math_round. f_equal.
  assert (E : inject_Z n + (1 # 2) == inject_Z (2 * n + 1) / inject_Z 2).
  { rewrite inject_Z_plus, inject_Z_mult. field. }
  rewrite (Qfloor_comp _ _ E), <- Zdiv_Qdiv.
  symmetry. apply (Z.div_unique_pos (2 * n + 1) 2 n 1); lia.
Qed.

(** Rounding a number between two whole numbers stays between them. *)
Lemma Math_round_between (a b : Z) (x : Q) :
  inject_Z a <= x -> x <= inject_Z b ->
  inject_Z a <= JS.Math_round x /\ JS.Math_round x <= inject_Z b.
Proof.
  intros Ha Hb. split.
  - rewrite <- (Math_round_Z a). apply Math_round_le, Ha.
  - rewrite <- (Math_round_Z b). apply Math_round_le, Hb.
Qed.

(** [Math.round((part / whole) * 100)] is a percentage. *)
Lemma percentage_bounds (part whole : Q) :
  0 <= part -> part <= whole -> 0 < whole ->
  0 <= JS.Math_round (part / whole * 100)
  /\ JS.Math_round (part / whole * 100) <= 100.
Proof.
  intros Hp Hle Hw.
  apply (Math_round_between 0 100).
  - apply Qmult_le_0_compat; [|discriminate].
    apply Qle_shift_div_l; [exact Hw|]. rewrite Qmult_0_l. exact Hp.
  - change (inject_Z 100) with (1 * 100). apply Qmult_le_compat_r; [|discriminate].
    apply Qle_shift_div_r; [exact Hw|]. rewrite Qmult_1_l. exact Hle.
Qed.
End Rounding.

(** ** Helpers *)

Section HelperProperties.
Local Open Scope Q_scope.

Lemma length_append (a b : string) :
  String.length (a ++ b)%string = (String.length a + String.length b)%nat.
Proof. induction a as [|c a IH]; simpl; [reflexivity|]. rewrite IH. reflexivity. Qed.

Lemma chars_append (a b : string) :
  String.list_ascii_of_string (a ++ b)%string
  = String.list_ascii_of_string a ++ String.list_ascii_of_string b.
Proof. induction a as [|c a IH]; simpl; [reflexivity|]. rewrite IH. reflexivity. Qed.

(** A draw in [0, 1) selects one of the ten digits. *)
Lemma digitAt_digit (r : Q) :
  0 <= r -> r < 1 ->
  exists c,
    Helpers.digitAt
      (Qfloor (r * inject_Z (Z.of_nat (String.length Helpers.digits))))
    = String c EmptyString
    /\ In c (String.list_ascii_of_string Helpers.digits).
Proof.
  intros H0 H1.
  change (inject_Z (Z.of_nat (String.length Helpers.digits))) with (inject_Z 10).
  set (k := Qfloor (r * inject_Z 10)).
  assert (Hk0 : (0 <= k)%Z).
  { change 0%Z with (Qfloor (inject_Z 0)). apply Qfloor_resp_le.
    apply Qmult_le_0_compat; [exact H0 | discriminate]. }
  assert (Hk9 : (k < 10)%Z).
  { rewrite Zlt_Qlt. apply Qle_lt_trans with (r * inject_Z 10).
    - apply Qfloor_le.
    - change (inject_Z 10) with (1 * inject_Z 10) at 2.
      apply Qmult_lt_compat_r; [reflexivity | exact H1]. }
  assert (Hc : (k = 0 \/ k = 1 \/ k = 2 \/ k = 3 \/ k = 4 \/ k = 5 \/ k = 6
                \/ k = 7 \/ k = 8 \/ k = 9)%Z) by lia.
  clearbody k.
  repeat (destruct Hc as [-> | Hc]; [eexists; split; [reflexivity|simpl; tauto]|]).
  subst k. eexists. split; [reflexivity|simpl; tauto].
Qed.

Lemma generateOTP_loop_digits (random : nat -> Q) (n i : nat) (otp : string) :
  (forall j, (i <= j < i + n)%nat -> 0 <= random j /\ random j < 1) ->
  Forall (fun c => In c (String.list_ascii_of_string Helpers.digits))
    (String.list_ascii_of_string otp) ->
  String.length (Helpers.generateOTP_loop random i n otp)
  = (String.length otp + n)%nat
  /\ Forall (fun c => In c (String.list_ascii_of_string Helpers.digits))
       (String.list_ascii_of_string (Helpers.generateOTP_loop random i n otp)).
Proof.
  revert i otp. induction n as [|n IH]; intros i otp Hr Hotp; cbn [Helpers.generateOTP_loop].
  - split; [lia | exact Hotp].
  - destruct (Hr i) as [H0 H1]; [lia|].
    destruct (digitAt_digit (random i) H0 H1) as (c & -> & Hc).
    destruct (IH (S i) (otp ++ String c EmptyString)%string) as [L F].
    + intros j Hj. apply Hr. lia.
    + rewrite chars_append. apply Forall_app. split; [exact Hotp|].
      constructor; [exact Hc | constructor].
    + split; [|exact F]. rewrite L, length_append. simpl. lia.
Qed.

(** X1: when every draw of [Math.random()] lies in [0, 1), [generateOTP(n)]
    returns exactly [n] characters, each of them a decimal digit. *)
Theorem generateOTP_digits (n : nat) (random : nat -> Q) :
  (forall j, (j < n)%nat -> 0 <= random j /\ random j < 1) ->
  String.length (Helpers.generateOTP (Some n) random) = n
  /\ Forall (fun c => In c (String.list_ascii_of_string Helpers.digits))
       (String.list_ascii_of_string (Helpers.generateOTP (Some n) random)).
Proof.
  intros H. unfold Helpers.generateOTP. cbn [default].
  destruct (generateOTP_loop_digits random n 0 "") as [L F].
  - intros j Hj. apply H. lia.
  - constructor.
  - split; [exact L | exact F].
Qed.

Lemma generateOTP_digits_witness :
  String.length
    (Helpers.generateOTP (Some 4%nat)
       (fun j => inject_Z (Z.of_nat j) / 4)) = 4%nat
  /\ Forall (fun c => In c (String.list_ascii_of_string Helpers.digits))
       (String.list_ascii_of_string
          (Helpers.generateOTP (Some 4%nat)
             (fun j => inject_Z (Z.of_nat j) / 4))).
Proof.
  apply (generateOTP_digits 4 (fun j => inject_Z (Z.of_nat j) / 4)).
  intros j Hj.
  assert (Hc : (j = 0 \/ j = 1 \/ j = 2 \/ j = 3)%nat) by lia.
  destruct Hc as [-> | [-> | [-> | ->]]]; split; vm_compute; congruence.
Defined.

Example generateOTP_sample :
  Helpers.generateOTP (Some 4%nat) (fun j => inject_Z (Z.of_nat j) / 4)
  = "0257".
Proof. vm_compute. reflexivity. Qed.

Lemma Qceiling_div (t l : Z) :
  Qceiling (inject_Z t / inject_Z l) = (- ((- t) / l))%Z.
Proof.
  unfold Qceiling. f_equal. rewrite Zdiv_Qdiv. apply Qfloor_comp.
  rewrite inject_Z_opp. unfold Qdiv. ring.
Qed.

(** X2: for a positive [limit] and a non-negative [total],
    [getPaginationMeta] counts the least number of pages that hold [total]
    entries, announces a next page exactly when entries remain beyond the
    current window ([skip + limit < total]) and then names [page + 1], and
    announces a previous page exactly when [page > 1] and then names
    [page - 1]. *)
Theorem getPaginationMeta_pages (total page limit : Z) :
  (0 < limit)%Z -> (0 <= total)%Z ->
  let meta := Helpers.getPaginationMeta total page limit in
  ((Helpers.totalPages meta - 1) * limit < total
   <= Helpers.totalPages meta * limit)%Z
  /\ (Helpers.hasNextPage meta = true
      <-> (Helpers.skip page limit + limit < total)%Z)
  /\ Helpers.nextPage meta
     = (if Helpers.hasNextPage meta then Some (page + 1)%Z else None)
  /\ (Helpers.hasPrevPage meta = true <-> (1 < page)%Z)
  /\ Helpers.prevPage meta
     = (if Helpers.hasPrevPage meta then Some (page - 1)%Z else None).
Proof.
  intros Hl Ht. cbv zeta. unfold Helpers.getPaginationMeta, Helpers.skip.
  cbn [Helpers.totalPages Helpers.hasNextPage Helpers.nextPage
       Helpers.hasPrevPage Helpers.prevPage].
  rewrite Qceiling_div.
  pose proof (Z.div_mod (- total) limit ltac:(lia)) as Hd.
  pose proof (Z.mod_pos_bound (- total) limit Hl) as Hm.
  set (q := (- total / limit)%Z) in *. set (r := (- total mod limit)%Z) in *.
  split; [nia|]. split; [|split; [reflexivity|split; [|reflexivity]]].
  - rewrite bool_decide_eq_true. nia.
  - apply bool_decide_eq_true.
Qed.

Lemma getPaginationMeta_pages_witness :
  let meta := Helpers.getPaginationMeta 25 2 10 in
  ((Helpers.totalPages meta - 1) * 10 < 25 <= Helpers.totalPages meta * 10)%Z
  /\ (Helpers.hasNextPage meta = true <-> (Helpers.skip 2 10 + 10 < 25)%Z)
  /\ Helpers.nextPage meta
     = (if Helpers.hasNextPage meta then Some (2 + 1)%Z else None)
  /\ (Helpers.hasPrevPage meta = true <-> (1 < 2)%Z)
  /\ Helpers.prevPage meta
     = (if Helpers.hasPrevPage meta then Some (2 - 1)%Z else None).
Proof. apply (getPaginationMeta_pages 25 2 10); lia. Defined.

Example getPaginationMeta_sample :
  Helpers.getPaginationMeta 25 2 10
  = {| Helpers.total := 25; Helpers.page := 2; Helpers.limit := 10;
       Helpers.totalPages := 3; Helpers.hasNextPage := true;
       Helpers.hasPrevPage := true; Helpers.nextPage := Some 3%Z;
       Helpers.prevPage := Some 1%Z |}.
Proof. vm_compute. reflexivity. Qed.
End HelperProperties.

(** ** The timeline *)

Section TimelineProperties.

Lemma logged_refl (o : Order.t) : logged o o.
Proof. left. auto. Qed.

Lemma preSave_logged (loaded o : Order.t) (now : Date) :
  Order.timeline o = Order.timeline loaded ->
  Order.orderStatus o = Order.orderStatus loaded
  \/ Order.timelineStatus (Order.orderStatus o) ∈ timelineStatuses ->
  logged loaded (Order.preSave loaded o now).
Proof.
  intros Ht Hs. unfold Order.preSave.
  destruct (decide (Order.orderStatus o = Order.orderStatus loaded)) as [E|E].
  - left. auto.
  - right. destruct Hs as [Hs|Hs]; [contradiction|].
    cbn. split; [exact E|]. split; [exact Hs|]. exists now. rewrite Ht. reflexivity.
Qed.

Lemma saveOrder_logged (id' : ObjectId) (loaded o2 : Order.t) (now : Date)
    (s : Store) (id : ObjectId) (o : Order.t) :
  orders s !! id' = Some loaded ->
  Order.timeline o2 = Order.timeline loaded ->
  Order.orderStatus o2 = Order.orderStatus loaded
  \/ Order.timelineStatus (Order.orderStatus o2) ∈ timelineStatuses ->
  orders s !! id = Some o ->
  exists o', orders (saveOrder id' loaded o2 now s) !! id = Some o' /\ logged o o'.
Proof.
  intros Hl Ht Hs Ho. unfold saveOrder. cbn [orders set_orders].
  destruct (decide (id' = id)) as [->|Hne].
  - rewrite lookup_insert_eq. eexists. split; [reflexivity|].
    rewrite Hl in Ho. injection Ho as <-. apply preSave_logged; assumption.
  - rewrite lookup_insert_ne by exact Hne. exists o. split; [exact Ho | apply logged_refl].
Qed.

Lemma unchanged_logged (s s' : Store) (id : ObjectId) (o : Order.t) :
  orders s' = orders s -> orders s !! id = Some o ->
  exists o', orders s' !! id = Some o' /\ logged o o'.
Proof. intros -> Ho. exists o. split; [exact Ho | apply logged_refl]. Qed.

(** Every status the table lets [updateOrderStatus] write has a timeline
    status of the schema. *)
Lemma table_target_logged (from st : OrderStatus.t) (status : string)
    (targets : list string) :
  validTransitions !! OrderStatus.to_string from = Some targets ->
  status ∈ targets ->
  OrderStatus.of_string status = Some st ->
  Order.timelineStatus st ∈ timelineStatuses.
Proof.
  intros Ht Hin Hof.
  destruct from; vm_compute in Ht; injection Ht as <-;
    repeat (apply elem_of_cons in Hin as [-> | Hin];
            [vm_compute in Hof; injection Hof as <-;
             apply (bool_decide_unpack _); vm_compute; exact I|]);
    apply elem_of_nil in Hin; destruct Hin.
Qed.

Lemma updateOrderStatus_logged user id' status reason now s id o :
  orders s !! id = Some o ->
  exists o',
    orders (snd (updateOrderStatus user id' status reason now s)) !! id = Some o'
    /\ logged o o'.
Proof.
  intros Ho. unfold updateOrderStatus.
  destruct (orders s !! id') as [order|] eqn:Hl;
    [|apply (unchanged_logged s); auto].
  destruct (canUpdate _ _ _ _) as [[]|]; [|apply (unchanged_logged s); auto..].
  destruct (validTransitions !! _) as [t|] eqn:Ht; [|apply (unchanged_logged s); auto].
  destruct (bool_decide (status ∈ t)) eqn:Hin; [|apply (unchanged_logged s); auto].
  apply bool_decide_eq_true in Hin. cbn [negb].
  destruct (OrderStatus.of_string status) as [st|] eqn:Hof;
    [|apply (unchanged_logged s); auto].
  pose proof (table_target_logged _ _ _ _ Ht Hin Hof) as Hlog.
  destruct (bool_decide (status = "cancelled"));
    [destruct (CancelledBy.of_string _); [|apply (unchanged_logged s); auto]|];
    cbn [snd]; apply saveOrder_logged; auto;
    destruct (bool_decide (status = "delivered")); cbn; auto.
Qed.

Lemma assignDeliveryPartner_logged user id' pid now s id o :
  orders s !! id = Some o ->
  exists o',
    orders (snd (assignDeliveryPartner user id' pid now s)) !! id = Some o'
    /\ logged o o'.
Proof.
  intros Ho. unfold assignDeliveryPartner.
  destruct (orders s !! id') as [order|] eqn:Hl;
    [|apply (unchanged_logged s); auto].
  destruct (restaurants s !! _); [|apply (unchanged_logged s); auto].
  destruct (_ && _); [apply (unchanged_logged s); auto|].
  destruct (findPartnerById _ _); [|apply (unchanged_logged s); auto].
  destruct (negb _); [apply (unchanged_logged s); auto|].
  cbn [snd]. apply saveOrder_logged; auto.
Qed.

Lemma cancelOrder_logged user id' reason now s id o :
  orders s !! id = Some o ->
  exists o',
    orders (snd (cancelOrder user id' reason now s)) !! id = Some o'
    /\ logged o o'.
Proof.
  intros Ho. unfold cancelOrder.
  destruct (orders s !! id') as [order|] eqn:Hl;
    [|apply (unchanged_logged s); auto].
  destruct (negb _); [apply (unchanged_logged s); auto|].
  destruct (negb _); [apply (unchanged_logged s); auto|].
  cbn [snd]. apply saveOrder_logged; auto.
  right. apply (bool_decide_unpack _). vm_compute. exact I.
Qed.

Lemma verifyDeliveryOTP_logged id' otp now s id o :
  orders s !! id = Some o ->
  exists o',
    orders (snd (verifyDeliveryOTP id' otp now s)) !! id = Some o'
    /\ logged o o'.
Proof.
  intros Ho. unfold verifyDeliveryOTP.
  destruct (orders s !! id') as [order|] eqn:Hl;
    [|apply (unchanged_logged s); auto].
  destruct (_ || _); [apply (unchanged_logged s); auto|].
  cbn [snd]. apply saveOrder_logged; auto.
  right. apply (bool_decide_unpack _). vm_compute. exact I.
Qed.

Lemma acceptOrder_logged user id' now s id o :
  orders s !! id = Some o ->
  exists o',
    orders (snd (acceptOrder user id' now s)) !! id = Some o' /\ logged o o'.
Proof.
  intros Ho. unfold acceptOrder.
  destruct (findPartnerByUser _ _); [|apply (unchanged_logged s); auto].
  destruct (negb _); [apply (unchanged_logged s); auto|].
  destruct (DeliveryPartner.currentOrder _); [apply (unchanged_logged s); auto|].
  destruct (orders s !! id') as [order|] eqn:Hl;
    [|apply (unchanged_logged s); auto].
  destruct (_ || _); [apply (unchanged_logged s); auto|].
  cbn [snd orders set_partners].
  apply saveOrder_logged; auto.
  right. apply (bool_decide_unpack _). vm_compute. exact I.
Qed.

Lemma createOrder_orders user body now otpCode newId s :
  orders (snd (createOrder user body now otpCode newId s)) = orders s
  \/ exists o,
       orders (snd (createOrder user body now otpCode newId s))
       = <[newId := o]> (orders s).
Proof.
  unfold createOrder.
  destruct (restaurants s !! _); [|auto].
  destruct (negb _); [auto|].
  destruct (addresses s !! _); [|auto].
  destruct (negb _); [auto|].
  destruct (orderItems _ _ _ _) as [|[]]; [auto|].
  destruct (JS.lt _ _); [auto|].
  destruct (validOrder _); [|auto].
  right. eexists. reflexivity.
Qed.

Lemma saveReview_orders modified doc s :
  orders (saveReview modified doc s) = orders s.
Proof.
  unfold saveReview, reviewPostSave.
  set (d := reviewPreSave modified doc).
  set (s1 := set_reviews (storeReview d (reviews s)) s).
  destruct (updateItemRatings_frame (Review.menuItems d)
              (updatePartnerRating d (updateRestaurantRating d s1)))
    as (_ & _ & _ & H).
  cbv zeta in H. rewrite H.
  unfold updatePartnerRating, updateRestaurantRating.
  repeat (match goal with
          | |- context [match ?x with _ => _ end] => destruct x
          end; try reflexivity).
Qed.

(** X3: no operation removes an order, and every operation that leaves an
    order with another status appends exactly one entry for the new status
    to its timeline, with a timeline status of the schema, keeping the
    earlier entries; an operation that leaves the status alone leaves the
    timeline alone.  (An order creation is given an [_id] of its own.) *)
Theorem timeline_logs_status_changes
    (op : Op) (s : Store) (id : ObjectId) (o : Order.t) :
  orders s !! id = Some o ->
  ~ createsOrder id op ->
  exists o', orders (after op s) !! id = Some o' /\ logged o o'.
Proof.
  intros Ho Hop. destruct op; cbn [after].
  - destruct (createOrder_orders user body now otpCode newId s) as [E|[x E]].
    + apply (unchanged_logged s); auto.
    + rewrite E, lookup_insert_ne by exact Hop.
      exists o. split; [exact Ho | apply logged_refl].
  - apply updateOrderStatus_logged, Ho.
  - apply assignDeliveryPartner_logged, Ho.
  - apply cancelOrder_logged, Ho.
  - apply verifyDeliveryOTP_logged, Ho.
  - apply acceptOrder_logged, Ho.
  - apply (unchanged_logged s); [|exact Ho].
    unfold updateAvailability.
    destruct (findPartnerByUser _ _); [|reflexivity].
    destruct (negb _); reflexivity.
  - apply (unchanged_logged s); [|exact Ho].
    unfold updateApprovalStatus. destruct (findPartnerById _ _); reflexivity.
  - apply (unchanged_logged s); [|exact Ho].
    unfold updateMyProfile. destruct (findPartnerByUser _ _); reflexivity.
  - apply (unchanged_logged s); [|exact Ho].
    unfold applyDeliveryPartner.
    destruct (findPartnerByUser _ _); [reflexivity|].
    destruct (_ || _); reflexivity.
  - apply (unchanged_logged s); [apply saveReview_orders | exact Ho].
Qed.

Lemma timeline_logs_status_changes_witness :
  exists o o',
    orders readyStore !! 7%N = Some o
    /\ orders (after (AcceptOrder Sample.rider 7 50) readyStore) !! 7%N = Some o'
    /\ logged o o'.
Proof.
  destruct (orders readyStore !! 7%N) as [o|] eqn:E;
    [|vm_compute in E; discriminate].
  destruct (timeline_logs_status_changes (AcceptOrder Sample.rider 7 50)
              readyStore 7 o E (fun H => H)) as (o' & Ho' & L).
  exists o, o'. auto.
Defined.

Example accepted_timeline :
  List.map Order.status
    <$> (Order.timeline <$> orders acceptedStore !! 7%N)
  = Some ["order_confirmed"; "preparing"; "ready_for_pickup";
          "out_for_delivery"].
Proof. vm_compute. reflexivity. Qed.
End TimelineProperties.

(** ** Order creation *)

Section CreationProperties.
Local Open Scope Q_scope.

(** What the item loop has done when it reaches its end. *)
Lemma orderItems_inr menu items subtotal acc t ois :
  orderItems menu items subtotal acc = inr (t, ois) ->
  exists new,
    ois = acc ++ new
    /\ t = fold_left (fun t oi => JS.add t (Order.itemTotal oi)) new subtotal
    /\ Forall2
         (fun item oi =>
            exists m, menu !! Cart.menuItem item = Some m
                      /\ MenuItem.isAvailable m = true
                      /\ orderItem m item = Some oi) items new.
Proof.
  revert subtotal acc. induction items as [|item items IH]; intros subtotal acc;
    cbn [orderItems].
  - intros [= <- <-]. exists []. rewrite app_nil_r. repeat split. constructor.
  - destruct (menu !! Cart.menuItem item) as [m|] eqn:Hm; [|discriminate].
    destruct (MenuItem.isAvailable m) eqn:Ha; [|discriminate]. cbn [negb].
    destruct (orderItem m item) as [oi|] eqn:Ho; [|discriminate].
    intros H. destruct (IH _ _ H) as (new & -> & -> & F).
    exists (oi :: new). rewrite <- app_assoc.
    repeat split. constructor; [|exact F]. exists m. auto.
Qed.

(** X5: when the item loop of [createOrder] reaches its end, the array it
    has built has one item per cart line, in cart order, each built by
    [orderItem] from a menu item that is on the menu and available, and
    the subtotal, which the handler compares with the minimum order, is
    the sum of the item totals, added in that order from 0. *)
Theorem orderItems_items menu items subtotal ois :
  orderItems menu items 0 [] = inr (subtotal, ois) ->
  Forall2
    (fun item oi =>
       exists m, menu !! Cart.menuItem item = Some m
                 /\ MenuItem.isAvailable m = true
                 /\ orderItem m item = Some oi)
    items ois
  /\ subtotal = fold_left (fun t oi => JS.add t (Order.itemTotal oi)) ois 0.
Proof.
  intros H. destruct (orderItems_inr _ _ _ _ _ _ H) as (new & -> & -> & F).
  split; [exact F | reflexivity].
Qed.

Lemma orderItems_items_witness :
  let ois := Order.items (Sample.order "4321" 1800000) in
  Forall2
    (fun item oi =>
       exists m, menuItems Sample.store !! Cart.menuItem item = Some m
                 /\ MenuItem.isAvailable m = true
                 /\ orderItem m item = Some oi)
    (Cart.items Sample.scenario) ois
  /\ 240 = fold_left (fun t oi => JS.add t (Order.itemTotal oi)) ois 0.
Proof.
  apply (orderItems_items (menuItems Sample.store) (Cart.items Sample.scenario)
           240 (Order.items (Sample.order "4321" 1800000))).
  vm_compute. reflexivity.
Defined.

(** X6: when the restaurant is active and the address is the caller's, a
    cart whose subtotal is below the restaurant's minimum order is refused
    with the minimum-order answer and nothing is written; so is, for a
    restaurant with a positive minimum, the empty cart. *)
Theorem createOrder_below_minimum user body now otpCode newId s r a subtotal items :
  restaurants s !! Cart.restaurant body = Some r ->
  Restaurant.isActive r = true ->
  addresses s !! Cart.deliveryAddress body = Some a ->
  Address.user a = User._id user ->
  orderItems (menuItems s) (Cart.items body) 0 [] = inr (subtotal, items) ->
  subtotal < Restaurant.minimumOrder r ->
  createOrder user body now otpCode newId s
  = (Json 400 false "Minimum order value is", s).
Proof.
  intros Hr Hact Ha Hu Hi Hlt. unfold createOrder.
  rewrite Hr, Hact, Ha. cbn [negb].
  rewrite (bool_decide_eq_true_2 _ Hu). cbn [negb]. rewrite Hi.
  destruct (JS.lt subtotal (Restaurant.minimumOrder r)) eqn:E; [reflexivity|].
  apply lt_false in E. exfalso. apply (Qlt_not_le _ _ Hlt E).
Qed.

Lemma createOrder_below_minimum_witness :
  createOrder Sample.customer (Sample.cart []) 0 "4321" 7 Sample.store
  = (Json 400 false "Minimum order value is", Sample.store).
Proof.
  apply (createOrder_below_minimum Sample.customer (Sample.cart []) 0 "4321" 7
           Sample.store Sample.restaurant {| Address.user := 20 |} 0 []);
    reflexivity.
Defined.

End CreationProperties.

(** ** Status changes *)

Section StatusChangeProperties.
Local Open Scope Q_scope.

Lemma updateOrderStatus_inside_table_witness :
  exists order o,
    orders Sample.placedStore !! 7%N = Some order
    /\ orders confirmedStore !! 7%N = Some o
    /\ allowed (Order.orderStatus order) (Order.orderStatus o) = true.
Proof.
  destruct (orders Sample.placedStore !! 7%N) as [order|] eqn:E;
    [|vm_compute in E; discriminate].
  destruct (orders confirmedStore !! 7%N) as [o|] eqn:E';
    [|vm_compute in E'; discriminate].
  exists order, o. split; [reflexivity|]. split; [reflexivity|].
  apply (updateOrderStatus_inside_table Sample.owner 7 "confirmed" None 10
           Sample.placedStore order o E); [vm_compute; reflexivity | exact E'].
Defined.

Lemma updateOrderStatus_outside_table_witness :
  succeeded
    (fst (updateOrderStatus Sample.owner 7 "delivered" None 10
            Sample.placedStore)) = false
  /\ snd (updateOrderStatus Sample.owner 7 "delivered" None 10
            Sample.placedStore) = Sample.placedStore.
Proof.
  destruct (orders Sample.placedStore !! 7%N) as [order|] eqn:E;
    [|vm_compute in E; discriminate].
  apply (updateOrderStatus_outside_table Sample.owner 7 "delivered" None 10
           Sample.placedStore order E).
  intros targets Ht Hin. vm_compute in E. injection E as <-.
  vm_compute in Ht. injection Ht as <-.
  apply elem_of_cons in Hin as [Hin|Hin]; [discriminate|].
  apply elem_of_cons in Hin as [Hin|Hin]; [discriminate|].
  apply elem_of_nil in Hin. exact Hin.
Defined.

(** X10: an order that is delivered, cancelled or refunded is left as it
    is by [updateOrderStatus], by [cancelOrder] and by [acceptOrder],
    whoever calls them and whatever they ask: each of them fails and writes
    nothing. *)
Theorem terminal_status_is_final
    (user : User.t) (id : ObjectId) (status : string) (reason : option string)
    (now : Date) (s : Store) (order : Order.t) :
  orders s !! id = Some order ->
  Order.orderStatus order
  ∈ [OrderStatus.delivered; OrderStatus.cancelled; OrderStatus.refunded] ->
  (succeeded (fst (updateOrderStatus user id status reason now s)) = false
   /\ snd (updateOrderStatus user id status reason now s) = s)
  /\ (succeeded (fst (cancelOrder user id reason now s)) = false
      /\ snd (cancelOrder user id reason now s) = s)
  /\ (succeeded (fst (acceptOrder user id now s)) = false
      /\ snd (acceptOrder user id now s) = s).
Proof.
  intros Ho Hst.
  assert (Ht : validTransitions !! OrderStatus.to_string (Order.orderStatus order)
               = Some []
               /\ (OrderStatus.to_string (Order.orderStatus order)
                   ∉ cancellableStatuses)
               /\ Order.orderStatus order <> OrderStatus.ready_for_pickup).
  { repeat (apply elem_of_cons in Hst as [-> | Hst];
            [split; [vm_compute; reflexivity|];
             split; [|discriminate];
             intros Hin; apply (bool_decide_pack _) in Hin;
             vm_compute in Hin; exact Hin|]).
    apply elem_of_nil in Hst. destruct Hst. }
  destruct Ht as (Ht & Hc & Hr). split; [|split].
  - unfold updateOrderStatus. rewrite Ho.
    destruct (canUpdate _ _ _ _) as [[]|]; [|auto|auto].
    rewrite Ht. rewrite bool_decide_eq_false_2 by apply not_elem_of_nil. auto.
  - unfold cancelOrder. rewrite Ho.
    destruct (negb _); [auto|].
    rewrite bool_decide_eq_false_2 by exact Hc. auto.
  - unfold acceptOrder.
    destruct (findPartnerByUser _ _) as [p|]; [|auto].
    destruct (negb _); [auto|].
    destruct (DeliveryPartner.currentOrder p); [auto|].
    rewrite Ho. rewrite (bool_decide_eq_false_2 _ Hr). auto.
Qed.

Lemma terminal_status_is_final_witness :
  let s := snd (cancelOrder Sample.customer 7 None 10 Sample.placedStore) in
  (succeeded (fst (updateOrderStatus Sample.owner 7 "confirmed" None 20 s))
   = false
   /\ snd (updateOrderStatus Sample.owner 7 "confirmed" None 20 s) = s)
  /\ (succeeded (fst (cancelOrder Sample.owner 7 None 20 s)) = false
      /\ snd (cancelOrder Sample.owner 7 None 20 s) = s)
  /\ (succeeded (fst (acceptOrder Sample.owner 7 20 s)) = false
      /\ snd (acceptOrder Sample.owner 7 20 s) = s).
Proof.
  cbv zeta.
  destruct (orders (snd (cancelOrder Sample.customer 7 None 10
                           Sample.placedStore)) !! 7%N)
    as [order|] eqn:E; [|vm_compute in E; discriminate].
  apply (terminal_status_is_final Sample.owner 7 "confirmed" None 20 _ order E).
  vm_compute in E. injection E as <-.
  apply elem_of_cons. right. apply elem_of_cons. left. reflexivity.
Defined.

(** X11: a caller who is not admin, does not own the restaurant of the
    order and is not the user of its delivery partner is denied by
    [updateOrderStatus] unless the caller is the customer of the order and
    asks for [cancelled]; nothing is written. *)
Theorem updateOrderStatus_customer_only
    (user : User.t) (id : ObjectId) (status : string) (reason : option string)
    (now : Date) (s : Store) (order : Order.t) (r : Restaurant.t) :
  orders s !! id = Some order ->
  User.role user <> Role.admin ->
  restaurants s !! Order.restaurant order = Some r ->
  Restaurant.owner r <> User._id user ->
  populatedPartnerUser order s <> Some (User._id user) ->
  status <> "cancelled" \/ Order.customer order <> User._id user ->
  updateOrderStatus user id status reason now s
  = (Json 403 false "Access denied", s).
Proof.
  intros Ho Ha Hr Hown Hp Hc. unfold updateOrderStatus. rewrite Ho.
  rewrite (canUpdate_customer user status order s r Ha Hr Hown Hp).
  destruct Hc as [Hc|Hc]; rewrite (bool_decide_eq_false_2 _ Hc);
    [|rewrite andb_false_r]; reflexivity.
Qed.

Lemma updateOrderStatus_customer_only_witness :
  updateOrderStatus Sample.customer 7 "confirmed" None 10 Sample.placedStore
  = (Json 403 false "Access denied", Sample.placedStore).
Proof.
  destruct (orders Sample.placedStore !! 7%N) as [order|] eqn:E;
    [|vm_compute in E; discriminate].
  apply (updateOrderStatus_customer_only Sample.customer 7 "confirmed" None 10
           Sample.placedStore order Sample.restaurant E);
    vm_compute in E; injection E as <-.
  - discriminate.
  - vm_compute. reflexivity.
  - vm_compute. congruence.
  - vm_compute. congruence.
  - left. discriminate.
Defined.

(** X12: [cancelOrder] called by the customer of the order or by an admin
    on a pending, confirmed or preparing order stores it as cancelled, with
    reason [customer_request], the refund amount equal to the total of the
    order, refund status pending and [cancelledBy] set to [customer] also
    when an admin calls; the pricing, the items and the OTP are kept.  A
    second [cancelOrder] on that order fails. *)
Theorem cancelOrder_cancels
    (user : User.t) (id : ObjectId) (reason : option string) (now : Date)
    (s : Store) (order : Order.t)
    (user' : User.t) (reason' : option string) (now' : Date) :
  orders s !! id = Some order ->
  Order.customer order = User._id user \/ User.role user = Role.admin ->
  Order.orderStatus order
  ∈ [OrderStatus.pending; OrderStatus.confirmed; OrderStatus.preparing] ->
  exists o,
    cancelOrder user id reason now s
    = (Json 200 true "Order cancelled successfully",
       set_orders (<[id := o]> (orders s)) s)
    /\ Order.orderStatus o = OrderStatus.cancelled
    /\ Order.cancellationReason o = Some customer_request
    /\ Order.cancellationDetails o
       = Some {| Order.reason :=
                   JS.or_str reason "Customer requested cancellation";
                 Order.cancelledBy := CancelledBy.customer;
                 Order.refundAmount := Order.total (Order.pricing order);
                 Order.refundStatus := refund_pending |}
    /\ Order.pricing o = Order.pricing order
    /\ Order.items o = Order.items order
    /\ Order.otp o = Order.otp order
    /\ succeeded
         (fst (cancelOrder user' id reason' now'
                 (snd (cancelOrder user id reason now s)))) = false.
Proof.
  intros Ho Hauth Hst.
  assert (Ha : bool_decide (Order.customer order = User._id user)
               || bool_decide (User.role user = Role.admin) = true).
  { destruct Hauth as [H|H]; rewrite (bool_decide_eq_true_2 _ H);
      [reflexivity | apply orb_true_r]. }
  assert (Hc : OrderStatus.to_string (Order.orderStatus order)
               ∈ cancellableStatuses).
  { repeat (apply elem_of_cons in Hst as [-> | Hst];
            [apply (bool_decide_unpack _); vm_compute; exact I|]).
    apply elem_of_nil in Hst. destruct Hst. }
  assert (Hne : Order.orderStatus order <> OrderStatus.cancelled).
  { intros E. rewrite E in Hc. apply (bool_decide_pack _) in Hc.
    vm_compute in Hc. exact Hc. }
  assert (E1 : cancelOrder user id reason now s
               = (Json 200 true "Order cancelled successfully",
                  saveOrder id order
                    (Order.set_cancellation (Some customer_request)
                       (Some {| Order.reason :=
                                  JS.or_str reason
                                    "Customer requested cancellation";
                                Order.cancelledBy := CancelledBy.customer;
                                Order.refundAmount :=
                                  Order.total (Order.pricing order);
                                Order.refundStatus := refund_pending |})
                       (Order.set_orderStatus OrderStatus.cancelled order))
                    now s)).
  { unfold cancelOrder. rewrite Ho, Ha. cbn [negb].
    rewrite (bool_decide_eq_true_2 _ Hc). reflexivity. }
  rewrite E1. unfold saveOrder. cbn [snd].
  set (o := Order.preSave order _ now).
  assert (Hs : Order.orderStatus o = OrderStatus.cancelled).
  { unfold o, Order.preSave. destruct (decide _); reflexivity. }
  exists o. split; [reflexivity|]. split; [exact Hs|].
  unfold o at 1 2 3 4 5, Order.preSave.
  destruct (decide _) as [E|_]; [cbn in E; congruence|].
  cbn. repeat split.
  unfold cancelOrder. cbn [orders set_orders]. rewrite lookup_insert_eq.
  destruct (negb _); [reflexivity|]. rewrite Hs.
  reflexivity.
Qed.

Lemma cancelOrder_cancels_witness :
  exists order o,
    orders Sample.placedStore !! 7%N = Some order
    /\ cancelOrder Sample.customer 7 None 10 Sample.placedStore
       = (Json 200 true "Order cancelled successfully",
          set_orders (<[7%N := o]> (orders Sample.placedStore))
            Sample.placedStore)
    /\ Order.orderStatus o = OrderStatus.cancelled
    /\ Order.cancellationReason o = Some customer_request
    /\ Order.cancellationDetails o
       = Some {| Order.reason :=
                   JS.or_str None "Customer requested cancellation";
                 Order.cancelledBy := CancelledBy.customer;
                 Order.refundAmount := Order.total (Order.pricing order);
                 Order.refundStatus := refund_pending |}
    /\ Order.pricing o = Order.pricing order
    /\ Order.items o = Order.items order
    /\ Order.otp o = Order.otp order
    /\ succeeded
         (fst (cancelOrder Sample.customer 7 None 20
                 (snd (cancelOrder Sample.customer 7 None 10
                         Sample.placedStore)))) = false.
Proof.
  destruct (orders Sample.placedStore !! 7%N) as [order|] eqn:E;
    [|vm_compute in E; discriminate].
  assert (Hauth : Order.customer order = User._id Sample.customer
                  \/ User.role Sample.customer = Role.admin).
  { left. vm_compute in E. injection E as <-. reflexivity. }
  assert (Hst : Order.orderStatus order
                ∈ [OrderStatus.pending; OrderStatus.confirmed;
                   OrderStatus.preparing]).
  { vm_compute in E. injection E as <-. apply elem_of_cons. left. reflexivity. }
  destruct (cancelOrder_cancels Sample.customer 7 None 10 Sample.placedStore
              order Sample.customer None 20 E Hauth Hst) as (o & H).
  exists order, o. split; [reflexivity | exact H].
Defined.
End StatusChangeProperties.

(** ** Delivery partners *)

Section PartnerProperties.
Local Open Scope Q_scope.

Lemma preSave_user (p : DeliveryPartner.t) :
  DeliveryPartner.user (DeliveryPartner.preSave p) = DeliveryPartner.user p.
Proof. unfold DeliveryPartner.preSave. destruct (JS.lt _ _); reflexivity. Qed.







(** X14: once an order has been accepted, no caller can accept it again:
    every later [acceptOrder] of that order fails and writes nothing. *)
Theorem acceptOrder_exclusive
    (user user' : User.t) (orderId : ObjectId) (now now' : Date) (s : Store) :
  succeeded (fst (acceptOrder user orderId now s)) = true ->
  succeeded
    (fst (acceptOrder user' orderId now' (snd (acceptOrder user orderId now s))))
  = false
  /\ snd (acceptOrder user' orderId now' (snd (acceptOrder user orderId now s)))
     = snd (acceptOrder user orderId now s).
Proof.
  intros H. destruct (acceptOrder_success _ _ _ _ H)
    as (p & order & _ & _ & _ & _ & _ & _ & o & Ho & _ & Hs).
  generalize dependent (snd (acceptOrder user orderId now s)). intros s' Ho.
  unfold acceptOrder.
  destruct (findPartnerByUser _ _) as [p'|]; [|auto].
  destruct (negb _); [auto|].
  destruct (DeliveryPartner.currentOrder p'); [auto|].
  rewrite Ho, Hs. auto.
Qed.

Lemma acceptOrder_exclusive_witness :
  succeeded
    (fst (acceptOrder {| User._id := 41; User.role := Role.customer |} 7 60
            acceptedStore)) = false
  /\ snd (acceptOrder {| User._id := 41; User.role := Role.customer |} 7 60
            acceptedStore) = acceptedStore.
Proof.
  apply (acceptOrder_exclusive Sample.rider
           {| User._id := 41; User.role := Role.customer |} 7 50 60 readyStore).
  vm_compute. reflexivity.
Defined.





Lemma findPartnerByUser_app_new (u : ObjectId) (ps : list DeliveryPartner.t)
    (d : DeliveryPartner.t) :
  findPartnerByUser u ps = None ->
  DeliveryPartner.user d = u ->
  findPartnerByUser u (ps ++ [d]) = Some d.
Proof.
  unfold findPartnerByUser. intros Hn Hu.
  induction ps as [|h ps IH]; cbn [List.find app] in *.
  - rewrite bool_decide_eq_true_2 by exact Hu. reflexivity.
  - destruct (bool_decide (DeliveryPartner.user h = u)); [discriminate|].
    apply IH, Hn.
Qed.

(** X17: [applyDeliveryPartner] writes nothing unless it answers 201; an
    application made for the caller itself then stores the document, as
    the hook leaves it, behind the other partners, where it is the profile
    found for the caller, and every further application of the caller is
    refused because the profile exists. *)
Theorem applyDeliveryPartner_once
    (user : User.t) (doc doc' : DeliveryPartner.t) (s : Store) :
  (succeeded (fst (applyDeliveryPartner user doc s)) = false ->
   snd (applyDeliveryPartner user doc s) = s)
  /\ (succeeded (fst (applyDeliveryPartner user doc s)) = true ->
      DeliveryPartner.user doc = User._id user ->
      partners (snd (applyDeliveryPartner user doc s))
      = partners s ++ [DeliveryPartner.preSave doc]
      /\ findPartnerByUser (User._id user)
           (partners (snd (applyDeliveryPartner user doc s)))
         = Some (DeliveryPartner.preSave doc)
      /\ applyDeliveryPartner user doc' (snd (applyDeliveryPartner user doc s))
         = (Json 400 false "Delivery partner profile already exists",
            snd (applyDeliveryPartner user doc s))).
Proof.
  unfold applyDeliveryPartner at 1 2 3 4 5 7 8.
  destruct (findPartnerByUser (User._id user) (partners s)) eqn:Hn.
  { split; [reflexivity | discriminate]. }
  destruct (_ || _).
  { split; [reflexivity | discriminate]. }
  split; [discriminate|]. intros _ Hu.
  cbn [snd partners set_partners].
  assert (Hf : findPartnerByUser (User._id user)
                 (partners s ++ [DeliveryPartner.preSave doc])
               = Some (DeliveryPartner.preSave doc)).
  { apply findPartnerByUser_app_new; [exact Hn|]. rewrite preSave_user. exact Hu. }
  split; [reflexivity|]. split; [exact Hf|].
  unfold applyDeliveryPartner. cbn [partners set_partners]. rewrite Hf.
  reflexivity.
Qed.
Lemma applyDeliveryPartner_once_witness :
  let doc := DeliveryPartner.set_isOnline false
               (DeliveryPartner.set_isApproved false
                  {| DeliveryPartner._id := 3; DeliveryPartner.user := 20;
                     DeliveryPartner.isOnline := false;
                     DeliveryPartner.isApproved := false;
                     DeliveryPartner.currentOrder := None;
                     DeliveryPartner.statistics := Sample.noStatistics |}) in
  partners (snd (applyDeliveryPartner Sample.customer doc Sample.store))
  = partners Sample.store ++ [DeliveryPartner.preSave doc]
  /\ findPartnerByUser (User._id Sample.customer)
       (partners (snd (applyDeliveryPartner Sample.customer doc Sample.store)))
     = Some (DeliveryPartner.preSave doc)
  /\ applyDeliveryPartner Sample.customer Sample.partner
       (snd (applyDeliveryPartner Sample.customer doc Sample.store))
     = (Json 400 false "Delivery partner profile already exists",
        snd (applyDeliveryPartner Sample.customer doc Sample.store)).
Proof.
  intros doc.
  exact (proj2 (applyDeliveryPartner_once Sample.customer doc Sample.partner
                  Sample.store) eq_refl eq_refl).
Defined.
End PartnerProperties.

(** ** Computed fields of the models *)

Section ModelProperties.
Local Open Scope Q_scope.

Lemma lt_true (a b : Q) : JS.lt a b = true <-> a < b.
Proof.
  unfold JS.lt. rewrite negb_true_iff. split.
  - intros H. apply Qnot_le_lt. intros Hle.
    apply Qle_bool_iff in Hle. congruence.
  - intros H. destruct (Qle_bool b a) eqn:E; [|reflexivity].
    apply Qle_bool_iff in E. exfalso. exact (Qlt_not_le _ _ H E).
Qed.

(** [Math.round(q * 100)] of a ratio [q] between 0 and 1 is a
    percentage. *)
Lemma percentage_of_ratio (q : Q) :
  0 <= q -> q <= 1 ->
  0 <= JS.Math_round (JS.mul q 100) /\ JS.Math_round (JS.mul q 100) <= 100.
Proof.
  intros H0 H1. apply (Math_round_between 0 100).
  - apply (double_between 0 100); [lia | lia | |];
      change (inject_Z 0) with 0; change (inject_Z 100) with 100; lra.
  - apply (double_between 0 100); [lia | lia | |];
      change (inject_Z 0) with 0; change (inject_Z 100) with 100; lra.
Qed.

(** A part of a whole gives a ratio between 0 and 1, also in doubles. *)
Lemma ratio_bounds (part whole : Q) :
  0 <= part -> part <= whole -> 0 < whole ->
  0 <= JS.div part whole /\ JS.div part whole <= 1.
Proof.
  intros Hp Hle Hw. apply (double_between 0 1); [lia | lia | |].
  - change (inject_Z 0) with 0. apply Qle_shift_div_l; [exact Hw | lra].
  - change (inject_Z 1) with 1. apply Qle_shift_div_r; [exact Hw | lra].
Qed.

(** [Math.round((part / whole) * 100)] is a percentage. *)
Lemma percentage_in_doubles (part whole : Q) :
  0 <= part -> part <= whole -> 0 < whole ->
  0 <= JS.Math_round (JS.mul (JS.div part whole) 100)
  /\ JS.Math_round (JS.mul (JS.div part whole) 100) <= 100.
Proof.
  intros Hp Hle Hw. destruct (ratio_bounds part whole Hp Hle Hw).
  apply percentage_of_ratio; assumption.
Qed.

(** The sum of ratings between 1 and 5, from a whole start. *)
Lemma sumRatings_bounds (l : list Q) (k : Z) (a : Q) :
  Forall (fun r => 1 <= r /\ r <= 5) l ->
  (0 <= k)%Z -> (k + Z.of_nat (length l) <= 2 ^ 50)%Z ->
  inject_Z k <= a -> a <= inject_Z (5 * k) ->
  inject_Z (k + Z.of_nat (length l)) <= fold_left JS.add l a
  /\ fold_left JS.add l a <= inject_Z (5 * (k + Z.of_nat (length l))).
Proof.
  intros H. revert k a.
  induction H as [|r l [R1 R2] _ IH]; intros k a Hk Hn A1 A2.
  - cbn [length fold_left Z.of_nat]. rewrite Z.add_0_r. auto.
  - cbn [length fold_left] in *. rewrite Nat2Z.inj_succ in *.
    replace (k + Z.succ (Z.of_nat (length l)))%Z
      with ((k + 1) + Z.of_nat (length l))%Z by lia.
    assert (Hp : (0 < 2 ^ 50)%Z) by reflexivity.
    assert (H53 : (2 ^ 53 = 8 * 2 ^ 50)%Z) by reflexivity.
    apply IH; [lia | lia | |].
    + apply (double_between (k + 1) (5 * (k + 1))); [lia | lia | |].
      * rewrite inject_Z_plus. change (inject_Z 1) with 1. lra.
      * rewrite inject_Z_mult, inject_Z_plus in *.
        change (inject_Z 5) with 5 in *. change (inject_Z 1) with 1. lra.
    + apply (double_between (k + 1) (5 * (k + 1))); [lia | lia | |].
      * rewrite inject_Z_plus. change (inject_Z 1) with 1. lra.
      * rewrite inject_Z_mult, inject_Z_plus in *.
        change (inject_Z 5) with 5 in *. change (inject_Z 1) with 1. lra.
Qed.

(** Rounding a number between 1 and 5 to one decimal, as the hooks do. *)
Lemma oneDecimal_bounds (x : Q) :
  1 <= x -> x <= 5 ->
  1 <= JS.div (JS.Math_round (JS.mul x 10)) 10
  /\ JS.div (JS.Math_round (JS.mul x 10)) 10 <= 5.
Proof.
  intros H1 H5.
  assert (M : inject_Z 10 <= JS.mul x 10 /\ JS.mul x 10 <= inject_Z 50).
  { apply (double_between 10 50); [lia | lia | |];
      change (inject_Z 10) with 10; change (inject_Z 50) with 50; lra. }
  destruct M as [M1 M2].
  destruct (Math_round_between 10 50 _ M1 M2) as [R1 R2].
  change (inject_Z 10) with 10 in R1. change (inject_Z 50) with 50 in R2.
  apply (double_between 1 5); [lia | lia | |].
  - change (inject_Z 1) with 1. apply Qle_shift_div_l; [reflexivity | lra].
  - change (inject_Z 5) with 5. apply Qle_shift_div_r; [reflexivity | lra].
Qed.

(** X18: the average that the hook after [save] computes from ratings
    between 1 and 5, at most [2^50] of them, is itself between 1
    and 5. *)
Theorem averageRating_bounds (ratings : list Q) :
  ratings <> [] ->
  (Z.of_nat (length ratings) <= 2 ^ 50)%Z ->
  Forall (fun r => 1 <= r /\ r <= 5) ratings ->
  1 <= averageRating ratings /\ averageRating ratings <= 5.
Proof.
  intros Hl Hn H. unfold averageRating, sumRatings.
  destruct (sumRatings_bounds ratings 0 0 H) as [S1 S2];
    [lia | lia | apply Qle_refl | apply Qle_refl |].
  rewrite Z.add_0_l in S1, S2. rewrite inject_Z_mult in S2.
  change (inject_Z 5) with 5 in S2.
  set (n := inject_Z (Z.of_nat (length ratings))) in *.
  assert (Hpos : 0 < n).
  { unfold n. change 0 with (inject_Z 0). rewrite <- Zlt_Qlt.
    destruct ratings; [congruence | cbn [length]; lia]. }
  apply oneDecimal_bounds.
  - apply (double_between 1 5); [lia | lia | |].
    + change (inject_Z 1) with 1. apply Qle_shift_div_l; [exact Hpos | lra].
    + change (inject_Z 5) with 5. apply Qle_shift_div_r; [exact Hpos | lra].
  - apply (double_between 1 5); [lia | lia | |].
    + change (inject_Z 1) with 1. apply Qle_shift_div_l; [exact Hpos | lra].
    + change (inject_Z 5) with 5. apply Qle_shift_div_r; [exact Hpos | lra].
Qed.

Lemma averageRating_bounds_witness :
  let ratings := [1; JS.double (27 # 10); 5; JS.double (27 # 10)] in
  1 <= averageRating ratings /\ averageRating ratings <= 5.
Proof.
  apply (averageRating_bounds
           [1; JS.double (27 # 10); 5; JS.double (27 # 10)]).
  - discriminate.
  - vm_compute. discriminate.
  - repeat constructor; vm_compute; discriminate.
Defined.

(** The overall rating that the hook before [save] computes from ratings
    between 1 and 5 lies between 1 and 5. *)
Lemma overall_bounds (food delivery service : Q) :
  1 <= food /\ food <= 5 ->
  1 <= delivery /\ delivery <= 5 ->
  1 <= service /\ service <= 5 ->
  1 <= JS.div
         (JS.Math_round
            (JS.mul (JS.div (JS.add (JS.add food delivery) service) 3) 10)) 10
  /\ JS.div
       (JS.Math_round
          (JS.mul (JS.div (JS.add (JS.add food delivery) service) 3) 10)) 10
     <= 5.
Proof.
  intros [F1 F2] [D1 D2] [S1 S2].
  assert (A : inject_Z 2 <= JS.add food delivery
              /\ JS.add food delivery <= inject_Z 10).
  { apply (double_between 2 10); [lia | lia | |];
      change (inject_Z 2) with 2; change (inject_Z 10) with 10; lra. }
  destruct A as [A1 A2].
  change (inject_Z 2) with 2 in A1. change (inject_Z 10) with 10 in A2.
  assert (B : inject_Z 3 <= JS.add (JS.add food delivery) service
              /\ JS.add (JS.add food delivery) service <= inject_Z 15).
  { apply (double_between 3 15); [lia | lia | |];
      change (inject_Z 3) with 3; change (inject_Z 15) with 15; lra. }
  destruct B as [B1 B2].
  change (inject_Z 3) with 3 in B1. change (inject_Z 15) with 15 in B2.
  assert (C : 1 <= JS.div (JS.add (JS.add food delivery) service) 3
              /\ JS.div (JS.add (JS.add food delivery) service) 3 <= 5).
  { apply (double_between 1 5); [lia | lia | |].
    - change (inject_Z 1) with 1. apply Qle_shift_div_l; [reflexivity | lra].
    - change (inject_Z 5) with 5. apply Qle_shift_div_r; [reflexivity | lra]. }
  destruct C as [C1 C2].
  exact (oneDecimal_bounds _ C1 C2).
Qed.

(** X19: when a rating of a review is modified, the hook before [save]
    recomputes [overall] from the food, delivery and service ratings
    alone, whatever [overall] the document carried; for ratings between 1
    and 5 the result lies between 1 and 5; the other fields are kept. *)
Theorem reviewPreSave_overall (r : Review.t) :
  1 <= Review.food r /\ Review.food r <= 5 ->
  1 <= Review.delivery r /\ Review.delivery r <= 5 ->
  1 <= Review.service r /\ Review.service r <= 5 ->
  let r' := reviewPreSave true r in
  1 <= Review.overall r' /\ Review.overall r' <= 5
  /\ (forall r0,
        Review.food r0 = Review.food r ->
        Review.delivery r0 = Review.delivery r ->
        Review.service r0 = Review.service r ->
        Review.overall (reviewPreSave true r0) = Review.overall r')
  /\ Review.food r' = Review.food r
  /\ Review.delivery r' = Review.delivery r
  /\ Review.service r' = Review.service r
  /\ Review.order r' = Review.order r
  /\ Review.menuItems r' = Review.menuItems r.
Proof.
  intros F D S. cbv zeta.
  cbn [reviewPreSave Review.overall Review.food Review.delivery Review.service
       Review.order Review.menuItems].
  destruct (overall_bounds _ _ _ F D S) as [O1 O2].
  split; [exact O1|]. split; [exact O2|].
  split; [|repeat split].
  intros r0 E1 E2 E3. rewrite E1, E2, E3. reflexivity.
Qed.

Lemma reviewPreSave_overall_witness :
  let r := review 2 6 5 false in
  let r' := reviewPreSave true r in
  1 <= Review.overall r' /\ Review.overall r' <= 5
  /\ (forall r0,
        Review.food r0 = Review.food r ->
        Review.delivery r0 = Review.delivery r ->
        Review.service r0 = Review.service r ->
        Review.overall (reviewPreSave true r0) = Review.overall r')
  /\ Review.food r' = Review.food r
  /\ Review.delivery r' = Review.delivery r
  /\ Review.service r' = Review.service r
  /\ Review.order r' = Review.order r
  /\ Review.menuItems r' = Review.menuItems r.
Proof.
  apply (reviewPreSave_overall (review 2 6 5 false));
    split; vm_compute; discriminate.
Defined.

(** The hook stores 1.3 for the ratings 1, 1.05 and 2, whose mean 1.35
    is 13.499999999999998 tenths in doubles. *)
Example reviewPreSave_in_doubles :
  Review.overall
    (reviewPreSave true
       {| Review._id := 1; Review.order := 7; Review.customer := 20;
          Review.restaurant := 1; Review.deliveryPartner := None;
          Review.menuItems := [];
          Review.food := 1; Review.delivery := JS.double (105 # 100);
          Review.service := 2; Review.overall := 1;
          Review.isHidden := false |})
  = JS.double (13 # 10).
Proof. vm_compute. reflexivity. Qed.

(** X20: the hook before [save] of a delivery partner keeps the completion
    rate a percentage: with completed orders between 0 and the total, and a
    stored rate between 0 and 100, the rate after the hook is between 0 and
    100; it is 0 when no order is completed and 100 when all are; without
    orders the document is kept; running the hook twice changes nothing
    more. *)
Theorem partner_preSave_rate (p : DeliveryPartner.t) :
  let st := DeliveryPartner.statistics p in
  let st' := DeliveryPartner.statistics (DeliveryPartner.preSave p) in
  0 <= DeliveryPartner.completedOrders st ->
  DeliveryPartner.completedOrders st <= DeliveryPartner.totalOrders st ->
  0 <= DeliveryPartner.completionRate st ->
  DeliveryPartner.completionRate st <= 100 ->
  0 <= DeliveryPartner.completionRate st'
  /\ DeliveryPartner.completionRate st' <= 100
  /\ (0 < DeliveryPartner.totalOrders st ->
      DeliveryPartner.completedOrders st == 0 ->
      DeliveryPartner.completionRate st' = 0)
  /\ (0 < DeliveryPartner.totalOrders st ->
      DeliveryPartner.completedOrders st == DeliveryPartner.totalOrders st ->
      DeliveryPartner.completionRate st' = 100)
  /\ (DeliveryPartner.totalOrders st <= 0 ->
      DeliveryPartner.preSave p = p)
  /\ DeliveryPartner.preSave (DeliveryPartner.preSave p)
     = DeliveryPartner.preSave p.
Proof.
  cbv zeta. intros Hc Hle Hr0 Hr1. unfold DeliveryPartner.preSave.
  destruct (JS.lt 0 (DeliveryPartner.totalOrders (DeliveryPartner.statistics p)))
    eqn:E.
  - apply lt_true in E.
    cbn [DeliveryPartner.completionRate DeliveryPartner.statistics
         DeliveryPartner.set_statistics DeliveryPartner.set_completionRate
         DeliveryPartner.totalOrders DeliveryPartner.completedOrders].
    rewrite (proj2 (lt_true _ _) E).
    destruct (percentage_in_doubles _ _ Hc Hle E) as [H1 H2].
    split; [exact H1|]. split; [exact H2|]. split; [|split; [|split]].
    + intros _ Hz. unfold JS.mul, JS.div.
      rewrite (double_zero (_ / _)) by (rewrite Hz; unfold Qdiv; ring).
      rewrite (double_zero (0 * 100)) by reflexivity. reflexivity.
    + intros _ Ha. unfold JS.mul, JS.div.
      assert (Q1 : DeliveryPartner.completedOrders (DeliveryPartner.statistics p)
                   / DeliveryPartner.totalOrders (DeliveryPartner.statistics p)
                   == 1).
      { rewrite Ha. apply Qmult_inv_r. lra. }
      rewrite (double_comp _ _ Q1). reflexivity.
    + intros H. exfalso. exact (Qlt_not_le _ _ E H).
    + reflexivity.
  - rewrite E. apply lt_false in E.
    split; [exact Hr0|]. split; [exact Hr1|]. split; [|split; [|split]].
    + intros H. exfalso. exact (Qlt_not_le _ _ H E).
    + intros H. exfalso. exact (Qlt_not_le _ _ H E).
    + reflexivity.
    + reflexivity.
Qed.

Lemma partner_preSave_rate_witness :
  let p := DeliveryPartner.set_statistics
             {| DeliveryPartner.totalOrders := 40;
                DeliveryPartner.completedOrders := 23;
                DeliveryPartner.cancelledOrders := 1;
                DeliveryPartner.rating_average := 0;
                DeliveryPartner.rating_count := 0;
                DeliveryPartner.completionRate := 0 |} Sample.partner in
  let st' := DeliveryPartner.statistics (DeliveryPartner.preSave p) in
  0 <= DeliveryPartner.completionRate st'
  /\ DeliveryPartner.completionRate st' <= 100
  /\ DeliveryPartner.preSave (DeliveryPartner.preSave p)
     = DeliveryPartner.preSave p.
Proof.
  intros p st'.
  assert (P1 : 0 <= DeliveryPartner.completedOrders (DeliveryPartner.statistics p))
    by discriminate.
  assert (P2 : DeliveryPartner.completedOrders (DeliveryPartner.statistics p)
               <= DeliveryPartner.totalOrders (DeliveryPartner.statistics p))
    by discriminate.
  assert (P3 : 0 <= DeliveryPartner.completionRate (DeliveryPartner.statistics p))
    by discriminate.
  assert (P4 : DeliveryPartner.completionRate (DeliveryPartner.statistics p)
               <= 100)
    by discriminate.
  destruct (partner_preSave_rate p P1 P2 P3 P4) as (H1 & H2 & _ & _ & _ & H5).
  split; [exact H1|]. split; [exact H2 | exact H5].
Defined.

(** The hook stores 57 for 23 completed orders of 40: the ratio times
    100 is 57.49999999999999 in doubles. *)
Example partner_preSave_in_doubles :
  DeliveryPartner.completionRate
    (DeliveryPartner.statistics
       (DeliveryPartner.preSave
          (DeliveryPartner.set_statistics
             {| DeliveryPartner.totalOrders := 40;
                DeliveryPartner.completedOrders := 23;
                DeliveryPartner.cancelledOrders := 1;
                DeliveryPartner.rating_average := 0;
                DeliveryPartner.rating_count := 0;
                DeliveryPartner.completionRate := 0 |} Sample.partner)))
  = 57.
Proof. vm_compute. reflexivity. Qed.

(** X21: for a menu item whose prices pass the validators of the schema,
    [finalPrice] lies between 0 and the price and [discountPercentage]
    between 0 and 100; a discounted price of 0 counts as no discount: the
    final price is then the full price. *)
Theorem menuItem_virtuals (m : MenuItem.t) :
  validPrices m = true ->
  0 <= MenuItem.finalPrice m /\ MenuItem.finalPrice m <= MenuItem.price m
  /\ 0 <= discountPercentage m /\ discountPercentage m <= 100
  /\ (forall d, MenuItem.discountedPrice m = Some d -> d == 0 ->
      MenuItem.finalPrice m = MenuItem.price m /\ discountPercentage m = 0)
  /\ (forall d, MenuItem.discountedPrice m = Some d -> ~ d == 0 ->
      MenuItem.finalPrice m = d /\ d < MenuItem.price m).
Proof.
  unfold validPrices, MenuItem.finalPrice, discountPercentage, JS.or_undef,
    JS.or_num.
  intros H. apply andb_true_iff in H as [Hp H]. apply le_true in Hp.
  destruct (MenuItem.discountedPrice m) as [d|].
  2:{ refine (conj Hp (conj (Qle_refl _) (conj (Qle_refl _) (conj _ (conj _ _)))));
      [discriminate | discriminate | discriminate]. }
  apply andb_true_iff in H as [Hd H]. apply le_true in Hd.
  unfold JS.truthy in *.
  destruct (Qeq_bool d 0) eqn:E; cbn [negb orb] in *.
  - apply Qeq_bool_eq in E.
    refine (conj Hp (conj (Qle_refl _) (conj (Qle_refl _) (conj _ (conj _ _))))).
    + discriminate.
    + intros d' _ _. split; reflexivity.
    + intros d' [= <-] Hn. contradiction.
  - apply lt_true in H. apply Qeq_bool_neq in E.
    assert (Hpos : 0 < MenuItem.price m) by (apply Qle_lt_trans with d; assumption).
    assert (S0 : 0 <= JS.sub (MenuItem.price m) d) by (apply double_nonneg; lra).
    assert (S1 : JS.sub (MenuItem.price m) d
                 <= MenuItem.price m * (1 + JS.pow2 (-53))).
    { apply Qle_trans with (JS.double (MenuItem.price m)).
      - apply double_mono. lra.
      - apply double_upper. lra. }
    assert (R0 : 0 <= JS.div (JS.sub (MenuItem.price m) d) (MenuItem.price m)).
    { apply double_nonneg. apply Qle_shift_div_l; [exact Hpos | lra]. }
    assert (R1 : JS.div (JS.sub (MenuItem.price m) d) (MenuItem.price m) <= 1).
    { assert (T : JS.double (1 + JS.pow2 (-53)) = 1) by (vm_compute; reflexivity).
      rewrite <- T. apply double_mono.
      apply Qle_shift_div_r; [exact Hpos|].
      rewrite Qmult_comm. exact S1. }
    destruct (percentage_of_ratio _ R0 R1) as [H1 H2].
    refine (conj Hd (conj (Qlt_le_weak _ _ H) (conj H1 (conj H2 (conj _ _))))).
    + intros d' [= <-] Hz. contradiction.
    + intros d' [= <-] _. split; [reflexivity | exact H].
Qed.

Lemma menuItem_virtuals_witness :
  0 <= MenuItem.finalPrice Sample.burger
  /\ MenuItem.finalPrice Sample.burger <= MenuItem.price Sample.burger
  /\ 0 <= discountPercentage Sample.burger
  /\ discountPercentage Sample.burger <= 100
  /\ MenuItem.finalPrice Sample.burger = 80
  /\ 80 < MenuItem.price Sample.burger.
Proof.
  destruct (menuItem_virtuals Sample.burger eq_refl)
    as (H1 & H2 & H3 & H4 & _ & H6).
  destruct (H6 80 eq_refl) as [H7 H8]; [discriminate|].
  repeat split; assumption.
Defined.

Lemma filter_disjoint_length {A : Type} (f g : A -> bool) (l : list A) :
  (forall x, f x = true -> g x = false) ->
  (length (List.filter f l) + length (List.filter g l) <= length l)%nat.
Proof.
  intros H. induction l as [|x l IH]; simpl; [lia|].
  destruct (f x) eqn:E.
  - rewrite (H x E). simpl. lia.
  - destruct (g x); simpl; lia.
Qed.

(** X22: the statistics of [getOrderStats] are consistent: the delivered
    and the cancelled orders together are no more than the orders counted,
    the completion rate is a percentage, and when no order of the selection
    is delivered the revenue and the average order value are 0. *)
Theorem orderStats_consistent (matched : list Order.t) :
  let stats := orderStats matched in
  (stats_completedOrders stats + stats_cancelledOrders stats
   <= stats_totalOrders stats)%nat
  /\ 0 <= stats_completionRate stats /\ stats_completionRate stats <= 100
  /\ (stats_completedOrders stats = 0%nat ->
      stats_completionRate stats == 0
      /\ stats_totalRevenue stats = 0 /\ stats_averageOrderValue stats = 0).
Proof.
  cbv zeta. unfold orderStats. cbv zeta.
  cbn [stats_totalOrders stats_completedOrders stats_cancelledOrders
       stats_completionRate stats_totalRevenue stats_averageOrderValue].
  set (n := length matched).
  set (delivered := withStatus OrderStatus.delivered matched).
  assert (Hle : (length delivered <= n)%nat) by apply List.filter_length_le.
  split.
  { apply filter_disjoint_length. intros o Ho.
    apply bool_decide_eq_true_1 in Ho. apply bool_decide_eq_false_2.
    rewrite Ho. discriminate. }
  destruct (0 <? n)%nat eqn:En.
  - apply Nat.ltb_lt in En.
    destruct (percentage_in_doubles (inject_Z (Z.of_nat (length delivered)))
                (inject_Z (Z.of_nat n))) as [H1 H2].
    + change 0 with (inject_Z 0). rewrite <- Zle_Qle. lia.
    + rewrite <- Zle_Qle. lia.
    + change 0 with (inject_Z 0). rewrite <- Zlt_Qlt. lia.
    + split; [exact H1|]. split; [exact H2|].
      intros H0. destruct delivered; [|discriminate].
      split; [|split; reflexivity].
      cbn [length Z.of_nat]. unfold JS.mul, JS.div.
      rewrite (double_zero (_ / _))
        by (unfold Qdiv; change (inject_Z 0) with 0; ring).
      rewrite (double_zero (0 * 100)) by reflexivity. reflexivity.
  - split; [apply Qle_refl|]. split; [discriminate|].
    intros H0. destruct delivered; [|discriminate].
    split; [reflexivity | split; reflexivity].
Qed.

Lemma orderStats_consistent_witness :
  let stats := orderStats [] in
  stats_completionRate stats == 0
  /\ stats_totalRevenue stats = 0 /\ stats_averageOrderValue stats = 0.
Proof.
  exact (proj2 (proj2 (proj2 (orderStats_consistent []))) eq_refl).
Defined.
End ModelProperties.

(** ** Reviews *)

Section ReviewProperties.
Local Open Scope Q_scope.


Lemma find_In_some {A : Type} (P : A -> bool) (l : list A) (x : A) :
  In x l -> P x = true -> exists y, List.find P l = Some y.
Proof.
  intros Hin HP. destruct (List.find P l) as [y|] eqn:E; [eauto|].
  rewrite (find_none P l E x Hin) in HP. discriminate.
Qed.



Lemma reviews_saveReview modified doc s :
  reviews (saveReview modified doc s)
  = storeReview (reviewPreSave modified doc) (reviews s).
Proof. unfold saveReview. rewrite reviews_reviewPostSave. reflexivity. Qed.






(** What a successful [createReview] has checked and written. *)
Lemma createReview_success user orderId ratings menuItems newId s :
  succeeded (fst (createReview user orderId ratings menuItems newId s)) = true ->
  exists order,
    orders s !! orderId = Some order
    /\ Order.customer order = User._id user
    /\ Order.orderStatus order = OrderStatus.delivered
    /\ List.find (fun r => bool_decide (Review.order r = orderId)) (reviews s)
       = None
    /\ validReviewData ratings menuItems = true
    /\ snd (createReview user orderId ratings menuItems newId s)
       = saveReview true
           {| Review._id := newId;
              Review.order := orderId;
              Review.customer := User._id user;
              Review.restaurant := Order.restaurant order;
              Review.deliveryPartner := Order.deliveryPartner order;
              Review.menuItems := menuItems;
              Review.food := default 0 (body_food ratings);
              Review.delivery := default 0 (body_delivery ratings);
              Review.service := default 0 (body_service ratings);
              Review.overall := default 0 (body_overall ratings);
              Review.isHidden := false |} s.
Proof.
  unfold createReview.
  destruct (orders s !! orderId) as [order|]; [|discriminate].
  destruct (bool_decide (Order.customer order = User._id user)) eqn:Hc;
    [|discriminate].
  destruct (bool_decide (Order.orderStatus order = OrderStatus.delivered))
    eqn:Hs; [|discriminate].
  cbn [negb].
  destruct (List.find _ (reviews s)); [discriminate|].
  destruct (validReviewData ratings menuItems); [|discriminate].
  intros _. exists order.
  apply bool_decide_eq_true_1 in Hc. apply bool_decide_eq_true_1 in Hs.
  repeat split; auto.
Qed.

Lemma validRating_bounds (r : option Q) :
  validRating r = true -> 1 <= default 0 r /\ default 0 r <= 5.
Proof.
  destruct r as [v|]; [|discriminate]. cbn.
  intros H. apply andb_true_iff in H as [H1 H2].
  split; apply le_true; assumption.
Qed.

(** X25: [createReview] writes nothing unless it answers 201.  When it
    does, the order exists, belongs to the caller, is delivered and had no
    review; a review of the order is stored for the caller, the restaurant
    and the delivery partner of the order; its overall rating is the one
    that the hook before [save] computes from the food, delivery and
    service ratings, between 1 and 5, whatever overall rating the request
    carried; no order changes in the fields modelled here (the copy of the
    ratings that the handler keeps on the order is not among them). *)
Theorem createReview_guards user orderId ratings menuItems newId s :
  (succeeded (fst (createReview user orderId ratings menuItems newId s)) = false ->
   snd (createReview user orderId ratings menuItems newId s) = s)
  /\ (succeeded (fst (createReview user orderId ratings menuItems newId s)) = true ->
      exists order r,
        orders s !! orderId = Some order
        /\ Order.customer order = User._id user
        /\ Order.orderStatus order = OrderStatus.delivered
        /\ Forall (fun r0 => Review.order r0 <> orderId) (reviews s)
        /\ In r (reviews (snd (createReview user orderId ratings menuItems newId s)))
        /\ Review.order r = orderId
        /\ Review.customer r = User._id user
        /\ Review.restaurant r = Order.restaurant order
        /\ Review.deliveryPartner r = Order.deliveryPartner order
        /\ Review.overall r
           = JS.div
               (JS.Math_round
                  (JS.mul
                     (JS.div
                        (JS.add (JS.add (Review.food r) (Review.delivery r))
                                (Review.service r)) 3) 10)) 10
        /\ 1 <= Review.overall r /\ Review.overall r <= 5
        /\ orders (snd (createReview user orderId ratings menuItems newId s))
           = orders s).
Proof.
  split.
  { unfold createReview.
    destruct (orders s !! orderId) as [order|]; [|reflexivity].
    destruct (negb _); [reflexivity|]. destruct (negb _); [reflexivity|].
    destruct (List.find _ _); [reflexivity|].
    destruct (validReviewData _ _); [discriminate | reflexivity]. }
  intros H.
  destruct (createReview_success _ _ _ _ _ _ H)
    as (order & Ho & Hc & Hs & Hn & Hv & E).
  rewrite E. clear E H.
  set (doc := {| Review._id := newId |}).
  exists order, (reviewPreSave true doc).
  rewrite reviews_saveReview, saveReview_orders.
  unfold validReviewData in Hv.
  repeat (apply andb_true_iff in Hv as [Hv ?]).
  destruct (validRating_bounds _ Hv) as [F1 F2].
  destruct (validRating_bounds (body_delivery ratings)) as [D1 D2]; [assumption|].
  destruct (validRating_bounds (body_service ratings)) as [S1 S2]; [assumption|].
  destruct (overall_bounds _ _ _ (conj F1 F2) (conj D1 D2) (conj S1 S2))
    as [B1 B2].
  split; [exact Ho|]. split; [exact Hc|]. split; [exact Hs|].
  split.
  { apply List.Forall_forall. intros r0 Hin Heq.
    apply (find_none _ _ Hn) in Hin.
    apply bool_decide_eq_false_1 in Hin. contradiction. }
  split; [apply storeReview_In|].
  repeat split; assumption.
Qed.

Lemma createReview_guards_witness :
  exists order r,
    orders deliveredStore !! 7%N = Some order
    /\ Order.customer order = User._id Sample.customer
    /\ Order.orderStatus order = OrderStatus.delivered
    /\ Forall (fun r0 => Review.order r0 <> 7%N) (reviews deliveredStore)
    /\ In r (reviews reviewedStore)
    /\ Review.order r = 7%N
    /\ Review.customer r = User._id Sample.customer
    /\ Review.restaurant r = Order.restaurant order
    /\ Review.deliveryPartner r = Order.deliveryPartner order
    /\ Review.overall r
       = JS.div
           (JS.Math_round
              (JS.mul
                 (JS.div
                    (JS.add (JS.add (Review.food r) (Review.delivery r))
                            (Review.service r)) 3) 10)) 10
    /\ 1 <= Review.overall r /\ Review.overall r <= 5
    /\ orders reviewedStore = orders deliveredStore.
Proof.
  apply (proj2 (createReview_guards Sample.customer 7 ratingsBody
                  [{| Review.item := 1; Review.rating := 4 |}] 1
                  deliveredStore)).
  vm_compute. reflexivity.
Defined.

(** X26: while a review of an order is stored, every [createReview] for
    that order, by any caller and with any content, fails and writes
    nothing, and the customer of the order, once it is delivered, is told
    that the review exists.  A successful [createReview] stores such a
    review.  The guard lasts as long as the review and no longer: in the
    sample store, once the review of order 7 is deleted, the same customer
    reviews order 7 again. *)
Theorem createReview_once user orderId ratings menuItems newId s :
  ((exists r, In r (reviews s) /\ Review.order r = orderId) ->
   succeeded (fst (createReview user orderId ratings menuItems newId s)) = false
   /\ snd (createReview user orderId ratings menuItems newId s) = s
   /\ (forall order,
         orders s !! orderId = Some order ->
         Order.customer order = User._id user ->
         Order.orderStatus order = OrderStatus.delivered ->
         createReview user orderId ratings menuItems newId s
         = (Json 400 false "Review already exists for this order", s)))
  /\ (succeeded (fst (createReview user orderId ratings menuItems newId s)) = true ->
      exists r,
        In r (reviews (snd (createReview user orderId ratings menuItems newId s)))
        /\ Review.order r = orderId)
  /\ (let s1 := snd (deleteReview Sample.customer 1 reviewedStore) in
      fst (deleteReview Sample.customer 1 reviewedStore)
      = Json 200 true "Review deleted successfully"
      /\ fst (createReview Sample.customer 7 ratingsBody [] 2 s1)
         = Json 201 true "Review created successfully"
      /\ length (reviews (snd (createReview Sample.customer 7 ratingsBody [] 2 s1)))
         = 1%nat).
Proof.
  split; [|split].
  - intros (r & Hin & Hr).
    assert (Hf : exists y,
               List.find (fun r => bool_decide (Review.order r = orderId))
                 (reviews s) = Some y).
    { apply find_In_some with r; [exact Hin|].
      apply bool_decide_eq_true_2. exact Hr. }
    destruct Hf as (y & Hf).
    unfold createReview. rewrite Hf.
    destruct (orders s !! orderId) as [order|];
      [|split; [reflexivity | split; [reflexivity | discriminate]]].
    destruct (bool_decide (Order.customer order = User._id user)) eqn:Hc;
      cbn [negb].
    2:{ split; [reflexivity | split; [reflexivity|]].
        intros o [= <-] Hc'. apply bool_decide_eq_false_1 in Hc. contradiction. }
    destruct (bool_decide (Order.orderStatus order = OrderStatus.delivered))
      eqn:Hs; cbn [negb].
    2:{ split; [reflexivity | split; [reflexivity|]].
        intros o [= <-] _ Hs'. apply bool_decide_eq_false_1 in Hs.
        contradiction. }
    split; [reflexivity | split; reflexivity].
  - intros H.
    destruct (createReview_success _ _ _ _ _ _ H)
      as (order & _ & _ & _ & _ & _ & E).
    rewrite E. clear E H.
    set (doc := {| Review._id := newId |}).
    exists (reviewPreSave true doc).
    rewrite reviews_saveReview. split; [apply storeReview_In | reflexivity].
  - by_evaluation.
Qed.

Lemma createReview_once_witness :
  succeeded (fst (createReview Sample.customer 7 ratingsBody [] 2 reviewedStore))
  = false
  /\ snd (createReview Sample.customer 7 ratingsBody [] 2 reviewedStore)
     = reviewedStore
  /\ (forall order,
        orders reviewedStore !! 7%N = Some order ->
        Order.customer order = User._id Sample.customer ->
        Order.orderStatus order = OrderStatus.delivered ->
        createReview Sample.customer 7 ratingsBody [] 2 reviewedStore
        = (Json 400 false "Review already exists for this order",
           reviewedStore)).
Proof.
  apply (proj1 (createReview_once Sample.customer 7 ratingsBody [] 2
                  reviewedStore)).
  assert (H : exists r, List.nth_error (reviews reviewedStore) 0 = Some r
                        /\ Review.order r = 7%N).
  { eexists. split; vm_compute; reflexivity. }
  destruct H as (r & Hn & Hr).
  exists r. split; [exact (nth_error_In _ _ Hn) | exact Hr].
Defined.

(** X27: [deleteReview] succeeds exactly when the review exists and the
    caller is its author or an admin, and writes nothing otherwise.  On
    success the reviews with the given [_id] are gone and every other
    review is kept; the ratings of restaurants, delivery partners and menu
    items are not recomputed. *)
Theorem deleteReview_spec (user : User.t) (id : ObjectId) (s : Store) :
  (succeeded (fst (deleteReview user id s)) = true
   <-> exists review,
         List.find (fun r => bool_decide (Review._id r = id)) (reviews s)
         = Some review
         /\ (Review.customer review = User._id user
             \/ User.role user = Role.admin))
  /\ (succeeded (fst (deleteReview user id s)) = false ->
      snd (deleteReview user id s) = s)
  /\ (succeeded (fst (deleteReview user id s)) = true ->
      (forall r, In r (reviews (snd (deleteReview user id s)))
                 <-> In r (reviews s) /\ Review._id r <> id)
      /\ restaurants (snd (deleteReview user id s)) = restaurants s
      /\ partners (snd (deleteReview user id s)) = partners s
      /\ menuItems (snd (deleteReview user id s)) = menuItems s).
Proof.
  assert (Hfilter : forall r,
             In r (List.filter
                     (fun r => negb (bool_decide (Review._id r = id)))
                     (reviews s))
             <-> In r (reviews s) /\ Review._id r <> id).
  { intros r. rewrite filter_In, negb_true_iff.
    split; intros [H1 H2]; (split; [exact H1|]).
    - apply bool_decide_eq_false in H2. exact H2.
    - apply bool_decide_eq_false. exact H2. }
  unfold deleteReview.
  destruct (List.find _ (reviews s)) as [review|].
  2:{ split; [|split; [reflexivity | discriminate]].
      split; [discriminate|]. intros (r & Hr & _). discriminate. }
  destruct (bool_decide (Review.customer review = User._id user)) eqn:Hc;
    destruct (bool_decide (User.role user = Role.admin)) eqn:Ha;
    cbn [negb andb fst snd succeeded reviews set_reviews restaurants partners
         menuItems].
  - apply bool_decide_eq_true_1 in Hc.
    split; [split; [intros _; exists review; auto | reflexivity]|].
    split; [discriminate|]. intros _. split; [exact Hfilter | repeat split].
  - apply bool_decide_eq_true_1 in Hc.
    split; [split; [intros _; exists review; auto | reflexivity]|].
    split; [discriminate|]. intros _. split; [exact Hfilter | repeat split].
  - apply bool_decide_eq_true_1 in Ha.
    split; [split; [intros _; exists review; auto | reflexivity]|].
    split; [discriminate|]. intros _. split; [exact Hfilter | repeat split].
  - apply bool_decide_eq_false_1 in Hc. apply bool_decide_eq_false_1 in Ha.
    split; [|split; [reflexivity | discriminate]].
    split; [discriminate|].
    intros (r & [= <-] & [H | H]); contradiction.
Qed.

Lemma deleteReview_spec_witness :
  (forall r, In r (reviews (snd (deleteReview Sample.customer 1 moderatedStore)))
             <-> In r (reviews moderatedStore) /\ Review._id r <> 1%N)
  /\ restaurants (snd (deleteReview Sample.customer 1 moderatedStore))
     = restaurants moderatedStore
  /\ partners (snd (deleteReview Sample.customer 1 moderatedStore))
     = partners moderatedStore
  /\ menuItems (snd (deleteReview Sample.customer 1 moderatedStore))
     = menuItems moderatedStore.
Proof.
  exact (proj2 (proj2 (deleteReview_spec Sample.customer 1 moderatedStore))
           eq_refl).
Defined.
End ReviewProperties.

(** ** Reading one order *)

Section OrderReadProperties.

(** X28: for an order whose restaurant exists, [getOrder] answers 200
    exactly to the customer of the order, to the user of its delivery
    partner and to an admin, and 403 to everyone else. *)
Theorem getOrder_access
    (user : User.t) (id : ObjectId) (s : Store) (order : Order.t)
    (r : Restaurant.t) :
  orders s !! id = Some order ->
  restaurants s !! Order.restaurant order = Some r ->
  (getOrder user id s = Json 200 true "Order retrieved successfully"
   <-> Order.customer order = User._id user
       \/ populatedPartnerUser order s = Some (User._id user)
       \/ User.role user = Role.admin)
  /\ (getOrder user id s = Json 403 false "Access denied"
      <-> ~ (Order.customer order = User._id user
             \/ populatedPartnerUser order s = Some (User._id user)
             \/ User.role user = Role.admin)).
Proof.
  intros Ho Hr. unfold getOrder, hasAccess. rewrite Ho.
  destruct (bool_decide (Order.customer order = User._id user)) eqn:Hc.
  { apply bool_decide_eq_true_1 in Hc. split.
    - split; [auto | reflexivity].
    - split; [discriminate|]. intros H. exfalso. apply H. auto. }
  apply bool_decide_eq_false_1 in Hc. rewrite Hr. cbv zeta.
  rewrite (bool_decide_eq_false_2 (None = Some (User._id user)))
    by discriminate.
  cbn [orb].
  destruct (bool_decide (populatedPartnerUser order s = Some (User._id user)))
    eqn:Hp.
  { apply bool_decide_eq_true_1 in Hp. split.
    - split; [auto | reflexivity].
    - split; [discriminate|]. intros H. exfalso. apply H. auto. }
  apply bool_decide_eq_false_1 in Hp. cbn [orb].
  destruct (bool_decide (User.role user = Role.admin)) eqn:Ha.
  { apply bool_decide_eq_true_1 in Ha. split.
    - split; [auto | reflexivity].
    - split; [discriminate|]. intros H. exfalso. apply H. auto. }
  apply bool_decide_eq_false_1 in Ha. split.
  - split; [discriminate|]. intros [H | [H | H]]; contradiction.
  - split; [|reflexivity]. intros _ [H | [H | H]]; contradiction.
Qed.

Lemma getOrder_access_witness :
  (getOrder Sample.rider 7 acceptedStore
   = Json 200 true "Order retrieved successfully"
   <-> 20%N = User._id Sample.rider
       \/ Some 40%N = Some (User._id Sample.rider)
       \/ User.role Sample.rider = Role.admin)
  /\ (getOrder Sample.rider 7 acceptedStore = Json 403 false "Access denied"
      <-> ~ (20%N = User._id Sample.rider
             \/ Some 40%N = Some (User._id Sample.rider)
             \/ User.role Sample.rider = Role.admin)).
Proof.
  destruct (orders acceptedStore !! 7%N) as [order|] eqn:Ho;
    [|vm_compute in Ho; discriminate].
  assert (Hc : Order.customer order = 20%N).
  { vm_compute in Ho. injection Ho as <-. reflexivity. }
  assert (Hp : populatedPartnerUser order acceptedStore = Some 40%N).
  { vm_compute in Ho. injection Ho as <-. vm_compute. reflexivity. }
  rewrite <- Hc, <- Hp.
  apply (getOrder_access Sample.rider 7 acceptedStore order Sample.restaurant Ho).
  vm_compute in Ho. injection Ho as <-. vm_compute. reflexivity.
Defined.

(** X29: the owner of the restaurant of an order, when neither its
    customer, nor the user of its delivery partner, nor an admin, is denied
    by [getOrder], while [updateOrderStatus] grants the same caller the
    right to change the status of the order. *)
Theorem getOrder_denies_owner
    (user : User.t) (id : ObjectId) (s : Store) (order : Order.t)
    (r : Restaurant.t) (status : string) :
  orders s !! id = Some order ->
  restaurants s !! Order.restaurant order = Some r ->
  Restaurant.owner r = User._id user ->
  Order.customer order <> User._id user ->
  populatedPartnerUser order s <> Some (User._id user) ->
  User.role user <> Role.admin ->
  getOrder user id s = Json 403 false "Access denied"
  /\ canUpdate user status order s = Some true.
Proof.
  intros Ho Hr Hw Hc Hp Ha. unfold getOrder, hasAccess, canUpdate.
  rewrite Ho, Hr. cbv zeta.
  rewrite (bool_decide_eq_false_2 _ Hc), (bool_decide_eq_false_2 _ Hp),
    (bool_decide_eq_false_2 _ Ha), (bool_decide_eq_true_2 _ Hw).
  split; reflexivity.
Qed.

Lemma getOrder_denies_owner_witness :
  getOrder Sample.owner 7 acceptedStore = Json 403 false "Access denied"
  /\ exists order,
       orders acceptedStore !! 7%N = Some order
       /\ canUpdate Sample.owner "delivered" order acceptedStore = Some true.
Proof.
  assert (E : exists order,
             orders acceptedStore !! 7%N = Some order
             /\ restaurants acceptedStore !! Order.restaurant order
                = Some Sample.restaurant
             /\ Restaurant.owner Sample.restaurant = User._id Sample.owner
             /\ Order.customer order <> User._id Sample.owner
             /\ populatedPartnerUser order acceptedStore
                <> Some (User._id Sample.owner)
             /\ User.role Sample.owner <> Role.admin).
  { eexists. refine (conj _ (conj _ (conj _ (conj _ (conj _ _))))).
    - vm_compute. reflexivity.
    - vm_compute. reflexivity.
    - reflexivity.
    - vm_compute. discriminate.
    - vm_compute. discriminate.
    - discriminate. }
  destruct E as (order & Ho & Hr & Hw & Hc & Hp & Ha).
  destruct (getOrder_denies_owner Sample.owner 7 acceptedStore order
              Sample.restaurant "delivered" Ho Hr Hw Hc Hp Ha) as [H1 H2].
  split; [exact H1|]. exists order. split; [exact Ho | exact H2].
Defined.
End OrderReadProperties.
